(** * Supervised classification notebook: a shallow embedding

    The notebook [supervised_classification.ipynb] loads four tabular
    datasets, trains four scikit-learn classifiers on each of them and
    reports accuracy and per-label precision / recall / F1.

    The embedding follows the notebook cell by cell.  Python exceptions are
    an error monad, the interpreter's global variables and estimator objects
    are an explicit store, pandas frames are row-major tables of scalars, and
    Python dictionaries are finite maps.  Floating-point numbers are
    idealised as exact rationals ([Qc], rationals in lowest terms, so that
    [1] and [1.0] are the same key of a dictionary).

    What the notebook imports from pandas, scikit-learn and numpy is written
    down from the documented behaviour of those libraries; what is inherently
    outside the notebook (file contents, the numeric parsers, the text of a
    float, the state of NumPy's global generator and the pseudo-random
    permutation drawn from it or for a seed, and the learning algorithms) is
    a variable of the section [Notebook]. *)

From Stdlib Require Import QArith Qcanon Qround Lqa Ascii String.
From stdpp Require Import gmap strings list fin_maps sorting pretty.

Local Open Scope string_scope.
Local Open Scope list_scope.
Local Open Scope nat_scope.

(** ** Exceptions *)

Inductive exn :=
| KeyError | IndexError | ValueError | TypeError
| AttributeError | NameError | FileNotFoundError.

Inductive result (A : Type) :=
| Ok (a : A)
| Raise (e : exn).
Arguments Ok {A} a.
Arguments Raise {A} e.

Definition rbind {A B} (m : result A) (k : A → result B) : result B :=
  match m with
  | Ok a => k a
  | Raise e => Raise e
  end.

Global Instance result_bind : MBind result := λ A B k m, rbind m k.
Global Instance result_ret : MRet result := λ A, Ok.

(** [try: body except: handler] with a bare [except]. *)
Definition try_except {A} (body handler : result A) : result A :=
  match body with
  | Ok a => Ok a
  | Raise _ => handler
  end.

(** [for x in xs: acc = body x acc], stopping at the first exception. *)
Fixpoint for_each {A S} (xs : list A) (body : A → S → result S) (acc : S)
  : result S :=
  match xs with
  | [] => Ok acc
  | x :: xs' => rbind (body x acc) (for_each xs' body)
  end.

(** ** Scalars, floats and Python objects *)

(** A cell of a frame, a label: a number, a string or the missing marker
    [float('nan')]. *)
Inductive scalar :=
| SNum (q : Qc)
| SStr (s : string)
| SNaN.

Global Instance scalar_eq_dec : EqDecision scalar.
Proof. solve_decision. Defined.

Global Instance scalar_countable : Countable scalar.
Proof.
  refine (inj_countable'
    (λ v, match v with
          | SNum q => inl q
          | SStr s => inr (inl s)
          | SNaN => inr (inr ())
          end)
    (λ c, match c with
          | inl q => SNum q
          | inr (inl s) => SStr s
          | inr (inr _) => SNaN
          end) _).
  by intros [].
Defined.

(** A float produced by a metric: a number or [nan]. *)
Inductive pyfloat :=
| FNum (q : Qc)
| FNaN.

Global Instance pyfloat_eq_dec : EqDecision pyfloat.
Proof. solve_decision. Defined.

(** An element of a label list after [.values.tolist()]: a bare value (from
    a one-dimensional array) or a row, itself a list (from a two-dimensional
    array). *)
Inductive pyobj :=
| Bare (v : scalar)
| Wrapped (vs : list scalar).

Global Instance pyobj_eq_dec : EqDecision pyobj.
Proof. solve_decision. Defined.

Definition is_bare (o : pyobj) : Prop :=
  match o with Bare _ => True | Wrapped _ => False end.

Definition is_nan (v : scalar) : bool :=
  match v with SNaN => true | _ => false end.

Definition is_str (v : scalar) : bool :=
  match v with SStr _ => true | _ => false end.

(** A number that is not an integer. *)
Definition is_fraction (v : scalar) : bool :=
  match v with
  | SNum q => negb (Qden q =? 1)%positive
  | _ => false
  end.

Definition Qc_of_nat (n : nat) : Qc := Q2Qc (inject_Z (Z.of_nat n)).

(** ** Rounded scores *)

(** A float with two decimals: a whole number of hundredths ([nan] is what
    rounding makes of [nan]). *)
Definition two_decimals (x : pyfloat) : Prop :=
  match x with
  | FNum q => ∃ k : Z, q = Q2Qc (inject_Z k / inject_Z 100)
  | FNaN => True
  end.

(** [r] is [x] rounded to two decimals, whichever way a tie falls: a whole
    number of hundredths at most half a hundredth away from [x].  The
    notebook rounds binary floats, and a score that sits, as a rational,
    halfway between two hundredths lies on one side or the other of the
    middle once it is a float, so that either neighbour can come out. *)
Definition nearest_hundredth (x r : pyfloat) : Prop :=
  match x, r with
  | FNum a, FNum b =>
      (∃ k : Z, b = Q2Qc (inject_Z k / inject_Z 100))
      ∧ (b - a <= Q2Qc (1 # 200))%Qc ∧ (a - b <= Q2Qc (1 # 200))%Qc
  | FNaN, FNaN => True
  | _, _ => False
  end.

(** A score that is a number between 0 and 1. *)
Definition unit_score (x : pyfloat) : Prop :=
  ∃ q, x = FNum q ∧ (0 <= q)%Qc ∧ (q <= 1)%Qc.

(** ** sklearn.metrics *)

(** The two shapes that [column_or_1d] flattens: a one-dimensional
    sequence, and a single column. *)
Fixpoint ravel_bare (y : list pyobj) : option (list scalar) :=
  match y with
  | [] => Some []
  | Bare v :: y' => cons v <$> ravel_bare y'
  | Wrapped _ :: _ => None
  end.

Fixpoint ravel_column (y : list pyobj) : option (list scalar) :=
  match y with
  | [] => Some []
  | Wrapped [v] :: y' => cons v <$> ravel_column y'
  | _ :: _ => None
  end.

(** [unique_labels]: the distinct values of both sequences.  numpy returns
    them sorted; the order plays no part in what follows (membership, the
    number of values and an exact sum over them). *)
Definition unique_labels (g p : list scalar) : list scalar :=
  remove_dups (g ++ p).

Definition count_occ_label (l : scalar) (ys : list scalar) : nat :=
  length (filter (λ v, v = l) ys).

(** Positions where both sequences carry [l]. *)
Definition true_positives (l : scalar) (g p : list scalar) : nat :=
  length (filter (λ gp : scalar * scalar, gp.1 = l ∧ gp.2 = l) (zip g p)).

(** [_prf_divide] with [zero_division='warn']: 0 where the denominator is 0
    (the warning is silenced by [warnings.filterwarnings('ignore')]). *)
Definition prf_divide (num den : nat) : Qc :=
  if (den =? 0)%nat then 0%Qc else (Qc_of_nat num / Qc_of_nat den)%Qc.

Definition precision_of (g p : list scalar) (l : scalar) : Qc :=
  prf_divide (true_positives l g p) (count_occ_label l p).

Definition recall_of (g p : list scalar) (l : scalar) : Qc :=
  prf_divide (true_positives l g p) (count_occ_label l g).

Definition f1_of (g p : list scalar) (l : scalar) : Qc :=
  let pr := precision_of g p l in
  let rc := recall_of g p l in
  if decide ((pr + rc)%Qc = 0%Qc) then 0%Qc
  else ((1 + 1) * pr * rc / (pr + rc))%Qc.

Inductive average_mode := Binary | Macro.

(** [_check_set_wise_labels]: with [average='binary'] the target must have
    at most two values and, when it has two, [pos_label] must be one of
    them.  With another average [pos_label] is ignored (with a warning). *)
Definition check_set_wise_labels (g p : list scalar) (average : average_mode)
    (pos_label : scalar) : result (list scalar) :=
  let present_labels := unique_labels g p in
  match average with
  | Binary =>
      if (2 <? length present_labels)%nat then Raise ValueError
      else if bool_decide (pos_label ∉ present_labels)
              && (2 <=? length present_labels)%nat then Raise ValueError
      else Ok [pos_label]
  | Macro => Ok present_labels
  end.

Definition Qc_sum (xs : list Qc) : Qc := foldr Qcplus 0%Qc xs.

(** [np.average] of the per-class scores. *)
Definition np_average (xs : list Qc) : pyfloat :=
  match xs with
  | [] => FNaN
  | _ => FNum (Qc_sum xs / Qc_of_nat (length xs))%Qc
  end.

(** The fraction of positions where both sequences agree; [nan] for empty
    sequences. *)
Definition accuracy_of (g p : list scalar) : pyfloat :=
  match g with
  | [] => FNaN
  | _ =>
      FNum (Qc_of_nat (length (filter (λ gp : scalar * scalar, gp.1 = gp.2)
                                      (zip g p)))
            / Qc_of_nat (length g))%Qc
  end.

(** ** The values of the [evaluation] dictionary *)

Record prf := mk_prf { precision : pyfloat; recall : pyfloat; f1 : pyfloat }.

Global Instance prf_eq_dec : EqDecision prf.
Proof. solve_decision. Defined.

(** A value of the [evaluation] dictionary: the float stored under
    ['accuracy'], or the dictionary with keys ['precision'], ['recall'] and
    ['f1'] stored under a label. *)
Inductive evalue :=
| EFloat (x : pyfloat)
| EScores (m : prf).

Global Instance evalue_eq_dec : EqDecision evalue.
Proof. solve_decision. Defined.

(** Whether the binary computation goes through for a label, told from the
    flat sequences. *)
Definition binary_accepted (g p : list scalar) (l : scalar) : bool :=
  negb (2 <? length (unique_labels g p))
  && negb (bool_decide (l ∉ unique_labels g p)
           && (2 <=? length (unique_labels g p))).

(** ** pandas frames *)

(** A frame: its column labels and its rows.  [read_csv] labels the columns
    [0, 1, ...] when the file has no header and by the header's names
    otherwise; a label is a scalar in both cases.  A short row reads as
    missing in the columns it lacks. *)
Record DataFrame := mk_frame {
  columns : list scalar;
  rows : list (list scalar)
}.

Definition SInt (z : Z) : scalar := SNum (Q2Qc (inject_Z z)).

(** The labels [0 .. n-1] of a header-less file. *)
Definition range_index (n : nat) : list scalar :=
  (λ i, SInt (Z.of_nat i)) <$> seq 0 n.

Definition n_columns (df : DataFrame) : nat := length (columns df).

Definition cell_at (j : nat) (row : list scalar) : scalar :=
  default SNaN (row !! j).

(** The values of the column at position [j]. *)
Definition column_at (j : nat) (df : DataFrame) : list scalar :=
  cell_at j <$> rows df.

Definition col_position (label : scalar) (df : DataFrame) : option nat :=
  fst <$> list_find (λ c, c = label) (columns df).

(** [df[label]] *)
Definition getitem (df : DataFrame) (label : scalar) : result (list scalar) :=
  match col_position label df with
  | Some j => Ok (column_at j df)
  | None => Raise KeyError
  end.

(** [df.columns[-1]] *)
Definition last_label (df : DataFrame) : result scalar :=
  match last (columns df) with
  | Some c => Ok c
  | None => Raise IndexError
  end.

(** [df[label] = col] *)
Definition setitem (df : DataFrame) (label : scalar) (col : list scalar)
  : DataFrame :=
  match col_position label df with
  | Some j => mk_frame (columns df) (zip_with (λ r v, <[j := v]> r) (rows df)
      col)
  | None => mk_frame (columns df ++ [label]) (zip_with (λ r v, r ++ [v]) (rows
      df) col)
  end.

(** Every row has one cell per column, and there is a column. *)
Definition frame_ok (df : DataFrame) : Prop :=
  1 ≤ n_columns df ∧ Forall (λ r, length r = n_columns df) (rows df).

Global Instance frame_ok_dec df : Decision (frame_ok df).
Proof. unfold frame_ok. apply _. Defined.

(** Cell-wise operations. *)
Definition frame_map (f : scalar → scalar) (df : DataFrame) : DataFrame :=
  mk_frame (columns df) (map (map f) (rows df)).

Definition frame_zip_with (f : scalar → scalar → scalar)
    (df other : DataFrame) : DataFrame :=
  mk_frame (columns df) (zip_with (zip_with f) (rows df) (rows other)).

(** [df.fillna(other)] for a frame [other] with the labels of [df]: a missing
    cell takes the cell of [other] at its position. *)
Definition fillna (df other : DataFrame) : DataFrame :=
  frame_zip_with (λ c o, if is_nan c then o else c) df other.

(** [df.replace(old, new)] *)
Definition replace_value (old new : scalar) (df : DataFrame) : DataFrame :=
  frame_map (λ c, if decide (c = old) then new else c) df.

(** [df.replace({k: v, ...})] *)
Definition replace_cell (d : list (scalar * scalar)) (c : scalar) : scalar :=
  match list_find (λ kv, kv.1 = c) d with
  | Some (_, kv) => kv.2
  | None => c
  end.

Definition replace_dict (d : list (scalar * scalar)) (df : DataFrame)
  : DataFrame :=
  frame_map (replace_cell d) df.

(** Re-laying a row from the labels [from] to the labels [to]. *)
Definition reindex_row (from to : list scalar) (row : list scalar)
  : list scalar :=
  (λ c, match list_find (λ c', c' = c) from with
        | Some (j, _) => cell_at j row
        | None => SNaN
        end) <$> to.

(** [df.append(other, ignore_index=True)]: the rows of [df], then those of
    [other], over the union of the labels. *)
Definition append (df other : DataFrame) : DataFrame :=
  let cols := columns df ++ filter (λ c, c ∉ columns df) (columns other) in
  mk_frame cols
    ((reindex_row (columns df) cols <$> rows df)
     ++ (reindex_row (columns other) cols <$> rows other)).

Definition select {A} (keep : list bool) (l : list A) : list A :=
  snd <$> filter (λ kx : bool * A, kx.1 = true) (zip keep l).

(** [df.drop(labels, axis=1)] *)
Definition drop_columns (labels : list scalar) (df : DataFrame)
  : result DataFrame :=
  if bool_decide (Forall (λ l, l ∈ columns df) labels) then
    let keep := (λ c, bool_decide (c ∉ labels)) <$> columns df in
    Ok (mk_frame (select keep (columns df)) (select keep <$> rows df))
  else Raise KeyError.

(** [s.str.split('.').str[0]]: in every cell the text before the first
    ['.'] of a string, missing for anything else.  The [.str] accessor is
    refused on a column of numbers. *)
Fixpoint before_dot (s : string) : string :=
  match s with
  | EmptyString => EmptyString
  | String c s' => if Ascii.eqb c "."%char then EmptyString else String c (before_dot s')
  end.

Definition str_split_first (col : list scalar) : result (list scalar) :=
  match col with
  | [] => Ok []
  | _ =>
      if existsb is_str col then
        Ok ((λ c, match c with
                  | SStr s => SStr (before_dot s)
                  | _ => SNaN
                  end) <$> col)
      else Raise AttributeError
  end.

(** [df.iloc[:, :-k]] *)
Definition iloc_but_last (k : nat) (df : DataFrame) : DataFrame :=
  let n := n_columns df - k in
  mk_frame (take n (columns df)) (take n <$> rows df).

(** [df.iloc[:, -1:]] *)
Definition iloc_last_slice (df : DataFrame) : DataFrame :=
  let n := n_columns df - 1 in
  mk_frame (drop n (columns df)) (drop n <$> rows df).

(** [df.iloc[:, -k]] for [k > 0], a series: its name and its values. *)
Definition iloc_from_end (k : nat) (df : DataFrame)
  : result (scalar * list scalar) :=
  match columns df !! (n_columns df - k) with
  | Some c =>
      if (n_columns df <? k)%nat then Raise IndexError
      else Ok (c, column_at (n_columns df - k) df)
  | None => Raise IndexError
  end.

Definition series_to_frame (s : scalar * list scalar) : DataFrame :=
  mk_frame [s.1] ((λ v, [v]) <$> s.2).

(** [pd.concat([a, b], axis=1)] for frames over the same rows. *)
Definition concat_columns (a b : DataFrame) : DataFrame :=
  mk_frame (columns a ++ columns b) (zip_with app (rows a) (rows b)).

(** The order in which categories are laid out by [get_dummies]. *)
Definition scalar_leb (a b : scalar) : bool :=
  match a, b with
  | SNum x, SNum y => Qle_bool x y
  | SNum _, _ => true
  | SStr s, SStr t => String.leb s t
  | SStr _, SNum _ => false
  | SStr _, SNaN => true
  | SNaN, SNaN => true
  | SNaN, _ => false
  end.

(** [pd.get_dummies(s)]: one indicator column per distinct value that is
    not missing. *)
Definition get_dummies (col : list scalar) : DataFrame :=
  let categories :=
    merge_sort (λ a b, Is_true (scalar_leb a b))
               (remove_dups (filter (λ v, is_nan v = false) col)) in
  mk_frame categories
    ((λ v, (λ c, if decide (v = c) then SInt 1 else SInt 0) <$> categories)
       <$> col).

(** [s.value_counts().to_dict()]: the number of occurrences of every value
    that is not missing ([dropna=True] is the default of pandas). *)
Definition count_value (v : scalar) (counts : gmap scalar nat)
  : gmap scalar nat :=
  if is_nan v then counts else <[v := S (default 0%nat (counts !! v))]> counts.

Definition value_counts (col : list scalar) : gmap scalar nat :=
  foldr count_value ∅ col.

(** ** sklearn.model_selection and sklearn.impute *)

(** [ceil(test_size * n_samples)] with [test_size = 0.2]. *)
Definition n_test_of (n_samples : nat) : nat :=
  Z.to_nat (Qceiling ((2 # 10) * inject_Z (Z.of_nat n_samples))).

(** [_safe_indexing] of a list: [[a[i] for i in indices]]. *)
Definition safe_indexing {A} (a : list A) (indices : list nat)
  : result (list A) :=
  match mapM (λ i, a !! i) indices with
  | Some l => Ok l
  | None => Raise IndexError
  end.

Definition n_features {A} (X : list (list A)) : nat :=
  match X with
  | [] => 0
  | r :: _ => length r
  end.

(** The mean of the observed values of a column; none when nothing is
    observed. *)
Definition mean_observed (col : list (option Qc)) : option Qc :=
  match omap id col with
  | [] => None
  | obs => Some (Qc_sum obs / Qc_of_nat (length obs))%Qc
  end.

(** [SimpleImputer(missing_values=nan, strategy='mean')] after [fit]. *)
Record SimpleImputer := mk_imputer { statistics_ : list (option Qc) }.

(** The statistic of every column: the mean of what is observed in it. *)
Definition column_means (Xf : list (list (option Qc))) : list (option Qc) :=
  (λ j, mean_observed ((λ r, mjoin (r !! j)) <$> Xf)) <$> seq 0 (n_features Xf).

(** A column without any observed value at [fit] is left out of the output;
    in the others a missing cell takes the column's statistic. *)
Fixpoint impute_row (stats : list (option Qc)) (row : list (option Qc))
  : list Qc :=
  match stats, row with
  | Some m :: stats', c :: row' => default m c :: impute_row stats' row'
  | None :: stats', _ :: row' => impute_row stats' row'
  | _, _ => []
  end.

(** ** sklearn estimators *)

Inductive clf_params :=
| DecisionTreeClassifier (max_depth random_state : nat)
| KNeighborsClassifier (n_neighbors : nat)
| GaussianNB
| SVC (kernel : string) (gamma C random_state : nat).

Global Instance clf_params_eq_dec : EqDecision clf_params.
Proof. solve_decision. Defined.

(** ** A small concrete world

    Sample files, a parser of digit strings, a permutation and a learner, on
    which the notebook can be run from end to end. *)
Module Sample.

Fixpoint digits_value (s : string) (acc : Z) : option Z :=
  match s with
  | EmptyString => Some acc
  | String c s' =>
      let n := nat_of_ascii c in
      if (48 <=? n) && (n <=? 57)
      then digits_value s' (10 * acc + Z.of_nat (n - 48))%Z
      else None
  end.

Definition to_numeric (s : string) : option Qc :=
  match s with
  | EmptyString => None
  | _ => (λ z, Q2Qc (inject_Z z)) <$> digits_value s 0%Z
  end.

(** Rounding to two decimals, on the exact value: the nearest hundredth,
    and of two nearest ones the even one. *)
Definition round_half_even (q : Q) : Z :=
  let f := Qfloor q in
  match (q - inject_Z f ?= 1 # 2)%Q with
  | Lt => f
  | Gt => (f + 1)%Z
  | Eq => if Z.even f then f else (f + 1)%Z
  end.

Definition round2 (x : Qc) : Qc :=
  Q2Qc (inject_Z (round_half_even (x * inject_Z 100)) / inject_Z 100).

(** The text of a number: a whole number as Python writes the float, any
    other number as a fraction. *)
Definition float_repr (q : Qc) : string :=
  if (Qden q =? 1)%positive then pretty (Qnum q) +:+ ".0"
  else pretty (Qnum q) +:+ "/" +:+ pretty (Z.pos (Qden q)).

(** Text that reads as a whole number, or as [nan]. *)
Definition np_float (s : string) : option (option Qc) :=
  if decide (s = "nan") then Some None else Some <$> to_numeric s.

Definition permutation (n : nat) : list nat := rev (seq 0 n).

(** The global generator: a counter.  A shuffle that is given a seed
    starts from the seed and leaves the global generator alone; a shuffle
    without a seed draws from the global generator and advances it. *)
Definition draw_permutation (random_state : option nat) (n : nat) (g : nat)
  : list nat * nat :=
  match random_state with
  | Some seed => (rotate seed (permutation n), g)
  | None => (rotate g (permutation n), S g)
  end.

(** The learner remembers the first training label and predicts it for
    every row. *)
Definition learn (_ : clf_params) (X : list (list Qc)) (y : list scalar)
  : result scalar :=
  match y with
  | [] => Raise ValueError
  | l :: _ => Ok l
  end.

Definition predict_with (m : scalar) (X : list (list Qc))
  : result (list scalar) :=
  Ok (replicate (length X) m).

(** It draws no random number. *)
Definition fit_with (params : clf_params) (X : list (list Qc))
    (y : list scalar) (g : nat) : result (scalar * nat) :=
  match learn params X y with
  | Ok f => Ok (f, g)
  | Raise e => Raise e
  end.

Definition wdbc : DataFrame :=
  mk_frame (range_index 3)
    [ [SInt 842302; SStr "M"; SInt 17];
      [SInt 842517; SStr "M"; SInt 20];
      [SInt 843009; SStr "B"; SInt 11];
      [SInt 843483; SStr "B"; SInt 12];
      [SInt 843584; SStr "B"; SInt 13] ].

Definition allhyper_data : DataFrame :=
  mk_frame (range_index 3)
    [ [SStr "41"; SStr "F"; SStr "negative.|3733"];
      [SStr "?"; SStr "M"; SStr "hyperthyroid.|1442"];
      [SStr "46"; SStr "?"; SStr "negative.|2965"] ].

Definition allhyper_test : DataFrame :=
  mk_frame (range_index 3)
    [ [SStr "70"; SStr "F"; SStr "goitre.|806"];
      [SStr "35"; SStr "M"; SStr "negative.|219"] ].

Definition cervical : DataFrame :=
  mk_frame
    [ SStr "Age"; SStr "Smokes"; SStr "Dx:Cancer"; SStr "Dx:CIN";
      SStr "Dx:HPV"; SStr "Dx"; SStr "Hinselmann"; SStr "Schiller";
      SStr "Citology"; SStr "Biopsy" ]
    [ [SInt 18; SStr "0"; SInt 0; SInt 0; SInt 0; SInt 0; SInt 0; SInt 0; SInt 0; SInt 0];
      [SInt 15; SStr "?"; SInt 0; SInt 0; SInt 0; SInt 0; SInt 0; SInt 0; SInt 0; SInt 0];
      [SInt 34; SStr "1"; SInt 1; SInt 0; SInt 1; SInt 0; SInt 1; SInt 1; SInt 0; SInt 1];
      [SInt 52; SStr "1"; SInt 0; SInt 0; SInt 0; SInt 0; SInt 0; SInt 0; SInt 0; SInt 0];
      [SInt 46; SStr "0"; SInt 0; SInt 0; SInt 0; SInt 0; SInt 0; SInt 0; SInt 0; SInt 0] ].

Definition ilpd : DataFrame :=
  mk_frame (range_index 3)
    [ [SStr "65"; SStr "Female"; SInt 1];
      [SStr "62"; SStr "Male"; SInt 1];
      [SStr "?"; SStr "Male"; SInt 2];
      [SStr "72"; SStr "Male"; SInt 1];
      [SStr "17"; SStr "Female"; SInt 2] ].

(** A table one row of which has no label. *)
Definition ilpd_missing : DataFrame :=
  mk_frame (range_index 3)
    [ [SInt 65; SStr "Female"; SInt 1];
      [SInt 62; SStr "Male"; SInt 1];
      [SInt 58; SStr "Male"; SNaN];
      [SInt 72; SStr "Male"; SInt 1];
      [SInt 17; SStr "Female"; SInt 2] ].

Definition read_csv (path : string) (header : bool) : result DataFrame :=
  if decide (path = "wdbc.data") then Ok wdbc
  else if decide (path = "allhyper.data") then Ok allhyper_data
  else if decide (path = "allhyper.test") then Ok allhyper_test
  else if decide (path = "risk_factors_cervical_cancer.csv") then Ok cervical
  else if decide (path = "Indian Liver Patient Dataset (ILPD).csv") then Ok ilpd
  else Raise FileNotFoundError.

(** The same files, with the last one missing. *)
Definition read_csv_no_liver (path : string) (header : bool)
  : result DataFrame :=
  if decide (path = "Indian Liver Patient Dataset (ILPD).csv")
  then Raise FileNotFoundError
  else read_csv path header.

(** What [read_data] makes of [ilpd], and what [classify] extracts from
    it. *)
Definition liver_table : DataFrame :=
  mk_frame (range_index 3)
    [ [SInt 65; SStr "Female"; SInt 1];
      [SInt 62; SStr "Male"; SInt 1];
      [SNaN; SStr "Male"; SInt 2];
      [SInt 72; SStr "Male"; SInt 1];
      [SInt 17; SStr "Female"; SInt 2] ].

(** What [read_data] makes of the two [allhyper] files. *)
Definition hyper_table : DataFrame :=
  mk_frame (range_index 3)
    [ [SInt 41; SStr "F"; SStr "negative"];
      [SNaN; SStr "M"; SStr "hyperthyroid"];
      [SInt 46; SNaN; SStr "negative"];
      [SInt 70; SStr "F"; SStr "goitre"];
      [SInt 35; SStr "M"; SStr "negative"] ].

(** A table of a single row, and one of a single cell. *)
Definition single_row : DataFrame :=
  mk_frame (range_index 3) [ [SInt 65; SInt 0; SInt 1] ].

Definition single_cell : DataFrame :=
  mk_frame (range_index 1) [ [SInt 65] ].

(** A table whose labels are the two strings that [classify] replaces for
    ['liver_cancer']. *)
Definition liver_named : DataFrame :=
  mk_frame (range_index 2)
    [ [SInt 65; SStr "Female"];
      [SInt 62; SStr "Male"];
      [SInt 58; SStr "Male"];
      [SInt 72; SStr "Female"];
      [SInt 17; SStr "Male"] ].

Definition liver_X : list (list scalar) :=
  [ [SInt 65; SInt 0]; [SInt 62; SInt 1]; [SNaN; SInt 1];
    [SInt 72; SInt 1]; [SInt 17; SInt 0] ].

Definition liver_y : list pyobj :=
  [ Wrapped [SInt 1]; Wrapped [SInt 1]; Wrapped [SInt 2];
    Wrapped [SInt 1]; Wrapped [SInt 2] ].

Definition liver_labels : gmap scalar nat :=
  <[SInt 1 := 3]> (<[SInt 2 := 2]> ∅).

(** Label spaces and label sequences for the evaluator. *)
Definition two_labels : gmap scalar nat :=
  <[SStr "B" := 3]> (<[SStr "M" := 2]> ∅).

Definition three_labels : gmap scalar nat :=
  <[SStr "negative" := 3]>
    (<[SStr "hyperthyroid" := 1]> (<[SStr "goitre" := 1]> ∅)).

(** A label space one label of which is called ['accuracy']. *)
Definition labels_with_accuracy : gmap scalar nat :=
  <[SStr "B" := 2]> (<[SStr "accuracy" := 1]> ∅).

(** The label space [two_labels] with other counts. *)
Definition two_labels_recount : gmap scalar nat :=
  <[SStr "B" := 1]> (<[SStr "M" := 4]> ∅).

Definition gold_bm : list pyobj := [Bare (SStr "B"); Bare (SStr "B"); Bare (SStr "M")].
Definition pred_bb : list pyobj := [Bare (SStr "B"); Bare (SStr "B"); Bare (SStr "B")].
Definition gold_b : list pyobj := [Bare (SStr "B"); Bare (SStr "B")].
Definition pred_b : list pyobj := [Bare (SStr "B"); Bare (SStr "B")].

(** The same sequences as flat arrays. *)
Definition flat_bm : list scalar := [SStr "B"; SStr "B"; SStr "M"].
Definition flat_bb : list scalar := [SStr "B"; SStr "B"; SStr "B"].
Definition flat_b : list scalar := [SStr "B"; SStr "B"].

Definition gold_two_of_three : list pyobj :=
  [Wrapped [SStr "negative"]; Wrapped [SStr "negative"];
   Wrapped [SStr "hyperthyroid"]].
Definition pred_two_of_three : list pyobj :=
  [Bare (SStr "negative"); Bare (SStr "hyperthyroid");
   Bare (SStr "hyperthyroid")].


(** The same sequences as flat arrays. *)
Definition flat_nnh : list scalar :=
  [SStr "negative"; SStr "negative"; SStr "hyperthyroid"].
Definition flat_nhh : list scalar :=
  [SStr "negative"; SStr "hyperthyroid"; SStr "hyperthyroid"].

End Sample.

(** ** The notebook *)

Section Notebook.

(** [pd.read_csv(path, header=None)] ([false]) or [pd.read_csv(path)]
    ([true]): the files are outside the notebook. *)
Variable read_csv : string → bool → result DataFrame.

(** The numeric parser behind [pd.to_numeric]: the number a string reads
    as, if any. *)
Variable to_numeric : string → option Qc.

(** [float(s)] as numpy converts text put in an array of floats: the number
    the text reads as, missing for the text of [nan], nothing for text that
    is refused (or reads as an infinity, which the imputer refuses). *)
Variable np_float : string → option (option Qc).

(** [str(x)] as numpy converts a float put in an array of text. *)
Variable float_repr : Qc → string.

(** [round(x, 2)] on the float that a metric returns.  The scores are exact
    rationals here and the notebook's are binary floats: a score halfway
    between two hundredths is, as a float, slightly to one side, and which
    of the two neighbours comes out is left open ([round2_nearest]
    below). *)
Variable round2 : Qc → Qc.

(** [RandomState(0).permutation(n)], the shuffle drawn by
    [train_test_split(..., random_state=0)]. *)
Variable permutation : nat → list nat.

(** The state of NumPy's global generator, and
    [check_random_state(random_state).permutation(n)]: the shuffle drawn
    for a [random_state] from a state of the global generator, with the state
    the global generator is left in.  Without a seed the shuffle is drawn
    from the global generator itself. *)
Variable rng : Type.
Variable draw_permutation : option nat → nat → rng → list nat * rng.

(** The learning algorithms: what [fit] computes from the estimator's
    parameters (its [random_state] among them), the training matrix and
    the flat training labels, and what [predict] answers from it. *)
Variable fitted : Type.
Variable learn : clf_params → list (list Qc) → list scalar → result fitted.
Variable predict_with : fitted → list (list Qc) → result (list scalar).

(** [fit] as the library runs it, from a state of the global generator: what
    is learnt, and the state the global generator is left in. *)
Variable fit_with :
  clf_params → list (list Qc) → list scalar → rng → result (fitted * rng).

(** *** Rounding: [round(x, 2)] *)

Definition py_round2 (x : pyfloat) : pyfloat :=
  match x with
  | FNum q => FNum (round2 q)
  | FNaN => FNaN
  end.

(** A float is rounded to two decimals when rounding leaves it as it is. *)
Definition rounded2 (x : pyfloat) : Prop := py_round2 x = x.

(** *** numpy arrays of labels, and the checks of sklearn.metrics *)

(** [np.asarray] of a flat list of labels.  A list without text is an array
    of floats.  A list with text in it is an array of text: a number is there
    as its text and [nan] as the text ['nan']. *)
Definition np_text (v : scalar) : scalar :=
  match v with
  | SNum q => SStr (float_repr q)
  | SStr s => SStr s
  | SNaN => SStr "nan"
  end.

Definition np_asarray (l : list scalar) : list scalar :=
  if existsb is_str l then np_text <$> l else l.

(** [column_or_1d]: a one-dimensional sequence, or a single column, as a
    flat array; anything else is rejected. *)
Definition column_or_1d (y : list pyobj) : result (list scalar) :=
  match ravel_bare y with
  | Some l => Ok (np_asarray l)
  | None =>
      match ravel_column y with
      | Some l => Ok (np_asarray l)
      | None => Raise ValueError
      end
  end.

(** [_check_targets]: both sequences flat arrays of one length and of one
    kind (text against numbers is a mix of label types, which the metrics
    refuse), and, for arrays of floats, without [nan] and without numbers
    that are not integers (a ['continuous'] target is not supported by the
    classification metrics).  In an array of text a missing label is the
    class ['nan']. *)
Definition check_targets (y_true y_pred : list pyobj)
  : result (list scalar * list scalar) :=
  g ← column_or_1d y_true;
  p ← column_or_1d y_pred;
  if negb (length g =? length p)%nat then Raise ValueError
  else if negb (Bool.eqb (existsb is_str g) (existsb is_str p))
  then Raise ValueError
  else if existsb is_nan g || existsb is_nan p then Raise ValueError
  else if existsb is_fraction g || existsb is_fraction p then Raise ValueError
  else Ok (g, p).

(** [precision_recall_fscore_support] for one of the three scores. *)
Definition prf_score (score : list scalar → list scalar → scalar → Qc)
    (y_true y_pred : list pyobj) (average : average_mode)
    (pos_label : scalar) : result pyfloat :=
  '(g, p) ← check_targets y_true y_pred;
  labels ← check_set_wise_labels g p average pos_label;
  match average with
  | Binary => Ok (FNum (score g p pos_label))
  | Macro => Ok (np_average (score g p <$> labels))
  end.

Definition precision_score := prf_score precision_of.
Definition recall_score := prf_score recall_of.
Definition f1_score := prf_score f1_of.

Definition accuracy_score (y_true y_pred : list pyobj) : result pyfloat :=
  '(g, p) ← check_targets y_true y_pred;
  Ok (accuracy_of g p).

(** *** Cell 2 *)

Definition datasets : list string :=
  ["breast_cancer"; "hyperthyroidism"; "cervical_cancer"; "liver_cancer"].

(** *** The interpreter's store *)

(** An estimator object: its constructor parameters and what its last
    [fit] learnt. *)
Record estimator := mk_estimator {
  est_params : clf_params;
  est_fitted : option fitted
}.

(** The objects allocated so far (an object's identity is its position),
    the global variables [classifiers] and [model], a trace of the
    receivers of [fit], kept to tell which object every run trains, and the
    state of NumPy's global generator. *)
Record store := mk_store {
  objects : list estimator;
  classifiers : list (string * nat);
  model : option nat;
  fit_calls : list nat;
  generator : rng
}.

Definition empty_store (g : rng) : store := mk_store [] [] None [] g.

Definition new_estimator (params : clf_params) (σ : store) : nat * store :=
  (length (objects σ),
   mk_store (objects σ ++ [mk_estimator params None])
            (classifiers σ) (model σ) (fit_calls σ) (generator σ)).

(** *** Cell 3: [classifiers = {...}] *)

Definition cell_classifiers (σ : store) : store :=
  let '(dt, σ) := new_estimator (DecisionTreeClassifier 5 1) σ in
  let '(knn, σ) := new_estimator (KNeighborsClassifier 3) σ in
  let '(nb, σ) := new_estimator GaussianNB σ in
  let '(svm, σ) := new_estimator (SVC "rbf" 2 1 1) σ in
  mk_store (objects σ)
           [("Decision-Tree", dt); ("K-NN", knn); ("Naive-Bayes", nb);
            ("SVM", svm)]
           (model σ) (fit_calls σ) (generator σ).

(** *** Cell 4: [read_data] *)

(** [pd.to_numeric(s, errors='coerce')] on one cell. *)
Definition pd_to_numeric (c : scalar) : scalar :=
  match c with
  | SStr s =>
      match to_numeric s with
      | Some q => SNum q
      | None => SNaN
      end
  | _ => c
  end.

(** The branches on [dataset_id], up to the common post-processing. *)
Definition read_raw (dataset_id : string) : result DataFrame :=
  if decide (dataset_id = "breast_cancer") then
    read_csv "wdbc.data" false
  else if decide (dataset_id = "hyperthyroidism") then
    a ← read_csv "allhyper.data" false;
    b ← read_csv "allhyper.test" false;
    let data := append a b in
    c ← last_label data;
    col ← getitem data c;
    col ← str_split_first col;
    c ← last_label data;
    Ok (setitem data c col)
  else if decide (dataset_id = "cervical_cancer") then
    data ← read_csv "risk_factors_cervical_cancer.csv" true;
    drop_columns [SStr "Dx:Cancer"; SStr "Dx:CIN"; SStr "Dx:HPV"; SStr "Dx";
                  SStr "Hinselmann"; SStr "Schiller"; SStr "Citology"] data
  else
    read_csv "Indian Liver Patient Dataset (ILPD).csv" false.

Definition postprocess (data : DataFrame) : DataFrame :=
  let data := fillna (frame_map pd_to_numeric data) data in
  replace_value (SStr "?") SNaN data.

Definition read_data (dataset_id : string) : result DataFrame :=
  data ← read_raw dataset_id;
  Ok (postprocess data).

(** *** Cell 5: [outcome_values] *)

Definition outcome_values (dataset_id : string) (dataset : DataFrame)
  : result (gmap scalar nat) :=
  if decide (dataset_id = "breast_cancer") then
    col ← getitem dataset (SInt 1);
    Ok (value_counts col)
  else
    c ← last_label dataset;
    col ← getitem dataset c;
    Ok (value_counts col).

(** The position of the label column, and the labelling of the columns
    under which [outcome_values] finds it there: the labels [0 .. n-1] of
    a header-less file for ['breast_cancer'], pairwise distinct labels
    otherwise. *)
Definition label_position (dataset_id : string) (df : DataFrame) : nat :=
  if decide (dataset_id = "breast_cancer") then 1 else n_columns df - 1.

Definition labelled_for (dataset_id : string) (df : DataFrame) : Prop :=
  if decide (dataset_id = "breast_cancer")
  then columns df = range_index (n_columns df) ∧ 2 ≤ n_columns df
  else NoDup (columns df) ∧ 1 ≤ n_columns df.

(** The rule of the loader's post-processing on one cell, in the words of
    the specification: [c'] is the numeric coercion of [c] when the
    coercion succeeds, [c] itself when it fails and [c] is not the
    sentinel, and the missing marker when [c] is the sentinel. *)
Definition cell_rule (c c' : scalar) : Prop :=
  (c = SStr "?" ∧ c' = SNaN)
  ∨ (c ≠ SStr "?" ∧ pd_to_numeric c ≠ SNaN ∧ c' = pd_to_numeric c)
  ∨ (c ≠ SStr "?" ∧ pd_to_numeric c = SNaN ∧ c' = c).

(** *** Cell 6: [classify] *)

Definition hyperthyroidism_codes : list (scalar * scalar) :=
  [(SStr "F", SInt 0); (SStr "M", SInt 1);
   (SStr "f", SInt 0); (SStr "t", SInt 1)].

Definition liver_codes : list (scalar * scalar) :=
  [(SStr "Female", SInt 0); (SStr "Male", SInt 1)].

(** What [classify] makes of a cell of the label column. *)
Definition label_recode (dataset_id : string) (v : scalar) : scalar :=
  if decide (dataset_id = "hyperthyroidism")
  then replace_cell hyperthyroidism_codes v
  else if decide (dataset_id = "liver_cancer")
  then replace_cell liver_codes v
  else v.

(** The first part of [classify]: [X] and [y] as nested lists. *)
Definition features_and_labels (dataset_id : string) (dataset : DataFrame)
  : result (list (list scalar) * list pyobj) :=
  if decide (dataset_id = "hyperthyroidism") then
    '(_, sex) ← iloc_from_end 2 dataset;
    outcome ← iloc_from_end 1 dataset;
    let new_dataset :=
      concat_columns
        (concat_columns (iloc_but_last 2 dataset) (get_dummies sex))
        (series_to_frame outcome) in
    let new_dataset := replace_dict hyperthyroidism_codes new_dataset in
    Ok (rows (iloc_but_last 1 new_dataset),
        map Wrapped (rows (iloc_last_slice new_dataset)))
  else if decide (dataset_id = "liver_cancer") then
    let new_dataset := replace_dict liver_codes dataset in
    Ok (rows (iloc_but_last 1 new_dataset),
        map Wrapped (rows (iloc_last_slice new_dataset)))
  else if decide (dataset_id = "breast_cancer") then
    X ← drop_columns [SInt 1] dataset;
    y ← getitem dataset (SInt 1);
    Ok (rows X, map Bare y)
  else
    Ok (rows (iloc_but_last 1 dataset),
        map Wrapped (rows (iloc_last_slice dataset))).

(** [ShuffleSplit(test_size=0.2, random_state=0)]: the train and the test
    positions. *)
Definition shuffle_split (n_samples : nat) : result (list nat * list nat) :=
  let n_test := n_test_of n_samples in
  let n_train := n_samples - n_test in
  if (n_train =? 0)%nat then Raise ValueError
  else
    let p := permutation n_samples in
    Ok (take n_train (drop n_test p), take n_test p).

(** [train_test_split(X, y, test_size=0.2, random_state=0)] *)
Definition train_test_split {A B} (X : list A) (y : list B)
  : result (list A * list A * list B * list B) :=
  if negb (length X =? length y)%nat then Raise ValueError
  else
    '(train, test) ← shuffle_split (length X);
    X_train ← safe_indexing X train;
    X_test ← safe_indexing X test;
    y_train ← safe_indexing y train;
    y_test ← safe_indexing y test;
    Ok (X_train, X_test, y_train, y_test).

(** [ShuffleSplit(test_size=0.2, random_state=random_state)] and
    [train_test_split(X, y, test_size=0.2, random_state=random_state)] with
    the generators written out: the shuffle is drawn for [random_state] from
    the state [g] of the global generator, and the state it is left in is
    returned with the parts.  [shuffle_split] and [train_test_split] above
    are what these come to with the seed 0 of the notebook. *)
Definition shuffle_split_rs (random_state : option nat) (n_samples : nat)
    (g : rng) : result (list nat * list nat * rng) :=
  let n_test := n_test_of n_samples in
  let n_train := n_samples - n_test in
  if (n_train =? 0)%nat then Raise ValueError
  else
    let '(p, g') := draw_permutation random_state n_samples g in
    Ok (take n_train (drop n_test p), take n_test p, g').

Definition train_test_split_rs {A B} (random_state : option nat)
    (X : list A) (y : list B) (g : rng)
  : result (list A * list A * list B * list B * rng) :=
  if negb (length X =? length y)%nat then Raise ValueError
  else
    '(train, test, g') ← shuffle_split_rs random_state (length X) g;
    X_train ← safe_indexing X train;
    X_test ← safe_indexing X test;
    y_train ← safe_indexing y train;
    y_test ← safe_indexing y test;
    Ok (X_train, X_test, y_train, y_test, g').

(** The global generator after a call. *)
Definition set_generator (g : rng) (σ : store) : store :=
  mk_store (objects σ) (classifiers σ) (model σ) (fit_calls σ) g.

(** *** sklearn.impute *)

(** [np.asarray(row, dtype=float)] on one cell: a number as it is, [nan]
    as missing, text as the float it reads as, if any. *)
Definition as_float (v : scalar) : option (option Qc) :=
  match v with
  | SNum q => Some (Some q)
  | SNaN => Some None
  | SStr s => np_float s
  end.

(** [check_array(X, force_all_finite='allow-nan')]: a rectangular matrix of
    floats with at least one row and one column. *)
Definition check_array (X : list (list scalar))
  : result (list (list (option Qc))) :=
  match mapM (mapM as_float) X with
  | None => Raise ValueError
  | Some [] => Raise ValueError
  | Some (r :: rs) =>
      if bool_decide (r ≠ [] ∧ Forall (λ r', length r' = length r) rs)
      then Ok (r :: rs)
      else Raise ValueError
  end.

Definition imputer_fit (X : list (list scalar)) : result SimpleImputer :=
  Xf ← check_array X;
  Ok (mk_imputer (column_means Xf)).

Definition imputer_transform (imputer : SimpleImputer) (X : list (list scalar))
  : result (list (list Qc)) :=
  Xf ← check_array X;
  if negb (n_features Xf =? length (statistics_ imputer))%nat
  then Raise ValueError
  else Ok (impute_row (statistics_ imputer) <$> Xf).

(** The imputation steps of [classify]. *)
Definition impute (X_train X_test : list (list scalar))
  : result (SimpleImputer * list (list Qc) * list (list Qc)) :=
  imputer ← imputer_fit X_train;
  X_train ← imputer_transform imputer X_train;
  X_test ← imputer_transform imputer X_test;
  Ok (imputer, X_train, X_test).

(** The imputer in the words of the specification: the number that a cell
    holds, if any (text that numpy reads as a float counts as that number),
    the numbers of a column, their mean, and a row filled with the fitted
    means: in every column that has a mean, the number of the cell, or the
    mean where the cell has none. *)
Definition cell_number (c : scalar) : option Qc :=
  match c with
  | SNum q => Some q
  | SStr s => mjoin (np_float s)
  | SNaN => None
  end.

Definition column_numbers (j : nat) (X : list (list scalar)) : list Qc :=
  omap (λ r, r !! j ≫= cell_number) X.

Definition mean_of (numbers : list Qc) : option Qc :=
  if decide (numbers = []) then None
  else Some (foldr Qcplus 0%Qc numbers / Qc_of_nat (length numbers))%Qc.

Definition filled_row (means : list (option Qc)) (row : list scalar)
  : list Qc :=
  omap id (zip_with (λ mean c, (λ m, default m (cell_number c)) <$> mean)
                    means row).

Definition global_model (σ : store) : result nat :=
  match model σ with
  | Some r => Ok r
  | None => Raise NameError
  end.

(** [model.fit(X, y)]: the labels are flattened, the algorithm runs from
    the current state of the global generator, and the object then holds
    what was learnt from this call alone. *)
Definition estimator_fit (r : nat) (X : list (list Qc)) (y : list pyobj)
    (σ : store) : result store :=
  match objects σ !! r with
  | None => Raise NameError
  | Some e =>
      y ← column_or_1d y;
      '(f, g) ← fit_with (est_params e) X y (generator σ);
      Ok (mk_store (<[r := mk_estimator (est_params e) (Some f)]> (objects σ))
                   (classifiers σ) (model σ) (fit_calls σ ++ [r]) g)
  end.

(** [model.predict(X)] *)
Definition estimator_predict (r : nat) (X : list (list Qc)) (σ : store)
  : result (list scalar) :=
  match objects σ !! r with
  | Some (mk_estimator _ (Some f)) => predict_with f X
  | Some (mk_estimator _ None) => Raise ValueError
  | None => Raise NameError
  end.

Definition classify (dataset_id : string) (dataset : DataFrame) (σ : store)
  : result (list pyobj * list pyobj * store) :=
  '(X, y) ← features_and_labels dataset_id dataset;
  '(X_train, X_test, y_train, y_test, g) ←
    train_test_split_rs (Some 0) X y (generator σ);
  let σ := set_generator g σ in
  '(imputer, X_train, X_test) ← impute X_train X_test;
  model ← global_model σ;
  σ ← estimator_fit model X_train y_train σ;
  p ← estimator_predict model X_test σ;
  let predictions := map Bare p in
  let actual := y_test in
  Ok (predictions, actual, σ).

(** *** Cell 7: [evaluate] *)

Definition scores_for (gold predictions : list pyobj) (average : average_mode)
    (l : scalar) : result prf :=
  pr ← precision_score gold predictions average l;
  rc ← recall_score gold predictions average l;
  f ← f1_score gold predictions average l;
  Ok (mk_prf (py_round2 pr) (py_round2 rc) (py_round2 f)).

Definition evaluate_label (gold predictions : list pyobj) (l : scalar)
    (evaluation : gmap scalar evalue) : result (gmap scalar evalue) :=
  try_except
    (m ← scores_for gold predictions Binary l;
     Ok (<[l := EScores m]> evaluation))
    (* multi-class *)
    (m ← scores_for gold predictions Macro l;
     Ok (<[l := EScores m]> evaluation)).

Definition evaluate (labels : gmap scalar nat) (gold predictions : list pyobj)
  : result (gmap scalar evalue) :=
  acc ← accuracy_score gold predictions;
  let evaluation := <[SStr "accuracy" := EFloat acc]> ∅ in
  for_each (map_to_list labels).*1 (evaluate_label gold predictions)
           evaluation.

(** What [evaluate] stores under a label, told from the flat sequences: the
    scores with the label as positive class where the binary computation
    goes through, the macro averages where it fails. *)
Definition binary_scores (g p : list scalar) (l : scalar) : prf :=
  mk_prf (py_round2 (FNum (precision_of g p l)))
         (py_round2 (FNum (recall_of g p l)))
         (py_round2 (FNum (f1_of g p l))).

Definition macro_scores (g p : list scalar) : prf :=
  mk_prf (py_round2 (np_average (precision_of g p <$> unique_labels g p)))
         (py_round2 (np_average (recall_of g p <$> unique_labels g p)))
         (py_round2 (np_average (f1_of g p <$> unique_labels g p))).

Definition label_scores (g p : list scalar) (l : scalar) : prf :=
  if binary_accepted g p l then binary_scores g p l else macro_scores g p.

(** *** Cell 8: the driver *)

Inductive printed :=
| PrintRule
| PrintDataset (dataset_id : string)
| PrintLabels (labels : gmap scalar nat)
| PrintResult (name : string) (evaluation : gmap scalar evalue).

(** [model = r], the assignment made by the [for] loop. *)
Definition set_model (r : nat) (σ : store) : store :=
  mk_store (objects σ) (classifiers σ) (Some r) (fit_calls σ) (generator σ).

(** One turn of the inner loop, [for _, model in classifiers.items()]. *)
Definition run_classifier (dataset_id : string) (data : DataFrame)
    (labels : gmap scalar nat) (item : string * nat)
    (acc : list printed * store) : result (list printed * store) :=
  let σ := set_model item.2 acc.2 in
  '(pred, actual, σ) ← classify dataset_id data σ;
  evaluation ← evaluate labels actual pred;
  Ok (acc.1 ++ [PrintResult item.1 evaluation], σ).

(** One turn of the outer loop, [for dataset_id in datasets]. *)
Definition run_dataset (dataset_id : string) (acc : list printed * store)
  : result (list printed * store) :=
  data ← read_data dataset_id;
  labels ← outcome_values dataset_id data;
  let out :=
    acc.1 ++ [PrintRule; PrintDataset dataset_id; PrintLabels labels] in
  for_each (classifiers acc.2) (run_classifier dataset_id data labels)
           (out, acc.2).

Definition driver (σ : store) : result (list printed * store) :=
  for_each datasets run_dataset ([], σ).

(** What the driver, started from the store [σ], prints for one entry of
    [classifiers] on one dataset: the entry's name with the evaluation of
    what [classify] returns when the entry's object, as it stands in [σ],
    is the model.  And what it prints for one dataset: the rule, the
    identifier, the label summary, then one such line per entry. *)
Definition result_line (σ : store) (dataset_id : string) (data : DataFrame)
    (labels : gmap scalar nat) (item : string * nat) (line : printed)
  : Prop :=
  ∃ pred actual σ2 evaluation,
    classify dataset_id data (set_model item.2 σ) = Ok (pred, actual, σ2)
    ∧ evaluate labels actual pred = Ok evaluation
    ∧ line = PrintResult item.1 evaluation.

Definition dataset_block (σ : store) (dataset_id : string)
    (block : list printed) : Prop :=
  ∃ data labels results,
    read_data dataset_id = Ok data
    ∧ outcome_values dataset_id data = Ok labels
    ∧ block
      = [PrintRule; PrintDataset dataset_id; PrintLabels labels] ++ results
    ∧ Forall2 (result_line σ dataset_id data labels) (classifiers σ) results.

(** ** Properties *)

(** *** Rounding *)

(** Whatever the floats make of a tie, [round(x, 2)] is a whole number of
    hundredths at most half a hundredth away from [x]. *)
Hypothesis round2_nearest :
  ∀ q, nearest_hundredth (FNum q) (FNum (round2 q)).

Lemma Qc_div_this (x y : Qc) : ((x / y)%Qc == (x / y)%Q)%Q.
Proof.
  unfold Qcdiv, Qcmult, Qcinv, Q2Qc. cbn [this].
  by rewrite !Qred_correct.
Qed.

Lemma Qc_mult_this (x y : Qc) : ((x * y)%Qc == (x * y)%Q)%Q.
Proof. unfold Qcmult, Q2Qc. cbn [this]. apply Qred_correct. Qed.

Lemma Qc_plus_this (x y : Qc) : ((x + y)%Qc == (x + y)%Q)%Q.
Proof. unfold Qcplus, Q2Qc. cbn [this]. apply Qred_correct. Qed.

Lemma Qc_of_nat_this n : (Qc_of_nat n == inject_Z (Z.of_nat n))%Q.
Proof. unfold Qc_of_nat, Q2Qc. cbn [this]. apply Qred_correct. Qed.

Lemma Qc_minus_this (x y : Qc) : ((x - y)%Qc == (x - y)%Q)%Q.
Proof.
  unfold Qcminus, Qcplus, Qcopp, Q2Qc. cbn [this].
  by rewrite !Qred_correct.
Qed.

Lemma hundredth_this (k : Z) :
  (Q2Qc (inject_Z k / inject_Z 100) == inject_Z k * (1 # 100))%Q.
Proof. unfold Q2Qc. cbn [this]. by rewrite Qred_correct. Qed.

(** How far a hundredth is from a number, in hundredths. *)
Lemma hundredth_near (k : Z) (a : Qc) :
  (Q2Qc (inject_Z k / inject_Z 100) - a <= Q2Qc (1 # 200))%Qc →
  (a - Q2Qc (inject_Z k / inject_Z 100) <= Q2Qc (1 # 200))%Qc →
  (inject_Z k - a * 100 <= 1 # 2)%Q ∧ (a * 100 - inject_Z k <= 1 # 2)%Q.
Proof.
  assert (Hh : (Q2Qc (1 # 200) == 1 # 200)%Q)
    by (unfold Q2Qc; cbn [this]; apply Qred_correct).
  unfold Qcle. rewrite !Qc_minus_this, Hh, hundredth_this.
  intros H1 H2. split; lra.
Qed.

(** Two hundredths at most half a hundredth away from one another are the
    same. *)
Lemma round2_hundredth (k : Z) :
  round2 (Q2Qc (inject_Z k / inject_Z 100)) = Q2Qc (inject_Z k / inject_Z 100).
Proof.
  destruct (round2_nearest (Q2Qc (inject_Z k / inject_Z 100)))
    as ([k' Hk'] & H1 & H2).
  rewrite Hk' in *.
  destruct (hundredth_near _ _ H1 H2) as [H3 H4].
  rewrite hundredth_this in H3, H4.
  assert (Hd : (-1 # 2 <= inject_Z (k' - k))%Q
               ∧ (inject_Z (k' - k) <= 1 # 2)%Q).
  { unfold Z.sub. rewrite inject_Z_plus, inject_Z_opp. split; lra. }
  destruct Hd as [Hd1 Hd2]. unfold Qle in Hd1, Hd2. simpl in Hd1, Hd2.
  by replace k' with k by lia.
Qed.

Lemma py_round2_idempotent (x : pyfloat) : rounded2 (py_round2 x).
Proof.
  destruct x as [q|]; unfold rounded2; simpl; [|done].
  destruct (round2_nearest q) as ([k Hk] & _). rewrite Hk.
  f_equal. apply round2_hundredth.
Qed.

Lemma py_round2_nearest (x : pyfloat) : nearest_hundredth x (py_round2 x).
Proof. destruct x as [q|]; [apply round2_nearest|done]. Qed.

(** *** The evaluator *)

Lemma prf_score_binary score gold predictions g p l :
  check_targets gold predictions = Ok (g, p) →
  prf_score score gold predictions Binary l
  = if binary_accepted g p l then Ok (FNum (score g p l))
    else Raise ValueError.
Proof.
  intros Hct. unfold prf_score, binary_accepted. rewrite Hct.
  cbn -[Nat.ltb Nat.leb]. unfold check_set_wise_labels.
  destruct (2 <? length (unique_labels g p)); cbn -[Nat.ltb Nat.leb]; [done|].
  by destruct (bool_decide (l ∉ unique_labels g p)
               && (2 <=? length (unique_labels g p))).
Qed.

Lemma prf_score_macro score gold predictions g p l :
  check_targets gold predictions = Ok (g, p) →
  prf_score score gold predictions Macro l
  = Ok (np_average (score g p <$> unique_labels g p)).
Proof. intros Hct. unfold prf_score. by rewrite Hct. Qed.

Lemma scores_for_binary gold predictions g p l :
  check_targets gold predictions = Ok (g, p) →
  scores_for gold predictions Binary l
  = if binary_accepted g p l then Ok (binary_scores g p l)
    else Raise ValueError.
Proof.
  intros Hct. unfold scores_for, precision_score, recall_score, f1_score.
  rewrite !(prf_score_binary _ _ _ _ _ _ Hct).
  by destruct (binary_accepted g p l).
Qed.

Lemma scores_for_macro gold predictions g p l :
  check_targets gold predictions = Ok (g, p) →
  scores_for gold predictions Macro l = Ok (macro_scores g p).
Proof.
  intros Hct. unfold scores_for, precision_score, recall_score, f1_score.
  by rewrite !(prf_score_macro _ _ _ _ _ _ Hct).
Qed.

(** Once the two sequences are accepted, no turn of the loop raises. *)
Lemma evaluate_label_ok gold predictions g p l evaluation :
  check_targets gold predictions = Ok (g, p) →
  evaluate_label gold predictions l evaluation
  = Ok (<[l := EScores (label_scores g p l)]> evaluation).
Proof.
  intros Hct. unfold evaluate_label, label_scores.
  rewrite (scores_for_binary _ _ _ _ _ Hct), (scores_for_macro _ _ _ _ _ Hct).
  by destruct (binary_accepted g p l).
Qed.

Lemma for_each_evaluate_label gold predictions g p ks evaluation :
  check_targets gold predictions = Ok (g, p) →
  ∃ ev, for_each ks (evaluate_label gold predictions) evaluation = Ok ev
        ∧ ∀ k, ev !! k = if decide (k ∈ ks)
                         then Some (EScores (label_scores g p k))
                         else evaluation !! k.
Proof.
  intros Hct. revert evaluation.
  induction ks as [|l ks IH]; intros evaluation.
  - exists evaluation. split; [done|]. intros k.
    destruct (decide (k ∈ [])) as [H|_]; [by apply elem_of_nil in H|done].
  - simpl. rewrite (evaluate_label_ok _ _ _ _ _ _ Hct). simpl.
    destruct (IH (<[l:=EScores (label_scores g p l)]> evaluation))
      as (ev & Hev & Hlook).
    exists ev. split; [done|]. intros k. rewrite Hlook.
    destruct (decide (k ∈ ks)) as [Hin|Hnin].
    + rewrite decide_True; [done|]. apply elem_of_cons; by right.
    + destruct (decide (k = l)) as [->|Hne].
      * rewrite lookup_insert_eq. rewrite decide_True; [done|].
        apply elem_of_cons; by left.
      * rewrite lookup_insert_ne by done.
        rewrite decide_False; [done|].
        intros [?|?]%elem_of_cons; done.
Qed.

(** The whole of what [evaluate] returns. *)
Lemma evaluate_ok labels gold predictions g p :
  check_targets gold predictions = Ok (g, p) →
  ∃ ev, evaluate labels gold predictions = Ok ev
        ∧ ∀ k, ev !! k
               = match labels !! k with
                 | Some _ => Some (EScores (label_scores g p k))
                 | None =>
                     if decide (k = SStr "accuracy")
                     then Some (EFloat (accuracy_of g p))
                     else None
                 end.
Proof.
  intros Hct. unfold evaluate, accuracy_score. rewrite Hct. cbn.
  destruct (for_each_evaluate_label gold predictions g p
              (map_to_list labels).*1
              (<[SStr "accuracy" := EFloat (accuracy_of g p)]> ∅) Hct)
    as (ev & Hev & Hlook).
  exists ev. split; [done|]. intros k. rewrite Hlook.
  destruct (labels !! k) as [n|] eqn:Hk.
  - rewrite decide_True; [done|].
    apply list_elem_of_fmap. exists (k, n). split; [done|].
    by apply elem_of_map_to_list.
  - rewrite decide_False.
    + destruct (decide (k = SStr "accuracy")) as [->|Hne].
      * by rewrite lookup_insert_eq.
      * rewrite lookup_insert_ne by done. apply lookup_empty.
    + intros ([k' n] & -> & Hin)%list_elem_of_fmap.
      apply elem_of_map_to_list in Hin. simpl in Hk. congruence.
Qed.

Lemma label_scores_rounded g p l :
  rounded2 (precision (label_scores g p l))
  ∧ rounded2 (recall (label_scores g p l))
  ∧ rounded2 (f1 (label_scores g p l)).
Proof.
  unfold label_scores, binary_scores, macro_scores.
  destruct (binary_accepted g p l); cbn [precision recall f1];
    repeat split; apply py_round2_idempotent.
Qed.

Lemma nearest_two_decimals x r : nearest_hundredth x r → two_decimals r.
Proof. destruct x, r; simpl; try done. by intros [? _]. Qed.

Lemma label_scores_two_decimals g p l :
  two_decimals (precision (label_scores g p l))
  ∧ two_decimals (recall (label_scores g p l))
  ∧ two_decimals (f1 (label_scores g p l)).
Proof.
  unfold label_scores, binary_scores, macro_scores.
  destruct (binary_accepted g p l); cbn [precision recall f1];
    repeat split; eapply nearest_two_decimals, py_round2_nearest.
Qed.

(** C2, amended: once the two sequences are accepted, [evaluate] returns
    a mapping in which the precision, the recall and the F1 stored under
    every label are rounded to two decimals (rounding them again changes
    nothing, and each is a whole number of hundredths), while the value
    stored under ['accuracy'] is the plain fraction of agreeing positions,
    not rounded, unless one of the labels is itself called ['accuracy']:
    the key then holds that label's three rounded scores, and no accuracy
    is reported. *)
Theorem evaluate_rounds_label_scores labels gold predictions g p :
  check_targets gold predictions = Ok (g, p) →
  ∃ ev, evaluate labels gold predictions = Ok ev
    ∧ (∀ l, is_Some (labels !! l) →
         ∃ m, ev !! l = Some (EScores m)
              ∧ rounded2 (precision m) ∧ rounded2 (recall m)
              ∧ rounded2 (f1 m))
    ∧ (labels !! SStr "accuracy" = None →
         ev !! SStr "accuracy" = Some (EFloat (accuracy_of g p)))
    ∧ (is_Some (labels !! SStr "accuracy") →
         ∀ x, ev !! SStr "accuracy" ≠ Some (EFloat x))
    ∧ (∀ l m, ev !! l = Some (EScores m) →
         two_decimals (precision m) ∧ two_decimals (recall m)
         ∧ two_decimals (f1 m)).
Proof.
  intros Hct.
  destruct (evaluate_ok labels _ _ _ _ Hct) as (ev & Hev & Hlook).
  exists ev. split; [done|]. split; [|split; [|split]].
  - intros l [n Hl]. exists (label_scores g p l).
    rewrite Hlook, Hl. split; [done|]. apply label_scores_rounded.
  - intros Hacc. rewrite Hlook, Hacc. by rewrite decide_True.
  - intros [n Hn] x. by rewrite Hlook, Hn.
  - intros l m. rewrite Hlook. destruct (labels !! l) as [n|].
    + intros [= <-]. apply label_scores_two_decimals.
    + by case_decide.
Qed.


(** The scores of the binary computation and the macro averages, as they
    are stored: each a whole number of hundredths, at most half a hundredth
    away from the score it rounds. *)
Lemma binary_scores_near g p l :
  nearest_hundredth (FNum (precision_of g p l))
                    (precision (binary_scores g p l))
  ∧ nearest_hundredth (FNum (recall_of g p l)) (recall (binary_scores g p l))
  ∧ nearest_hundredth (FNum (f1_of g p l)) (f1 (binary_scores g p l)).
Proof. split_and!; apply py_round2_nearest. Qed.

Lemma macro_scores_near g p :
  nearest_hundredth (np_average (precision_of g p <$> unique_labels g p))
                    (precision (macro_scores g p))
  ∧ nearest_hundredth (np_average (recall_of g p <$> unique_labels g p))
                      (recall (macro_scores g p))
  ∧ nearest_hundredth (np_average (f1_of g p <$> unique_labels g p))
                      (f1 (macro_scores g p)).
Proof. split_and!; apply py_round2_nearest. Qed.


Lemma filter_none {A} (P : A → Prop) `{!∀ x, Decision (P x)} (l : list A) :
  (∀ x, x ∈ l → ¬ P x) → filter P l = [].
Proof.
  induction l as [|x l IH]; intros Hall; [done|].
  rewrite filter_cons_False.
  - apply IH. intros y Hy. apply Hall, elem_of_cons. by right.
  - apply Hall, elem_of_cons. by left.
Qed.








(** *** The label summary *)

Lemma value_counts_lookup col v :
  value_counts col !! v
  = if is_nan v then None
    else match count_occ_label v col with
         | 0 => None
         | S n => Some (S n)
         end.
Proof.
  unfold count_occ_label.
  induction col as [|x col IH]; simpl.
  - rewrite lookup_empty. by destruct (is_nan v).
  - unfold count_value. destruct (is_nan x) eqn:Hx.
    + rewrite IH. destruct (is_nan v) eqn:Hv; [done|].
      rewrite filter_cons_False; [done|]. intros ->. congruence.
    + destruct (decide (x = v)) as [->|Hne].
      * rewrite lookup_insert_eq, Hx, IH, Hx.
        rewrite filter_cons_True by done. simpl.
        by destruct (length (filter (λ v0, v0 = v) col)).
      * rewrite lookup_insert_ne by done.
        rewrite filter_cons_False by done. apply IH.
Qed.

Lemma col_position_range df :
  columns df = range_index (n_columns df) → 2 ≤ n_columns df →
  col_position (SInt 1) df = Some 1.
Proof.
  intros Hcols Hn. unfold col_position. rewrite Hcols.
  destruct (n_columns df) as [|[|n]]; [lia..|].
  unfold range_index. by simpl.
Qed.

Lemma list_find_last_NoDup (l : list scalar) c :
  NoDup l → last l = Some c →
  fst <$> list_find (λ c', c' = c) l = Some (length l - 1).
Proof.
  intros Hnd Hlast.
  destruct (list_find (λ c', c' = c) l) as [[i c']|] eqn:Hfind.
  - apply list_find_Some in Hfind as (Hi & -> & _). simpl. f_equal.
    rewrite last_lookup in Hlast.
    replace (length l - 1) with (Nat.pred (length l)) by lia.
    by apply (NoDup_lookup l i (Nat.pred (length l)) c).
  - apply list_find_None in Hfind.
    rewrite Forall_forall in Hfind. exfalso.
    apply (Hfind c); [|done].
    rewrite last_lookup in Hlast. by apply list_elem_of_lookup_2 in Hlast.
Qed.

(** C4, amended: for a frame labelled as the loader labels it,
    [outcome_values] returns the mapping that sends every value of the
    label column (position 1 for ['breast_cancer'], the last position
    otherwise) other than the missing marker to the exact number of rows
    carrying it; the missing marker is no key of the mapping, so a row
    whose label is missing is left out of the counts. *)
Theorem outcome_values_counts dataset_id df :
  labelled_for dataset_id df →
  ∃ values, outcome_values dataset_id df = Ok values
    ∧ values !! SNaN = None
    ∧ ∀ v, v ≠ SNaN →
        values !! v
        = match count_occ_label v
                  (column_at (label_position dataset_id df) df) with
          | 0 => None
          | S n => Some (S n)
          end.
Proof.
  unfold labelled_for, outcome_values, label_position, getitem.
  destruct (decide (dataset_id = "breast_cancer")) as [_|_].
  - intros [Hcols Hn]. rewrite (col_position_range _ Hcols Hn). cbn.
    eexists. split; [done|]. split.
    + by rewrite value_counts_lookup.
    + intros v Hv. rewrite value_counts_lookup. by destruct v.
  - intros [Hnd Hn]. unfold last_label.
    destruct (last (columns df)) as [c|] eqn:Hlast.
    + cbn. unfold col_position.
      rewrite (list_find_last_NoDup _ _ Hnd Hlast). cbn.
      eexists. split; [done|]. split.
      * by rewrite value_counts_lookup.
      * intros v Hv. rewrite value_counts_lookup. by destruct v.
    + apply last_None in Hlast. unfold n_columns in Hn.
      rewrite Hlast in Hn. simpl in Hn. lia.
Qed.

(** *** The loader *)

Hypothesis sentinel_not_numeric : to_numeric "?" = None.

Lemma postprocess_cells data :
  postprocess data
  = frame_map (λ c, if decide ((if is_nan (pd_to_numeric c) then c
                                else pd_to_numeric c) = SStr "?")
                    then SNaN
                    else if is_nan (pd_to_numeric c) then c
                         else pd_to_numeric c) data.
Proof.
  unfold postprocess, replace_value, fillna, frame_zip_with, frame_map.
  simpl. f_equal.
  induction (rows data) as [|r rs IH]; [done|]. simpl. f_equal; [|done].
  clear IH. induction r as [|c r IH]; [done|]. simpl. by f_equal.
Qed.

Lemma cell_rule_holds c :
  cell_rule c (if decide ((if is_nan (pd_to_numeric c) then c
                           else pd_to_numeric c) = SStr "?")
               then SNaN
               else if is_nan (pd_to_numeric c) then c
                    else pd_to_numeric c).
Proof.
  unfold cell_rule. destruct c as [q|s|]; simpl.
  - right. left. done.
  - destruct (decide (s = "?")) as [->|Hne].
    + left. rewrite sentinel_not_numeric. by simpl.
    + right. destruct (to_numeric s) as [q|]; simpl.
      * left. repeat split; congruence.
      * right. rewrite decide_False by congruence.
        repeat split; congruence.
  - right. right. done.
Qed.

(** C9: for every dataset identifier, the table returned by [read_data]
    has the columns and the shape of the table loaded for it, and every
    cell follows the rule: numeric coercion of the original where the
    coercion succeeds, the original itself where it fails on something
    other than the sentinel, the missing marker for the sentinel [?]. *)
Theorem read_data_cells dataset_id raw :
  read_raw dataset_id = Ok raw →
  ∃ data, read_data dataset_id = Ok data
    ∧ columns data = columns raw
    ∧ Forall2 (Forall2 cell_rule) (rows raw) (rows data).
Proof.
  intros Hload. unfold read_data. rewrite Hload. cbn.
  eexists. split; [done|]. rewrite postprocess_cells.
  split; [done|]. simpl.
  induction (rows raw) as [|r rs IH]; simpl; constructor; [|done].
  clear IH. induction r as [|c r IH]; simpl; constructor; [|done].
  apply cell_rule_holds.
Qed.

(** *** The split *)

Hypothesis permutation_perm : ∀ n, permutation n ≡ₚ seq 0 n.

(** A generator made from a seed has a state of its own: the shuffle drawn
    for the seed 0 is [permutation], whatever the state of the global
    generator, which is left as it was. *)
Hypothesis seeded_shuffle :
  ∀ n g, draw_permutation (Some 0) n g = (permutation n, g).

(** Every estimator that [clf_params] describes either carries its
    [random_state] (the tree and the support vector machine) or draws no
    random number (the neighbours and naive Bayes): [fit] makes a generator
    of its own from the seed, or none, and what it learns is [learn] of the
    parameters and the data, whatever the state of the global generator,
    which is left as it was. *)
Hypothesis seeded_fit :
  ∀ params X y g,
    fit_with params X y g = learn params X y ≫= λ f, Ok (f, g).

Lemma bind_Ok {A B} (m : result A) (k : A → result B) b :
  m ≫= k = Ok b → ∃ a, m = Ok a ∧ k a = Ok b.
Proof. destruct m; [eauto|done]. Qed.

Lemma bind_Ok_l {A B} (a : A) (k : A → result B) : Ok a ≫= k = k a.
Proof. done. Qed.

Lemma n_test_of_spec n : n_test_of n = (n + 4) / 5.
Proof.
  unfold n_test_of, Qceiling, Qfloor, Qopp, Qmult, inject_Z.
  cbn [Qnum Qden].
  apply Nat2Z.inj. rewrite Nat2Z.inj_div, Nat2Z.inj_add.
  change (Z.of_nat 4) with 4%Z. change (Z.of_nat 5) with 5%Z.
  change (Z.pos (10 * 1)) with 10%Z.
  generalize (Z.of_nat n) (Nat2Z.is_nonneg n). intros z Hz.
  rewrite Z2Nat.id; Z.div_mod_to_equations; lia.
Qed.

Lemma n_test_of_lt n : 2 ≤ n → 1 ≤ n_test_of n < n.
Proof.
  intros Hn. rewrite n_test_of_spec.
  pose proof (Nat.div_mod_eq (n + 4) 5) as Hd.
  pose proof (Nat.mod_upper_bound (n + 4) 5) as Hm. lia.
Qed.

Lemma shuffle_split_ok n :
  2 ≤ n →
  ∃ train test, shuffle_split n = Ok (train, test)
    ∧ train ++ test ≡ₚ seq 0 n
    ∧ length test = (n + 4) / 5
    ∧ length train + length test = n.
Proof.
  intros Hn. pose proof (n_test_of_lt n Hn) as Hlt.
  assert (Hlen : length (permutation n) = n).
  { rewrite (Permutation_length (permutation_perm n)). apply length_seq. }
  unfold shuffle_split.
  rewrite (proj2 (Nat.eqb_neq _ _)) by lia.
  eexists _, _. split; [done|].
  rewrite (take_ge (drop _ _)) by (rewrite length_drop; lia).
  split; [|split].
  - rewrite (Permutation_app_comm _ _), take_drop. apply permutation_perm.
  - rewrite length_take, <- n_test_of_spec. lia.
  - rewrite length_take, length_drop. lia.
Qed.

Lemma shuffle_split_range n train test :
  shuffle_split n = Ok (train, test) →
  Forall (λ i, i < n) (train ++ test).
Proof.
  unfold shuffle_split. destruct (n - n_test_of n =? 0); [done|].
  intros [= <- <-].
  assert (Hall : Forall (λ i, i < n) (permutation n)).
  { apply Forall_forall. intros i Hi.
    rewrite (permutation_perm n) in Hi.
    apply elem_of_seq in Hi. lia. }
  apply Forall_app. split.
  - by apply Forall_take, Forall_drop.
  - by apply Forall_take.
Qed.

Lemma safe_indexing_inv {A} (a : list A) idx l :
  safe_indexing a idx = Ok l → Forall2 (λ i x, a !! i = Some x) idx l.
Proof.
  unfold safe_indexing.
  destruct (mapM (λ i, a !! i) idx) as [l'|] eqn:Hm; [|done].
  intros [= <-]. by apply mapM_Some.
Qed.

Lemma safe_indexing_ok {A} (a : list A) idx :
  Forall (λ i, i < length a) idx →
  ∃ l, safe_indexing a idx = Ok l.
Proof.
  intros Hidx. unfold safe_indexing.
  destruct (mapM (λ i, a !! i) idx) as [l|] eqn:Hm; [eauto|].
  exfalso. apply mapM_None in Hm. apply Exists_exists in Hm as (i & Hi & Hnone).
  rewrite Forall_forall in Hidx. apply Hidx in Hi.
  apply lookup_lt_is_Some_2 in Hi as [x Hx]. congruence.
Qed.

Lemma train_test_split_inv {A B} (X : list A) (y : list B)
    X_train X_test y_train y_test :
  train_test_split X y = Ok (X_train, X_test, y_train, y_test) →
  ∃ train test, shuffle_split (length X) = Ok (train, test)
    ∧ length X = length y
    ∧ Forall2 (λ i x, X !! i = Some x) train X_train
    ∧ Forall2 (λ i x, X !! i = Some x) test X_test
    ∧ Forall2 (λ i x, y !! i = Some x) train y_train
    ∧ Forall2 (λ i x, y !! i = Some x) test y_test.
Proof.
  unfold train_test_split.
  destruct (length X =? length y) eqn:Hlen; [|done]. cbn [negb].
  apply Nat.eqb_eq in Hlen.
  intros ([train test] & Hsplit & H)%bind_Ok.
  apply bind_Ok in H as (a & Ha & H).
  apply bind_Ok in H as (b & Hb & H).
  apply bind_Ok in H as (c & Hc & H).
  apply bind_Ok in H as (d & Hd & H).
  injection H as <- <- <- <-.
  exists train, test. eauto 10 using @safe_indexing_inv.
Qed.

Lemma train_test_split_ok {A B} (X : list A) (y : list B) :
  length X = length y → 2 ≤ length X →
  ∃ X_train X_test y_train y_test,
    train_test_split X y = Ok (X_train, X_test, y_train, y_test).
Proof.
  intros Hlen Hn.
  destruct (shuffle_split_ok _ Hn) as (train & test & Hsplit & _).
  pose proof (shuffle_split_range _ _ _ Hsplit) as [Htr Hte]%Forall_app.
  destruct (safe_indexing_ok X train Htr) as [a Ha].
  destruct (safe_indexing_ok X test Hte) as [b Hb].
  rewrite Hlen in Htr, Hte.
  destruct (safe_indexing_ok y train Htr) as [c Hc].
  destruct (safe_indexing_ok y test Hte) as [d Hd].
  exists a, b, c, d. unfold train_test_split.
  rewrite (proj2 (Nat.eqb_eq _ _) Hlen). cbn [negb].
  rewrite Hsplit. cbn. rewrite Ha. cbn. rewrite Hb. cbn.
  rewrite Hc. cbn. by rewrite Hd.
Qed.

(** The calls with the seed 0, whatever the global generator. *)
Lemma shuffle_split_rs_seeded n g :
  shuffle_split_rs (Some 0) n g
  = shuffle_split n ≫= λ parts, Ok (parts, g).
Proof.
  unfold shuffle_split_rs, shuffle_split.
  destruct (n - n_test_of n =? 0); [done|]. by rewrite seeded_shuffle.
Qed.

Lemma train_test_split_rs_seeded {A B} (X : list A) (y : list B) g :
  train_test_split_rs (Some 0) X y g
  = train_test_split X y ≫= λ parts, Ok (parts, g).
Proof.
  unfold train_test_split_rs, train_test_split.
  destruct (negb _); [done|]. rewrite shuffle_split_rs_seeded.
  destruct (shuffle_split (length X)) as [[train test]|e]; [|done]. cbn.
  destruct (safe_indexing X train); [|done]. cbn.
  destruct (safe_indexing X test); [|done]. cbn.
  destruct (safe_indexing y train); [|done]. cbn.
  by destruct (safe_indexing y test).
Qed.

Lemma set_generator_id σ : set_generator (generator σ) σ = σ.
Proof. by destruct σ. Qed.

Lemma features_and_labels_length dataset_id dataset X y :
  features_and_labels dataset_id dataset = Ok (X, y) →
  length X = length y.
Proof.
  unfold features_and_labels. repeat case_decide.
  - intros ([? sex] & _ & Hk)%bind_Ok.
    apply bind_Ok in Hk as (outcome & _ & Hk).
    injection Hk as <- <-. simpl.
    by rewrite length_map, !length_fmap.
  - intros [= <- <-]. simpl. by rewrite length_map, !length_fmap.
  - intros (Xf & HX & Hk)%bind_Ok.
    apply bind_Ok in Hk as (col & Hcol & Hk).
    injection Hk as <- <-.
    unfold drop_columns in HX. case_bool_decide; [|done].
    injection HX as <-. simpl.
    unfold getitem in Hcol. destruct (col_position _ _); [|done].
    injection Hcol as <-. unfold column_at.
    by rewrite length_map, !length_fmap.
  - intros [= <- <-]. simpl. by rewrite length_map, !length_fmap.
Qed.

Lemma classify_inv dataset_id dataset σ pred actual σ' :
  classify dataset_id dataset σ = Ok (pred, actual, σ') →
  ∃ X y X_train X_test y_train y_test imputer Xi_train Xi_test r p,
    features_and_labels dataset_id dataset = Ok (X, y)
    ∧ train_test_split X y = Ok (X_train, X_test, y_train, y_test)
    ∧ impute X_train X_test = Ok (imputer, Xi_train, Xi_test)
    ∧ model σ = Some r
    ∧ estimator_fit r Xi_train y_train σ = Ok σ'
    ∧ estimator_predict r Xi_test σ' = Ok p
    ∧ pred = map Bare p
    ∧ actual = y_test.
Proof.
  unfold classify.
  intros ([X y] & HXy & H)%bind_Ok.
  rewrite train_test_split_rs_seeded in H.
  apply bind_Ok in H as ([parts g] & Hparts & H).
  apply bind_Ok in Hparts
    as ([[[X_train X_test] y_train] y_test] & Hsplit & Hparts).
  injection Hparts as <- <-. rewrite set_generator_id in H.
  apply bind_Ok in H as ([[imputer Xi_train] Xi_test] & Himp & H).
  apply bind_Ok in H as (r & Hr & H).
  apply bind_Ok in H as (σ1 & Hfit & H).
  apply bind_Ok in H as (p & Hp & H).
  injection H as <- <- <-.
  exists X, y, X_train, X_test, y_train, y_test, imputer, Xi_train, Xi_test,
         r, p.
  repeat split; try done.
  unfold global_model in Hr. by destruct (model σ); simplify_eq.
Qed.

(** C7: once the features and labels of a dataset are extracted, with at
    least two rows, [train_test_split] returns; the train and the test
    positions together are a rearrangement of all row positions, so that
    they are disjoint and every row is in exactly one of them; the test
    set takes a fifth of the rows, rounded up; the four parts returned are
    the rows and labels at these positions; and whatever the store, that
    is whichever classifier is bound to [model], a run of [classify] on
    the dataset imputes and fits on the train part and is scored against
    the test labels of this one partition.  (The test size is
    [ceil(0.2 * n)]; for the row counts a float can hold it is the fifth
    of [n] rounded up.) *)
Theorem train_test_partition dataset_id dataset X y :
  features_and_labels dataset_id dataset = Ok (X, y) →
  2 ≤ length X →
  ∃ train test X_train X_test y_train y_test,
    shuffle_split (length X) = Ok (train, test)
    ∧ train_test_split X y = Ok (X_train, X_test, y_train, y_test)
    ∧ train ++ test ≡ₚ seq 0 (length X)
    ∧ (∀ i, i ∈ train → i ∉ test)
    ∧ (∀ i, i < length X ↔ i ∈ train ∨ i ∈ test)
    ∧ length X_train + length X_test = length X
    ∧ length X_test = (length X + 4) / 5
    ∧ Forall2 (λ i x, X !! i = Some x) train X_train
    ∧ Forall2 (λ i x, X !! i = Some x) test X_test
    ∧ Forall2 (λ i x, y !! i = Some x) train y_train
    ∧ Forall2 (λ i x, y !! i = Some x) test y_test
    ∧ ∀ σ pred actual σ',
        classify dataset_id dataset σ = Ok (pred, actual, σ') →
        actual = y_test
        ∧ ∃ imputer Xi_train Xi_test r,
            impute X_train X_test = Ok (imputer, Xi_train, Xi_test)
            ∧ model σ = Some r
            ∧ estimator_fit r Xi_train y_train σ = Ok σ'.
Proof.
  intros HXy Hn.
  pose proof (features_and_labels_length _ _ _ _ HXy) as Hlen.
  destruct (train_test_split_ok X y Hlen Hn)
    as (X_train & X_test & y_train & y_test & Hsplit).
  destruct (train_test_split_inv _ _ _ _ _ _ Hsplit)
    as (train & test & Hidx & _ & H1 & H2 & H3 & H4).
  destruct (shuffle_split_ok _ Hn)
    as (train' & test' & Hidx' & Hperm & Htest & Hsum).
  rewrite Hidx in Hidx'. injection Hidx' as <- <-.
  exists train, test, X_train, X_test, y_train, y_test.
  assert (Hnd : NoDup (train ++ test)).
  { rewrite Hperm. apply NoDup_seq. }
  split_and!; try done.
  - intros i Hi Hi'. apply NoDup_app in Hnd as (_ & Hdisj & _).
    by apply (Hdisj i).
  - intros i. rewrite <- elem_of_app, Hperm, elem_of_seq. lia.
  - rewrite <- (Forall2_length _ _ _ H1), <- (Forall2_length _ _ _ H2). done.
  - by rewrite <- (Forall2_length _ _ _ H2).
  - intros σ pred actual σ' Hc.
    apply classify_inv in Hc
      as (X' & y' & ? & ? & ? & y_test' & imputer & Xi_train & Xi_test & r & ?
          & HXy' & Hsplit' & Himp & Hr & Hfit & _ & _ & ->).
    rewrite HXy in HXy'. injection HXy' as <- <-.
    rewrite Hsplit in Hsplit'. injection Hsplit' as <- <- <- <-.
    split; [done|]. by exists imputer, Xi_train, Xi_test, r.
Qed.

(** *** The imputer *)

Lemma impute_inv X_train X_test imputer Xi_train Xi_test :
  impute X_train X_test = Ok (imputer, Xi_train, Xi_test) →
  ∃ Xf_train Xf_test,
    check_array X_train = Ok Xf_train
    ∧ check_array X_test = Ok Xf_test
    ∧ imputer = mk_imputer (column_means Xf_train)
    ∧ Xi_train = impute_row (statistics_ imputer) <$> Xf_train
    ∧ Xi_test = impute_row (statistics_ imputer) <$> Xf_test.
Proof.
  unfold impute. intros (im & Hfit & Hk)%bind_Ok.
  apply bind_Ok in Hk as (a & Ha & Hk).
  apply bind_Ok in Hk as (b & Hb & Hk).
  injection Hk as <- <- <-.
  unfold imputer_fit in Hfit.
  apply bind_Ok in Hfit as (Xf_train & Hct & Hfit). injection Hfit as <-.
  unfold imputer_transform in Ha, Hb.
  apply bind_Ok in Ha as (Xf & Hct' & Ha).
  rewrite Hct in Hct'. injection Hct' as <-.
  apply bind_Ok in Hb as (Xf_test & Hcte & Hb).
  destruct (negb _) in Ha; [done|]. destruct (negb _) in Hb; [done|].
  injection Ha as <-. injection Hb as <-.
  by exists Xf_train, Xf_test.
Qed.

Lemma check_array_mapM X Xf :
  check_array X = Ok Xf → mapM (mapM as_float) X = Some Xf.
Proof.
  unfold check_array. destruct (mapM _ X) as [[|r rs]|]; try done.
  case_bool_decide; [|done]. by intros [= <-].
Qed.

Lemma check_array_shape X Xf :
  check_array X = Ok Xf →
  length Xf = length X
  ∧ n_features Xf = n_features X
  ∧ 1 ≤ n_features Xf
  ∧ Forall (λ r, length r = n_features Xf) Xf.
Proof.
  intros H. pose proof (check_array_mapM _ _ H) as Hm.
  apply mapM_Some_1 in Hm.
  split; [symmetry; by eapply Forall2_length|].
  unfold check_array in H. destruct (mapM _ X) as [[|r rs]|]; try done.
  case_bool_decide as Hrect; [|done]. injection H as <-.
  destruct Hrect as [Hr Hrs].
  inversion Hm as [|x ? X' ? Hx _]; subst. simpl.
  split; [symmetry; by eapply length_mapM|].
  split; [destruct r; [done|simpl; lia]|].
  by constructor.
Qed.

Lemma impute_inv_width X_train X_test imputer Xi_train Xi_test :
  impute X_train X_test = Ok (imputer, Xi_train, Xi_test) →
  ∃ Xf_train Xf_test,
    check_array X_train = Ok Xf_train
    ∧ check_array X_test = Ok Xf_test
    ∧ n_features Xf_test = n_features Xf_train
    ∧ imputer = mk_imputer (column_means Xf_train)
    ∧ Xi_train = impute_row (column_means Xf_train) <$> Xf_train
    ∧ Xi_test = impute_row (column_means Xf_train) <$> Xf_test.
Proof.
  intros Himp.
  destruct (impute_inv _ _ _ _ _ Himp)
    as (Xf_train & Xf_test & Ha & Hb & -> & -> & ->).
  exists Xf_train, Xf_test. repeat split; try done.
  unfold impute, imputer_fit, imputer_transform in Himp.
  rewrite Ha in Himp. cbn in Himp. rewrite ?Ha in Himp. cbn in Himp.
  destruct (negb _) in Himp; [done|]. cbn in Himp.
  rewrite Hb in Himp. cbn in Himp.
  destruct (_ =? _) eqn:Hw in Himp; [|done].
  apply Nat.eqb_eq in Hw. rewrite Hw. unfold column_means.
  by rewrite length_fmap, length_seq.
Qed.

Lemma as_float_cell r rf j :
  mapM as_float r = Some rf →
  mjoin (rf !! j)
  = match r !! j with
    | Some (SNum q) => Some q
    | Some (SStr s) => mjoin (np_float s)
    | _ => None
    end.
Proof.
  intros H%mapM_Some_1. revert j.
  induction H as [|c cf r rf Hc _ IH]; intros [|j]; try done.
  - simpl. destruct c; simpl in Hc; simplify_eq; try done. by rewrite Hc.
  - simpl. apply IH.
Qed.

Lemma as_float_column X Xf j :
  mapM (mapM as_float) X = Some Xf →
  (λ rf, mjoin (rf !! j)) <$> Xf
  = (λ r, match r !! j with
          | Some (SNum q) => Some q
          | Some (SStr s) => mjoin (np_float s)
          | _ => None
          end) <$> X.
Proof.
  intros H%mapM_Some_1.
  induction H as [|r rf X Xf Hr _ IH]; [done|].
  csimpl. by rewrite IH, (as_float_cell _ _ _ Hr).
Qed.

Lemma omap_id_fmap {A B} (f : A → option B) (l : list A) :
  omap id (f <$> l) = omap f l.
Proof.
  induction l as [|x l IH]; [done|]. csimpl. rewrite IH. by destruct (f x).
Qed.

(** The statistic that [fit] computes for a column is the mean of the
    numbers that the column holds. *)
Lemma mean_observed_numbers X Xf j :
  mapM (mapM as_float) X = Some Xf →
  mean_observed ((λ rf, mjoin (rf !! j)) <$> Xf)
  = mean_of (column_numbers j X).
Proof.
  intros H. rewrite (as_float_column _ _ j H).
  unfold mean_observed, mean_of, column_numbers.
  rewrite omap_id_fmap.
  assert (Hf : omap (λ r : list scalar,
                  match r !! j with
                  | Some (SNum q) => Some q
                  | Some (SStr s) => mjoin (np_float s)
                  | _ => None
                  end) X
               = omap (λ r, r !! j ≫= cell_number) X).
  { clear. induction X as [|r X IH]; [done|]. csimpl. rewrite IH.
    by destruct (r !! j) as [[]|]. }
  rewrite Hf. by destruct (omap _ X).
Qed.

(** What [transform] makes of a row is the row filled with the
    statistics. *)
Lemma impute_row_filled_row stats r rf :
  mapM as_float r = Some rf →
  impute_row stats rf = filled_row stats r.
Proof.
  intros H%mapM_Some_1. revert stats. unfold filled_row.
  induction H as [|c cf r rf Hc _ IH]; intros [|[m|] stats]; try done.
  - csimpl. rewrite IH. f_equal.
    assert (Hcell : cell_number c = cf); [|by rewrite Hcell].
    destruct c; simpl in *; first [by rewrite Hc | by simplify_eq].
  - csimpl. by rewrite IH.
Qed.

Lemma impute_rows_filled stats X Xf :
  mapM (mapM as_float) X = Some Xf →
  impute_row stats <$> Xf = filled_row stats <$> X.
Proof.
  intros H%mapM_Some_1.
  induction H as [|r rf X Xf Hr _ IH]; [done|].
  csimpl. by rewrite IH, (impute_row_filled_row _ _ _ Hr).
Qed.

Lemma column_means_lookup Xf j :
  j < n_features Xf →
  column_means Xf !! j
  = Some (mean_observed ((λ r, mjoin (r !! j)) <$> Xf)).
Proof.
  intros Hj. unfold column_means.
  rewrite list_lookup_fmap, lookup_seq_lt by done. done.
Qed.

(** With a statistic for every column, [transform] keeps an observed cell
    and puts the column's statistic in place of a missing one. *)
Lemma impute_row_filled (means : list Qc) (row : list (option Qc)) :
  impute_row (Some <$> means) row = zip_with default means row.
Proof.
  revert row. induction means as [|m means IH]; intros [|c row]; simpl;
    try done.
  by rewrite IH.
Qed.

Lemma Forall2_lookup_agree {A} (a a' : list A) idx l l' :
  Forall2 (λ i x, a !! i = Some x) idx l →
  Forall2 (λ i x, a' !! i = Some x) idx l' →
  (∀ i, i ∈ idx → a' !! i = a !! i) →
  l' = l.
Proof.
  intros H. revert l'.
  induction H as [|i x idx l Hx _ IH]; intros l' H' Hagree.
  - by inversion H'.
  - inversion H' as [|? x' ? l'' Hx' Hrest]; subst.
    rewrite Hagree, Hx in Hx' by (apply elem_of_cons; by left).
    injection Hx' as <-. f_equal.
    apply IH; [done|]. intros j Hj. apply Hagree, elem_of_cons. by right.
Qed.

Lemma estimator_fit_inv r X y σ σ' :
  estimator_fit r X y σ = Ok σ' →
  ∃ e y1 f,
    objects σ !! r = Some e
    ∧ column_or_1d y = Ok y1
    ∧ learn (est_params e) X y1 = Ok f
    ∧ σ' = mk_store (<[r := mk_estimator (est_params e) (Some f)]> (objects σ))
                    (classifiers σ) (model σ) (fit_calls σ ++ [r])
                    (generator σ).
Proof.
  unfold estimator_fit. destruct (objects σ !! r) as [e|]; [|done].
  intros (y1 & Hy & Hk)%bind_Ok. rewrite seeded_fit in Hk.
  apply bind_Ok in Hk as ([f g] & Hf & Hk). injection Hk as <-.
  apply bind_Ok in Hf as (f' & Hf & Heq). injection Heq as -> <-.
  by exists e, y1, f.
Qed.

Lemma estimator_fit_ok r X y σ e y1 f :
  objects σ !! r = Some e →
  column_or_1d y = Ok y1 →
  learn (est_params e) X y1 = Ok f →
  estimator_fit r X y σ
  = Ok (mk_store (<[r := mk_estimator (est_params e) (Some f)]> (objects σ))
                 (classifiers σ) (model σ) (fit_calls σ ++ [r])
                 (generator σ)).
Proof.
  intros He Hy Hf. unfold estimator_fit.
  by rewrite He, Hy, bind_Ok_l, seeded_fit, Hf, !bind_Ok_l.
Qed.

(** C1: in a run of [classify] the imputer is fitted on the training
    rows of the split and on nothing else.  Its statistics are, column by
    column, the mean of the numbers that the column holds in the training
    rows (their sum over their count; none where the column holds no
    number); the same statistics fill the train and the test matrix: in
    both, every row keeps the numbers of its cells and takes the column's
    mean where a cell has none (a column without a mean is left out of
    both); and it is on these filled matrices that the model is fitted and
    predicts.  The statistics are the same for any other feature matrix that
    agrees with this one on the training rows: no row of the test set has
    a part in them. *)
Theorem classify_imputes_from_train dataset_id dataset σ pred actual σ' :
  classify dataset_id dataset σ = Ok (pred, actual, σ') →
  ∃ X y train test X_train X_test y_train y_test Xf_train Xf_test imputer,
    features_and_labels dataset_id dataset = Ok (X, y)
    ∧ shuffle_split (length X) = Ok (train, test)
    ∧ train_test_split X y = Ok (X_train, X_test, y_train, y_test)
    ∧ Forall2 (λ i x, X !! i = Some x) train X_train
    ∧ check_array X_train = Ok Xf_train
    ∧ check_array X_test = Ok Xf_test
    ∧ statistics_ imputer = column_means Xf_train
    ∧ (∀ j, j < n_features Xf_train →
         statistics_ imputer !! j
         = Some (mean_observed ((λ r, mjoin (r !! j)) <$> Xf_train)))
    ∧ impute X_train X_test
      = Ok (imputer,
            impute_row (statistics_ imputer) <$> Xf_train,
            impute_row (statistics_ imputer) <$> Xf_test)
    ∧ (∀ X' (y' : list pyobj) X_train' X_test' y_train' y_test' imputer' a b,
        length X' = length X →
        (∀ i, i ∈ train → X' !! i = X !! i) →
        train_test_split X' y' = Ok (X_train', X_test', y_train', y_test') →
        impute X_train' X_test' = Ok (imputer', a, b) →
        imputer' = imputer)
    ∧ length (statistics_ imputer) = n_features X_train
    ∧ (∀ j, j < n_features X_train →
         statistics_ imputer !! j = Some (mean_of (column_numbers j X_train)))
    ∧ ∃ r e y1 f p,
        model σ = Some r
        ∧ objects σ !! r = Some e
        ∧ column_or_1d y_train = Ok y1
        ∧ learn (est_params e)
                (filled_row (statistics_ imputer) <$> X_train) y1 = Ok f
        ∧ predict_with f (filled_row (statistics_ imputer) <$> X_test) = Ok p
        ∧ pred = Bare <$> p.
Proof.
  intros Hc.
  apply classify_inv in Hc
    as (X & y & X_train & X_test & y_train & y_test & imputer
        & Xi_train & Xi_test & r & p
        & HXy & Hsplit & Himp & Hr & Hfit & Hpred & -> & _).
  destruct (train_test_split_inv _ _ _ _ _ _ Hsplit)
    as (train & test & Hidx & _ & Htrain & _).
  destruct (impute_inv _ _ _ _ _ Himp)
    as (Xf_train & Xf_test & Hct & Hcte & -> & -> & ->).
  pose proof (check_array_mapM _ _ Hct) as Hma.
  pose proof (check_array_mapM _ _ Hcte) as Hmb.
  destruct (check_array_shape _ _ Hct) as (_ & Hna & _).
  exists X, y, train, test, X_train, X_test, y_train, y_test,
         Xf_train, Xf_test, (mk_imputer (column_means Xf_train)).
  cbn [statistics_] in *.
  split_and!; try done.
  - intros j Hj. by apply column_means_lookup.
  - intros X' y' X_train' X_test' y_train' y_test' imputer' a b
           Hlen Hagree Hsplit' Himp'.
    destruct (train_test_split_inv _ _ _ _ _ _ Hsplit')
      as (train' & test' & Hidx' & _ & Htrain' & _).
    rewrite Hlen, Hidx in Hidx'. injection Hidx' as <- <-.
    rewrite (Forall2_lookup_agree _ _ _ _ _ Htrain Htrain' Hagree) in Himp'.
    destruct (impute_inv _ _ _ _ _ Himp') as (Xf' & ? & Hct' & _ & -> & _).
    rewrite Hct in Hct'. by injection Hct' as <-.
  - unfold column_means. by rewrite length_fmap, length_seq.
  - intros j Hj. rewrite column_means_lookup by congruence.
    by rewrite (mean_observed_numbers _ _ j Hma).
  - apply estimator_fit_inv in Hfit as (e & y1 & f & He & Hy1 & Hf & ->).
    unfold estimator_predict in Hpred. cbn [objects] in Hpred.
    rewrite list_lookup_insert_eq in Hpred by (by eapply lookup_lt_Some).
    cbn in Hpred.
    rewrite (impute_rows_filled _ _ _ Hma) in Hf.
    rewrite (impute_rows_filled _ _ _ Hmb) in Hpred.
    exists r, e, y1, f, p. split_and!; try done.
Qed.

(** *** The shape of the labels *)

Lemma drop_last_cell (r : list scalar) n :
  length r = n → 1 ≤ n → drop (n - 1) r = [cell_at (n - 1) r].
Proof.
  intros Hlen Hn. unfold cell_at.
  destruct (drop (n - 1) r) as [|x [|x' l]] eqn:Hd.
  - apply (f_equal length) in Hd. rewrite length_drop in Hd.
    simpl in Hd. lia.
  - assert (Hx : drop (n - 1) r !! 0 = Some x) by (by rewrite Hd).
    rewrite lookup_drop, Nat.add_0_r in Hx. by rewrite Hx.
  - apply (f_equal length) in Hd. rewrite length_drop in Hd.
    simpl in Hd. lia.
Qed.

Lemma cell_at_map (f : scalar → scalar) r j :
  j < length r → cell_at j (map f r) = f (cell_at j r).
Proof.
  intros Hj. unfold cell_at.
  change (map f r) with (f <$> r). rewrite list_lookup_fmap.
  destruct (r !! j) eqn:Hl; [done|].
  apply lookup_ge_None in Hl. lia.
Qed.

(** The last column, sliced as a one-column frame, after a cell-wise
    recoding [f]. *)
Lemma wrapped_last_column rs n (f : scalar → scalar) :
  Forall (λ r, length r = n) rs → 1 ≤ n →
  map Wrapped (drop (n - 1) <$> map (map f) rs)
  = (λ v, Wrapped [f v]) <$> (cell_at (n - 1) <$> rs).
Proof.
  intros Hrs Hn. induction Hrs as [|r rs Hr _ IH]; [done|].
  simpl. f_equal; [|exact IH]. f_equal.
  rewrite (drop_last_cell (map f r) n) by (by rewrite ?length_map).
  f_equal. apply cell_at_map. lia.
Qed.

(** The same for the table put together for ['hyperthyroidism']: the
    columns but the last two, [k] indicator columns, the last column. *)
Lemma wrapped_last_column_hyper rs n k (d : scalar → list scalar)
    (f : scalar → scalar) :
  Forall (λ r, length r = n) rs → 2 ≤ n → (∀ v, length (d v) = k) →
  map Wrapped
    (drop (n - 2 + k + 1 - 1)
       <$> map (map f)
             (zip_with app
                (zip_with app (take (n - 2) <$> rs)
                          (d <$> (cell_at (n - 2) <$> rs)))
                ((λ v, [v]) <$> (cell_at (n - 1) <$> rs))))
  = (λ v, Wrapped [f v]) <$> (cell_at (n - 1) <$> rs).
Proof.
  intros Hrs Hn Hd. induction Hrs as [|r rs Hr _ IH]; [done|].
  simpl. f_equal; [|exact IH]. f_equal.
  rewrite map_app. simpl.
  apply drop_app_length'.
  rewrite length_map, length_app, length_take_le, Hd by lia. lia.
Qed.

Lemma iloc_from_end_inv k df s :
  iloc_from_end k df = Ok s →
  k ≤ n_columns df ∧ s.2 = column_at (n_columns df - k) df.
Proof.
  unfold iloc_from_end.
  destruct (columns df !! (n_columns df - k)); [|done].
  destruct (n_columns df <? k) eqn:Hk; [done|].
  apply Nat.ltb_ge in Hk. by intros [= <-].
Qed.

Lemma features_and_labels_wrapped dataset_id dataset X y :
  frame_ok dataset →
  dataset_id ≠ "breast_cancer" →
  features_and_labels dataset_id dataset = Ok (X, y) →
  y = (λ v, Wrapped [label_recode dataset_id v])
        <$> column_at (n_columns dataset - 1) dataset.
Proof.
  intros [Hn Hrows] Hid. unfold features_and_labels, label_recode.
  destruct (decide (dataset_id = "hyperthyroidism")) as [_|_].
  - intros ([c2 sex] & Hsex & Hk)%bind_Ok.
    apply bind_Ok in Hk as ([c1 outcome] & Hout & Hk).
    injection Hk as _ <-.
    apply iloc_from_end_inv in Hsex as [Hn2 Hs]. simpl in Hs. subst sex.
    apply iloc_from_end_inv in Hout as [_ Ho]. simpl in Ho. subst outcome.
    unfold iloc_last_slice, replace_dict, frame_map, concat_columns,
      series_to_frame, iloc_but_last, get_dummies, n_columns, column_at.
    cbn [columns rows fst snd].
    set (cats := merge_sort _ _).
    unfold n_columns in Hn, Hrows, Hn2.
    rewrite !length_app, length_take_le by lia. cbn [length].
    rewrite <- (wrapped_last_column_hyper (rows dataset)
                  (length (columns dataset)) (length cats)
                  (λ v, (λ c, if decide (v = c) then SInt 1 else SInt 0)
                          <$> cats)
                  (replace_cell hyperthyroidism_codes));
      [done|done|done|].
    intros v. by rewrite length_fmap.
  - destruct (decide (dataset_id = "liver_cancer")) as [_|_].
    + intros [= _ <-].
      unfold iloc_last_slice, replace_dict, frame_map, column_at.
      cbn [columns rows]. unfold n_columns. cbn [columns].
      by apply wrapped_last_column.
    + rewrite decide_False by done. intros [= _ <-].
      unfold iloc_last_slice, column_at. cbn [rows].
      rewrite <- (wrapped_last_column (rows dataset) (n_columns dataset)
                    (λ v, v)) by done.
      do 2 f_equal. clear.
      induction (rows dataset) as [|r rs IH]; [done|].
      simpl. by rewrite map_id, <- IH.
Qed.

(** The recoding touches nothing but the strings it lists. *)
Lemma label_recode_number dataset_id q :
  label_recode dataset_id (SNum q) = SNum q.
Proof. unfold label_recode. by repeat case_decide. Qed.

Lemma features_and_labels_bare dataset X y :
  features_and_labels "breast_cancer" dataset = Ok (X, y) →
  ∃ col, getitem dataset (SInt 1) = Ok col ∧ y = Bare <$> col.
Proof.
  unfold features_and_labels. cbn.
  intros (Xf & _ & Hk)%bind_Ok.
  apply bind_Ok in Hk as (col & Hcol & Hk).
  injection Hk as _ <-. by exists col.
Qed.

(** C10, amended: in a run of [classify] on a well-formed table every
    prediction is a bare label value; for ['breast_cancer'] every element
    of the actual labels is the bare label of the test row at its position;
    for every other identifier it is a one-element list around the label
    of that row as [classify] recodes it: the cell of the last column, to
    which the replacement of ['hyperthyroidism'] (['F'], ['M'], ['f'],
    ['t'] to 0, 1, 0, 1) and of ['liver_cancer'] (['Female'], ['Male'] to
    0, 1) applies as to every cell of the table, and which any other label
    goes through as it is. *)
Theorem classify_actual_shape dataset_id dataset σ pred actual σ' :
  frame_ok dataset →
  classify dataset_id dataset σ = Ok (pred, actual, σ') →
  ∃ X y train test,
    features_and_labels dataset_id dataset = Ok (X, y)
    ∧ shuffle_split (length X) = Ok (train, test)
    ∧ Forall is_bare pred
    ∧ if decide (dataset_id = "breast_cancer")
      then ∃ col, getitem dataset (SInt 1) = Ok col
             ∧ Forall2 (λ i a, ∃ v, col !! i = Some v ∧ a = Bare v)
                       test actual
      else Forall2
             (λ i a, ∃ v,
                column_at (n_columns dataset - 1) dataset !! i = Some v
                ∧ a = Wrapped [label_recode dataset_id v])
             test actual.
Proof.
  intros Hok Hc.
  apply classify_inv in Hc
    as (X & y & X_train & X_test & y_train & y_test & imputer
        & Xi_train & Xi_test & r & p
        & HXy & Hsplit & _ & _ & _ & _ & -> & ->).
  destruct (train_test_split_inv _ _ _ _ _ _ Hsplit)
    as (train & test & Hidx & _ & _ & _ & _ & Htest).
  exists X, y, train, test. split; [done|]. split; [done|]. split.
  - apply Forall_forall. intros o Ho.
    change (map Bare p) with (Bare <$> p) in Ho.
    by apply list_elem_of_fmap in Ho as (v & -> & _).
  - destruct (decide (dataset_id = "breast_cancer")) as [->|Hid].
    + destruct (features_and_labels_bare _ _ _ HXy) as (col & Hcol & ->).
      exists col. split; [done|].
      eapply Forall2_impl; [exact Htest|]. intros i a Ha. simpl in Ha.
      rewrite list_lookup_fmap in Ha.
      apply fmap_Some in Ha as (v & Hv & ->). eauto.
    + rewrite (features_and_labels_wrapped _ _ _ _ Hok Hid HXy) in Htest.
      eapply Forall2_impl; [exact Htest|]. intros i a Ha. simpl in Ha.
      rewrite list_lookup_fmap in Ha.
      apply fmap_Some in Ha as (v & Hv & ->). eauto.
Qed.

(** *** The store *)

Lemma est_params_insert (objs : list estimator) r e f :
  objs !! r = Some e →
  est_params <$> <[r := mk_estimator (est_params e) f]> objs
  = est_params <$> objs.
Proof.
  intros Hr. rewrite list_fmap_insert. apply list_insert_id.
  by rewrite list_lookup_fmap, Hr.
Qed.

(** What a run of [classify] does to the store: the object bound to
    [model] is fitted, and nothing else changes. *)
Lemma classify_store dataset_id dataset σ pred actual σ' :
  classify dataset_id dataset σ = Ok (pred, actual, σ') →
  ∃ r, model σ = Some r
    ∧ fit_calls σ' = fit_calls σ ++ [r]
    ∧ classifiers σ' = classifiers σ
    ∧ model σ' = model σ
    ∧ est_params <$> objects σ' = est_params <$> objects σ.
Proof.
  intros Hc.
  apply classify_inv in Hc
    as (X & y & X_train & X_test & y_train & y_test & imputer
        & Xi_train & Xi_test & r & p
        & _ & _ & _ & Hr & Hfit & _).
  apply estimator_fit_inv in Hfit as (e & y1 & f & He & _ & _ & ->).
  exists r. cbn [fit_calls classifiers model objects].
  repeat split; try done. by apply est_params_insert.
Qed.

Lemma run_classifier_store dataset_id data labels item acc acc' :
  run_classifier dataset_id data labels item acc = Ok acc' →
  fit_calls acc'.2 = fit_calls acc.2 ++ [item.2]
  ∧ classifiers acc'.2 = classifiers acc.2
  ∧ est_params <$> objects acc'.2 = est_params <$> objects acc.2.
Proof.
  unfold run_classifier.
  intros ([[pred actual] σ1] & Hc & Hk)%bind_Ok.
  apply bind_Ok in Hk as (ev & _ & Hk). injection Hk as <-.
  apply classify_store in Hc as (r & Hr & Hfits & Hcl & _ & Hobjs).
  cbn in Hr. injection Hr as <-. done.
Qed.

Lemma inner_loop_store dataset_id data labels items acc acc' :
  for_each items (run_classifier dataset_id data labels) acc = Ok acc' →
  fit_calls acc'.2 = fit_calls acc.2 ++ items.*2
  ∧ classifiers acc'.2 = classifiers acc.2
  ∧ est_params <$> objects acc'.2 = est_params <$> objects acc.2.
Proof.
  revert acc. induction items as [|item items IH]; intros acc.
  - intros [= <-]. by rewrite app_nil_r.
  - simpl. intros (acc1 & H1 & Hk)%bind_Ok.
    apply run_classifier_store in H1 as (Hf1 & Hc1 & Ho1).
    apply IH in Hk as (Hf & Hc & Ho).
    rewrite Hf, Hf1, Hc, Hc1, Ho, Ho1, <- app_assoc. done.
Qed.

Lemma run_dataset_store dataset_id acc acc' :
  run_dataset dataset_id acc = Ok acc' →
  fit_calls acc'.2 = fit_calls acc.2 ++ (classifiers acc.2).*2
  ∧ classifiers acc'.2 = classifiers acc.2
  ∧ est_params <$> objects acc'.2 = est_params <$> objects acc.2.
Proof.
  unfold run_dataset.
  intros (data & _ & Hk)%bind_Ok.
  apply bind_Ok in Hk as (labels & _ & Hk).
  by apply inner_loop_store in Hk.
Qed.

Lemma outer_loop_store ids acc acc' :
  for_each ids run_dataset acc = Ok acc' →
  fit_calls acc'.2
  = fit_calls acc.2 ++ mjoin ((λ _, (classifiers acc.2).*2) <$> ids)
  ∧ classifiers acc'.2 = classifiers acc.2
  ∧ est_params <$> objects acc'.2 = est_params <$> objects acc.2.
Proof.
  revert acc. induction ids as [|dataset_id ids IH]; intros acc.
  - intros [= <-]. by rewrite app_nil_r.
  - simpl. intros (acc1 & H1 & Hk)%bind_Ok.
    apply run_dataset_store in H1 as (Hf1 & Hc1 & Ho1).
    apply IH in Hk as (Hf & Hc & Ho).
    rewrite Hf, Hf1, Hc, Hc1, Ho, Ho1, <- app_assoc. done.
Qed.

(** One turn of the inner loop fits the object it is given on the train
    part of the split: what the object holds afterwards is what [learn]
    makes of the object's parameters and of this data, whatever the object
    held before. *)
Lemma run_classifier_fits dataset_id data labels name r out σ out' σ' :
  run_classifier dataset_id data labels (name, r) (out, σ) = Ok (out', σ') →
  ∃ e X y X_train X_test y_train y_test imputer Xi_train Xi_test y1 f,
    objects σ !! r = Some e
    ∧ features_and_labels dataset_id data = Ok (X, y)
    ∧ train_test_split X y = Ok (X_train, X_test, y_train, y_test)
    ∧ impute X_train X_test = Ok (imputer, Xi_train, Xi_test)
    ∧ column_or_1d y_train = Ok y1
    ∧ learn (est_params e) Xi_train y1 = Ok f
    ∧ objects σ' = <[r := mk_estimator (est_params e) (Some f)]> (objects σ).
Proof.
  unfold run_classifier. cbn [fst snd].
  intros ([[pred actual] σ1] & Hc & Hk)%bind_Ok.
  apply bind_Ok in Hk as (ev & _ & Hk). injection Hk as _ <-.
  apply classify_inv in Hc
    as (X & y & X_train & X_test & y_train & y_test & imputer
        & Xi_train & Xi_test & r' & p
        & HXy & Hsplit & Himp & Hr & Hfit & _).
  cbn in Hr. injection Hr as <-.
  apply estimator_fit_inv in Hfit as (e & y1 & f & He & Hy1 & Hf & ->).
  by exists e, X, y, X_train, X_test, y_train, y_test, imputer,
            Xi_train, Xi_test, y1, f.
Qed.

(** C3, amended: the four estimator objects are created once, by the
    cell that defines [classifiers]; the driver creates none, and its
    sixteen runs fit these four objects, in the order of [classifiers], once
    for every dataset, their parameters unchanged.  In every (dataset,
    classifier) run the object of the requested kind is fitted on the train
    data of that run, and what it then holds does not depend on what it
    held before. *)
Theorem driver_refits_shared_estimators σ0 out σ' :
  driver (cell_classifiers σ0) = Ok (out, σ') →
  let n := length (objects σ0) in
  (classifiers (cell_classifiers σ0)).*2 = [n; n + 1; n + 2; n + 3]
  ∧ fit_calls σ'
    = fit_calls σ0
      ++ mjoin ((λ _, [n; n + 1; n + 2; n + 3]) <$> datasets)
  ∧ length (objects σ') = n + 4
  ∧ est_params <$> objects σ'
    = (est_params <$> objects σ0)
      ++ [DecisionTreeClassifier 5 1; KNeighborsClassifier 3; GaussianNB;
          SVC "rbf" 2 1 1]
  ∧ ∀ dataset_id data labels name r out1 σ1 out2 σ2,
      run_classifier dataset_id data labels (name, r) (out1, σ1)
      = Ok (out2, σ2) →
      ∃ e X y X_train X_test y_train y_test imputer Xi_train Xi_test y1 f,
        objects σ1 !! r = Some e
        ∧ features_and_labels dataset_id data = Ok (X, y)
        ∧ train_test_split X y = Ok (X_train, X_test, y_train, y_test)
        ∧ impute X_train X_test = Ok (imputer, Xi_train, Xi_test)
        ∧ column_or_1d y_train = Ok y1
        ∧ learn (est_params e) Xi_train y1 = Ok f
        ∧ objects σ2
          = <[r := mk_estimator (est_params e) (Some f)]> (objects σ1).
Proof.
  intros Hd n. unfold driver in Hd.
  apply outer_loop_store in Hd as (Hf & _ & Ho). cbn [snd] in Hf, Ho.
  assert (Hcl : (classifiers (cell_classifiers σ0)).*2
                = [n; n + 1; n + 2; n + 3]).
  { unfold cell_classifiers, new_estimator. cbn.
    rewrite !length_app. cbn. subst n.
    by rewrite <- !Nat.add_assoc. }
  assert (Hobjs : est_params <$> objects (cell_classifiers σ0)
                  = (est_params <$> objects σ0)
                    ++ [DecisionTreeClassifier 5 1; KNeighborsClassifier 3;
                        GaussianNB; SVC "rbf" 2 1 1]).
  { unfold cell_classifiers, new_estimator. cbn.
    rewrite !fmap_app. cbn. by rewrite <- !app_assoc. }
  split; [done|]. split; [|split; [|split]].
  - by rewrite Hf, Hcl.
  - apply (f_equal length) in Ho. rewrite length_fmap in Ho.
    rewrite Ho, Hobjs, length_app, length_fmap. done.
  - by rewrite Ho, Hobjs.
  - intros *. apply run_classifier_fits.
Qed.

Lemma classify_unfold dataset_id dataset σ X y X_train X_test y_train y_test :
  features_and_labels dataset_id dataset = Ok (X, y) →
  train_test_split X y = Ok (X_train, X_test, y_train, y_test) →
  classify dataset_id dataset σ
  = impute X_train X_test ≫= λ '(imputer, Xi_train, Xi_test),
    global_model σ ≫= λ model,
    estimator_fit model Xi_train y_train σ ≫= λ σ,
    estimator_predict model Xi_test σ ≫= λ p,
    Ok (map Bare p, y_test, σ).
Proof.
  intros HXy Hsplit. unfold classify. rewrite HXy, bind_Ok_l. cbn beta iota.
  rewrite train_test_split_rs_seeded, Hsplit, !bind_Ok_l. cbn beta iota zeta.
  by rewrite set_generator_id.
Qed.

Lemma classify_split_raises dataset_id dataset σ X y e :
  features_and_labels dataset_id dataset = Ok (X, y) →
  train_test_split X y = Raise e →
  classify dataset_id dataset σ = Raise e.
Proof.
  intros HXy Hsplit. unfold classify. rewrite HXy, bind_Ok_l. cbn beta iota.
  by rewrite train_test_split_rs_seeded, Hsplit.
Qed.

(** A run of [classify] with the model [r], told from what the object [r]
    is made with: the store it starts from has no other part in the
    result. *)
Lemma classify_from_params dataset_id data r σ σ' pred actual σ1 :
  classify dataset_id data (set_model r σ) = Ok (pred, actual, σ1) →
  est_params <$> objects σ' !! r = est_params <$> objects σ !! r →
  generator σ1 = generator σ
  ∧ est_params <$> objects σ1 !! r = est_params <$> objects σ !! r
  ∧ ∃ σ2, classify dataset_id data (set_model r σ') = Ok (pred, actual, σ2)
      ∧ generator σ2 = generator σ'.
Proof.
  intros Hc Hparams.
  apply classify_inv in Hc
    as (X & y & X_train & X_test & y_train & y_test & imputer
        & Xi_train & Xi_test & r' & p
        & HXy & Hsplit & Himp & Hr & Hfit & Hpred & -> & ->).
  cbn in Hr. injection Hr as <-.
  apply estimator_fit_inv in Hfit as (e & y1 & f & He & Hy1 & Hf & ->).
  cbn [objects set_model generator] in *.
  assert (Hlt : r < length (objects σ)) by (by eapply lookup_lt_Some).
  unfold estimator_predict in Hpred. cbn [objects] in Hpred.
  rewrite list_lookup_insert_eq in Hpred by done. cbn in Hpred.
  rewrite He in Hparams. cbn in Hparams.
  destruct (objects σ' !! r) as [e'|] eqn:He'; [|done].
  injection Hparams as Hparams.
  assert (Hlt' : r < length (objects σ')) by (by eapply lookup_lt_Some).
  split; [done|]. split.
  { by rewrite list_lookup_insert_eq, He by done. }
  eexists. split; [|shelve].
  rewrite (classify_unfold _ _ _ _ _ _ _ _ _ HXy Hsplit), Himp, bind_Ok_l.
  cbn beta iota. cbn [global_model model set_model]. rewrite bind_Ok_l.
  rewrite (estimator_fit_ok r Xi_train y_train (set_model r σ') e' y1 f)
    by (done || by rewrite Hparams).
  rewrite bind_Ok_l.
  unfold estimator_predict. cbn [objects set_model].
  rewrite list_lookup_insert_eq by done.
  cbn [est_fitted]. rewrite Hpred, bind_Ok_l. reflexivity.
  Unshelve. done.
Qed.

(** C8: two runs of the pipeline on the same dataset with the same
    classifier give the same predictions, the same actual labels and the
    same printed evaluation mapping, whatever the state of the interpreter
    each run starts from: the state of NumPy's global generator, what the
    estimator objects hold from earlier fits, the trace; all that is asked
    is that the model be made with the same parameters (its [random_state]
    among them) in both.  So is it, in particular, of a second run from the
    store that the first one leaves.  The global generator is left as it
    was.  (The split is drawn for the seed 0 that [classify] passes, and a
    seeded shuffle does not read the global generator: [seeded_shuffle];
    the estimators carry their seed or draw nothing, so that [fit] does not
    read it either: [seeded_fit]; and [fit] forgets what an earlier [fit]
    learnt.) *)
Theorem pipeline_twice dataset_id data labels name r out σ out' σ'
    pred actual σ1 evaluation :
  classify dataset_id data (set_model r σ) = Ok (pred, actual, σ1) →
  evaluate labels actual pred = Ok evaluation →
  est_params <$> objects σ' !! r = est_params <$> objects σ !! r →
  generator σ1 = generator σ
  ∧ est_params <$> objects σ1 !! r = est_params <$> objects σ !! r
  ∧ ∃ σ2,
      classify dataset_id data (set_model r σ') = Ok (pred, actual, σ2)
      ∧ generator σ2 = generator σ'
      ∧ run_classifier dataset_id data labels (name, r) (out, σ)
        = Ok (out ++ [PrintResult name evaluation], σ1)
      ∧ run_classifier dataset_id data labels (name, r) (out', σ')
        = Ok (out' ++ [PrintResult name evaluation], σ2).
Proof.
  intros Hc Hev Hparams.
  destruct (classify_from_params _ _ _ _ _ _ _ _ Hc Hparams)
    as (Hg & Hp1 & σ2 & Hc2 & Hg2).
  split; [done|]. split; [done|].
  exists σ2. split; [done|]. split; [done|]. split.
  - unfold run_classifier. cbn [fst snd].
    by rewrite Hc, bind_Ok_l, Hev, bind_Ok_l.
  - unfold run_classifier. cbn [fst snd].
    by rewrite Hc2, bind_Ok_l, Hev, bind_Ok_l.
Qed.

(** ** Further properties of the notebook *)

(** *** Features and labels *)

Lemma features_and_labels_label_count dataset_id dataset X y :
  features_and_labels dataset_id dataset = Ok (X, y) →
  length y = length (rows dataset).
Proof.
  unfold features_and_labels. repeat case_decide.
  - intros ([c2 sex] & Hsex & Hk)%bind_Ok.
    apply bind_Ok in Hk as ([c1 outcome] & Hout & Hk).
    injection Hk as <- <-.
    apply iloc_from_end_inv in Hsex as [_ Hs]. simpl in Hs. subst sex.
    apply iloc_from_end_inv in Hout as [_ Ho]. simpl in Ho. subst outcome.
    unfold iloc_last_slice, iloc_but_last, replace_dict, frame_map,
      concat_columns, series_to_frame, get_dummies, column_at.
    cbn [rows columns fst snd].
    repeat (rewrite length_map || rewrite length_fmap
            || rewrite length_zip_with); lia.
  - intros [= <- <-]. simpl.
    by repeat (rewrite length_map || rewrite length_fmap).
  - intros (Xf & HX & Hk)%bind_Ok.
    apply bind_Ok in Hk as (col & Hcol & Hk).
    injection Hk as <- <-.
    unfold drop_columns in HX. case_bool_decide; [|done].
    injection HX as <-. simpl.
    unfold getitem in Hcol. destruct (col_position _ _); [|done].
    injection Hcol as <-. unfold column_at.
    by repeat (rewrite length_map || rewrite length_fmap).
  - intros [= <- <-]. simpl.
    by repeat (rewrite length_map || rewrite length_fmap).
Qed.

(** X1: whatever the identifier, the feature matrix and the label list
    that [classify] extracts have one entry per row of the table: the
    one-hot expansion, the column drops and the slices change the number of
    columns, never the number of rows. *)
Theorem features_and_labels_rows dataset_id dataset X y :
  features_and_labels dataset_id dataset = Ok (X, y) →
  length X = length (rows dataset) ∧ length y = length (rows dataset).
Proof.
  intros HXy.
  pose proof (features_and_labels_length _ _ _ _ HXy) as Hlen.
  pose proof (features_and_labels_label_count _ _ _ _ HXy) as Hy.
  split; congruence.
Qed.

Lemma map_map_ident {A} (l : list (list A)) : map (map (λ v, v)) l = l.
Proof.
  induction l as [|r l IH]; [done|]. simpl. by rewrite map_id, IH.
Qed.

Lemma zip_take_drop {A} k (l : list (list A)) :
  zip_with app (take k <$> l) (drop k <$> l) = l.
Proof.
  induction l as [|r l IH]; [done|]. csimpl. by rewrite take_drop, IH.
Qed.

(** X2: for every identifier other than ['hyperthyroidism'] and
    ['breast_cancer'] the label list holds lists, and nothing of the table
    is lost or reordered: a feature row followed by its label list is the
    row of the table (with the replacement of ['liver_cancer'] applied for
    that identifier). *)
Theorem features_and_labels_rejoin dataset_id dataset X y :
  dataset_id ≠ "hyperthyroidism" →
  dataset_id ≠ "breast_cancer" →
  features_and_labels dataset_id dataset = Ok (X, y) →
  ∃ ls, y = Wrapped <$> ls
    ∧ zip_with app X ls
      = map (map (label_recode dataset_id)) (rows dataset).
Proof.
  intros Hh Hb. unfold features_and_labels.
  rewrite decide_False by done.
  destruct (decide (dataset_id = "liver_cancer")) as [->|Hl].
  - intros [= <- <-]. eexists. split; [done|].
    unfold iloc_but_last, iloc_last_slice, replace_dict, frame_map.
    cbn [rows columns]. by rewrite zip_take_drop.
  - rewrite decide_False by done. intros [= <- <-].
    eexists. split; [done|].
    unfold iloc_but_last, iloc_last_slice. cbn [rows columns].
    rewrite zip_take_drop.
    transitivity (map (map (λ v : scalar, v)) (rows dataset));
      [by rewrite map_map_ident|].
    apply map_ext. intros r. apply map_ext. intros v.
    unfold label_recode. by rewrite !decide_False.
Qed.

Lemma SInt_inj a b : SInt a = SInt b → a = b.
Proof.
  intros H. injection H as H.
  assert (Hq : (inject_Z a == inject_Z b)%Q).
  { rewrite <- (Qred_correct (inject_Z a)), H. apply Qred_correct. }
  unfold Qeq in Hq. simpl in Hq. lia.
Qed.

Lemma keep_all_from s k :
  2 ≤ s →
  (λ c, bool_decide (c ∉ [SInt 1])) <$> ((λ i, SInt (Z.of_nat i)) <$> seq s k)
  = replicate k true.
Proof.
  revert s. induction k as [|k IH]; intros s Hs; [done|].
  csimpl. rewrite IH by lia. f_equal.
  apply bool_decide_eq_true_2. intros Hin%list_elem_of_singleton.
  apply (SInt_inj _ 1) in Hin. lia.
Qed.

Lemma keep_mask n :
  (λ c, bool_decide (c ∉ [SInt 1])) <$> range_index (S (S n))
  = true :: false :: replicate n true.
Proof.
  unfold range_index. csimpl. by rewrite (keep_all_from 2 n) by lia.
Qed.

Lemma select_all {A} k (r : list A) :
  length r ≤ k → select (replicate k true) r = r.
Proof.
  unfold select. revert r.
  induction k as [|k IH]; intros [|a r] Hr; try done; simpl in Hr; [lia|].
  cbn [replicate zip_with]. rewrite filter_cons_True by done. csimpl.
  rewrite IH by lia. done.
Qed.

Lemma select_but_second {A} k (r : list A) :
  length r ≤ S (S k) →
  select (true :: false :: replicate k true) r = take 1 r ++ drop 2 r.
Proof.
  intros Hr. destruct r as [|a [|b r]]; try done.
  unfold select. cbn [zip_with].
  rewrite filter_cons_True by done. rewrite filter_cons_False by done.
  transitivity (a :: select (replicate k true) r); [done|].
  simpl in Hr. rewrite select_all by lia. done.
Qed.

(** X3: for ['breast_cancer'], on a table labelled as a header-less file,
    the label list is the column at position 1, as bare values, and a
    feature row is the row of the table without its cell at position 1,
    the other cells in their order. *)
Theorem features_and_labels_breast_cancer dataset :
  frame_ok dataset →
  columns dataset = range_index (n_columns dataset) →
  2 ≤ n_columns dataset →
  features_and_labels "breast_cancer" dataset
  = Ok ((λ r, take 1 r ++ drop 2 r) <$> rows dataset,
        Bare <$> column_at 1 dataset).
Proof.
  intros [_ Hrows] Hcols Hn. unfold features_and_labels. cbn.
  unfold drop_columns, getitem. rewrite (col_position_range _ Hcols Hn).
  assert (Hin : Forall (λ l, l ∈ columns dataset) [SInt 1]).
  { constructor; [|done]. rewrite Hcols.
    apply list_elem_of_fmap. exists 1. split; [done|].
    apply elem_of_seq. lia. }
  rewrite bool_decide_eq_true_2 by done. cbn.
  do 2 f_equal. rewrite Hcols.
  destruct (n_columns dataset) as [|[|n]]; [lia..|].
  rewrite keep_mask. apply Forall_fmap_ext.
  eapply Forall_impl; [exact Hrows|].
  intros r Hr. apply select_but_second. simpl in Hr. lia.
Qed.

Lemma filter_eq_NoDup (l : list scalar) v :
  NoDup l →
  length (filter (λ c, v = c) l) = if decide (v ∈ l) then 1 else 0.
Proof.
  induction 1 as [|c l Hc Hnd IH]; [done|].
  destruct (decide (v = c)) as [->|Hne].
  - rewrite filter_cons_True by done. simpl.
    rewrite IH, decide_False by done.
    rewrite decide_True; [done|]. apply elem_of_cons. by left.
  - rewrite filter_cons_False by done. rewrite IH.
    destruct (decide (v ∈ l)) as [Hin|Hnin].
    + rewrite decide_True; [done|]. apply elem_of_cons. by right.
    + rewrite decide_False; [done|]. by intros [?|?]%elem_of_cons.
Qed.

Lemma indicator_count (cats : list scalar) v :
  count_occ_label (SInt 1)
    ((λ c, if decide (v = c) then SInt 1 else SInt 0) <$> cats)
  = length (filter (λ c, v = c) cats).
Proof.
  unfold count_occ_label. induction cats as [|c cats IH]; [done|].
  cbn [fmap list_fmap]. destruct (decide (v = c)) as [->|Hne].
  - rewrite !filter_cons_True by done. simpl. f_equal. exact IH.
  - rewrite filter_cons_False by (intros H%SInt_inj; done).
    rewrite filter_cons_False by done. exact IH.
Qed.

Lemma replace_cell_indicators codes (cats : list scalar) v :
  Forall (λ kv : scalar * scalar, is_str kv.1 = true) codes →
  map (replace_cell codes)
      ((λ c, if decide (v = c) then SInt 1 else SInt 0) <$> cats)
  = (λ c, if decide (v = c) then SInt 1 else SInt 0) <$> cats.
Proof.
  intros Hcodes.
  assert (Hnum : ∀ z, replace_cell codes (SInt z) = SInt z).
  { intros z. unfold replace_cell.
    destruct (list_find _ codes) as [[i kv]|] eqn:Hfind; [|done].
    apply list_find_Some in Hfind as (Hi & Heq & _).
    rewrite Forall_forall in Hcodes.
    apply list_elem_of_lookup_2, Hcodes in Hi.
    rewrite Heq in Hi. done. }
  induction cats as [|c cats IH]; [done|].
  cbn [fmap list_fmap map]. change (map (replace_cell codes) ?l)
    with (replace_cell codes <$> l) in *.
  cbn [fmap list_fmap]. rewrite IH. f_equal.
  by destruct (decide (v = c)).
Qed.

Lemma hyper_feature_rows rs n k (d : scalar → list scalar)
    (f : scalar → scalar) :
  Forall (λ r, length r = n) rs → 2 ≤ n → (∀ v, length (d v) = k) →
  take (n - 2 + k + 1 - 1)
    <$> map (map f)
          (zip_with app
             (zip_with app (take (n - 2) <$> rs)
                       (d <$> (cell_at (n - 2) <$> rs)))
             ((λ v, [v]) <$> (cell_at (n - 1) <$> rs)))
  = (λ r, map f (take (n - 2) r) ++ map f (d (cell_at (n - 2) r))) <$> rs.
Proof.
  intros Hrs Hn Hd. induction Hrs as [|r rs Hr _ IH]; [done|].
  simpl. f_equal; [|exact IH].
  rewrite !map_app. simpl. rewrite <- map_app.
  apply take_app_length'.
  rewrite length_map, length_app, length_take_le, Hd by lia. lia.
Qed.

(** X4: for ['hyperthyroidism'] a feature row is made of the cells of the
    table's row but its last two, recoded, followed by one indicator cell
    per distinct value of the last-but-one column that is not missing.  The
    indicator cells are 0 or 1; exactly one of them is 1, the one of the
    row's own value, unless that value is missing, in which case all are
    0. *)
Theorem hyperthyroidism_one_hot dataset X y :
  frame_ok dataset →
  features_and_labels "hyperthyroidism" dataset = Ok (X, y) →
  ∃ categories,
    NoDup categories
    ∧ (∀ c, c ∈ categories
            ↔ c ∈ column_at (n_columns dataset - 2) dataset ∧ c ≠ SNaN)
    ∧ Forall2
        (λ r x, ∃ ind,
           x = map (replace_cell hyperthyroidism_codes)
                   (take (n_columns dataset - 2) r) ++ ind
           ∧ ind = (λ c, if decide (cell_at (n_columns dataset - 2) r = c)
                         then SInt 1 else SInt 0) <$> categories
           ∧ count_occ_label (SInt 1) ind
             = if is_nan (cell_at (n_columns dataset - 2) r) then 0 else 1)
        (rows dataset) X.
Proof.
  intros [Hn Hrows]. unfold features_and_labels. cbn.
  intros ([c2 sex] & Hsex & Hk)%bind_Ok.
  apply bind_Ok in Hk as ([c1 outcome] & Hout & Hk).
  injection Hk as <- _.
  apply iloc_from_end_inv in Hsex as [Hn2 Hs]. simpl in Hs. subst sex.
  apply iloc_from_end_inv in Hout as [_ Ho]. simpl in Ho. subst outcome.
  unfold column_at.
  set (n := n_columns dataset) in *.
  set (col := cell_at (n - 2) <$> rows dataset).
  set (cats := merge_sort _ _).
  assert (Hperm : cats ≡ₚ remove_dups (filter (λ v, is_nan v = false) col))
    by apply merge_sort_Permutation.
  assert (Hnd : NoDup cats).
  { rewrite Hperm. apply NoDup_remove_dups. }
  assert (Hin : ∀ c, c ∈ cats ↔ c ∈ col ∧ c ≠ SNaN).
  { intros c. rewrite Hperm, elem_of_remove_dups, list_elem_of_filter.
    split; intros [H1 H2]; split; try done; by destruct c. }
  exists cats. split; [done|]. split; [done|].
  rewrite !length_app, length_take_le by (unfold n, n_columns; lia).
  cbn [length].
  rewrite (hyper_feature_rows (rows dataset) n (length cats)
             (λ v, (λ c, if decide (v = c) then SInt 1 else SInt 0) <$> cats)
             (replace_cell hyperthyroidism_codes) Hrows Hn2)
    by (intros v; by rewrite length_fmap).
  apply Forall2_fmap_r, Forall_Forall2_diag, Forall_forall.
  intros r Hr. eexists. split; [|split; [reflexivity|]].
  - f_equal. apply replace_cell_indicators.
    unfold hyperthyroidism_codes. by repeat constructor.
  - rewrite indicator_count, filter_eq_NoDup by done.
    set (v := cell_at (n - 2) r).
    destruct (decide (v ∈ cats)) as [Hv|Hv].
    + apply Hin in Hv as [_ Hv]. by destruct v.
    + destruct (is_nan v) eqn:Hnan; [done|]. exfalso. apply Hv, Hin.
      split; [|by destruct v].
      apply list_elem_of_fmap. by exists r.
Qed.

(** *** The split and the imputer at the edges *)

Lemma shuffle_split_small n : n < 2 → shuffle_split n = Raise ValueError.
Proof.
  intros Hn. unfold shuffle_split. rewrite n_test_of_spec.
  destruct n as [|[|n]]; [done|done|lia].
Qed.

(** X5: on a table of fewer than two rows [classify] never returns,
    whatever the identifier and the store.  Where the selection of the
    features and the labels fails (a hyperthyroidism table with too few
    columns for its positions, a breast-cancer table without its label
    column, an identifier without a model) its error is the one raised;
    where it succeeds the split raises [ValueError]: a fifth of the rows,
    rounded up, goes to the test set, which leaves no row to train on, and
    the split is refused before anything is imputed or fitted. *)
Theorem classify_too_few_rows dataset_id dataset σ :
  length (rows dataset) < 2 →
  classify dataset_id dataset σ
  = match features_and_labels dataset_id dataset with
    | Ok _ => Raise ValueError
    | Raise e => Raise e
    end.
Proof.
  intros Hn.
  destruct (features_and_labels dataset_id dataset) as [[X y]|e] eqn:HXy.
  - pose proof (features_and_labels_length _ _ _ _ HXy) as HX.
    pose proof (features_and_labels_label_count _ _ _ _ HXy) as Hy.
    apply (classify_split_raises _ _ _ _ _ _ HXy). unfold train_test_split.
    rewrite (proj2 (Nat.eqb_eq _ _)) by congruence. cbn [negb].
    rewrite shuffle_split_small by lia. done.
  - unfold classify. by rewrite HXy.
Qed.

Lemma check_array_raises X e : check_array X = Raise e → e = ValueError.
Proof.
  unfold check_array. destruct (mapM _ X) as [[|r rs]|];
    try (by intros [= <-]).
  case_bool_decide; [done|]. by intros [= <-].
Qed.

Lemma check_array_no_text X Xf row s :
  check_array X = Ok Xf → row ∈ X → SStr s ∈ row → np_float s = None →
  False.
Proof.
  intros H%check_array_mapM Hrow Hs Hnp. apply mapM_Some_1 in H.
  apply list_elem_of_lookup_1 in Hrow as [i Hi].
  destruct (Forall2_lookup_l _ _ _ _ _ H Hi) as (rf & _ & Hrf).
  apply mapM_Some_1 in Hrf.
  apply list_elem_of_lookup_1 in Hs as [j Hj].
  destruct (Forall2_lookup_l _ _ _ _ _ Hrf Hj) as (c & _ & Hc).
  simpl in Hc. congruence.
Qed.

Lemma impute_raises a b e : impute a b = Raise e → e = ValueError.
Proof.
  unfold impute, imputer_fit, imputer_transform.
  destruct (check_array a) as [Xa|e1] eqn:Ha; cbn.
  - rewrite ?Ha. cbn. destruct (negb _); cbn; [by intros [= <-]|].
    destruct (check_array b) as [Xb|e2] eqn:Hb; cbn.
    + destruct (negb _); cbn; [by intros [= <-]|done].
    + intros [= <-]. by eapply check_array_raises.
  - intros [= <-]. by eapply check_array_raises.
Qed.

Lemma impute_rejects_text a b row s :
  row ∈ a ++ b → SStr s ∈ row → np_float s = None →
  impute a b = Raise ValueError.
Proof.
  intros Hin Hs Hnp. destruct (impute a b) as [[[im A] B]|e] eqn:Himp.
  - exfalso. apply impute_inv in Himp as (Xfa & Xfb & Ha & Hb & _).
    apply elem_of_app in Hin as [Hin|Hin]; eauto using check_array_no_text.
  - f_equal. by eapply impute_raises.
Qed.

Lemma split_covers {A} (X : list A) train test X_train X_test x :
  train ++ test ≡ₚ seq 0 (length X) →
  Forall2 (λ i x, X !! i = Some x) train X_train →
  Forall2 (λ i x, X !! i = Some x) test X_test →
  x ∈ X → x ∈ X_train ++ X_test.
Proof.
  intros Hperm Htr Hte [i Hi]%list_elem_of_lookup_1.
  assert (Hin : i ∈ train ++ test).
  { rewrite Hperm. apply elem_of_seq. apply lookup_lt_Some in Hi. lia. }
  apply elem_of_app.
  apply elem_of_app in Hin as [Hin|Hin];
    apply list_elem_of_lookup_1 in Hin as [k Hk]; [left|right].
  - destruct (Forall2_lookup_l _ _ _ _ _ Htr Hk) as (x' & Hx' & Hxi).
    rewrite Hi in Hxi. injection Hxi as <-.
    by eapply list_elem_of_lookup_2.
  - destruct (Forall2_lookup_l _ _ _ _ _ Hte Hk) as (x' & Hx' & Hxi).
    rewrite Hi in Hxi. injection Hxi as <-.
    by eapply list_elem_of_lookup_2.
Qed.

(** X6: when a feature cell holds text that numpy does not read as a
    float, [classify] raises [ValueError], whatever the store: every row
    goes to the train or to the test part, and the imputer refuses the part
    with the text, at [fit] or at [transform], before the classifier is
    reached.  (Text that reads as a float is no obstacle: it counts as that
    number.) *)
Theorem classify_rejects_text dataset_id dataset X y σ row s :
  features_and_labels dataset_id dataset = Ok (X, y) →
  2 ≤ length X →
  row ∈ X → SStr s ∈ row → np_float s = None →
  classify dataset_id dataset σ = Raise ValueError.
Proof.
  intros HXy Hn Hrow Hs Hnp.
  pose proof (features_and_labels_length _ _ _ _ HXy) as Hlen.
  destruct (train_test_split_ok X y Hlen Hn)
    as (X_train & X_test & y_train & y_test & Hsplit).
  destruct (train_test_split_inv _ _ _ _ _ _ Hsplit)
    as (train & test & Hidx & _ & Htr & Hte & _).
  destruct (shuffle_split_ok _ Hn) as (train' & test' & Hidx' & Hperm & _).
  rewrite Hidx in Hidx'. injection Hidx' as <- <-.
  pose proof (split_covers _ _ _ _ _ _ Hperm Htr Hte Hrow) as Hin.
  rewrite (classify_unfold _ _ _ _ _ _ _ _ _ HXy Hsplit).
  by rewrite (impute_rejects_text _ _ _ _ Hin Hs Hnp).
Qed.

Lemma impute_row_length stats (row : list (option Qc)) :
  length row = length stats →
  length (impute_row stats row) = length (omap id stats).
Proof.
  revert row. induction stats as [|[m|] stats IH]; intros [|c row] Hlen;
    simpl in *; try done; rewrite IH by lia; done.
Qed.

(** X7: when the imputation steps of [classify] go through, the test matrix
    has as many columns as the train matrix, the imputer holds one statistic
    per column, the imputed matrices have the rows of their inputs, and all
    their rows have one width: the number of columns with a statistic (a
    column without any observed value in the train part is dropped from
    both). *)
Theorem impute_shape X_train X_test imputer Xi_train Xi_test :
  impute X_train X_test = Ok (imputer, Xi_train, Xi_test) →
  n_features X_test = n_features X_train
  ∧ length (statistics_ imputer) = n_features X_train
  ∧ length Xi_train = length X_train
  ∧ length Xi_test = length X_test
  ∧ Forall (λ r, length r = length (omap id (statistics_ imputer)))
           (Xi_train ++ Xi_test).
Proof.
  intros (Xf_train & Xf_test & Ha & Hb & Hw & -> & -> & ->)%impute_inv_width.
  destruct (check_array_shape _ _ Ha) as (Hla & Hna & _ & Hra).
  destruct (check_array_shape _ _ Hb) as (Hlb & Hnb & _ & Hrb).
  cbn [statistics_].
  assert (Hstats : length (column_means Xf_train) = n_features Xf_train).
  { unfold column_means. by rewrite length_fmap, length_seq. }
  split_and!.
  - congruence.
  - congruence.
  - by rewrite length_fmap.
  - by rewrite length_fmap.
  - apply Forall_app. split; apply Forall_fmap, Forall_forall;
      intros r Hr; cbn [compose]; apply impute_row_length.
    + rewrite Forall_forall in Hra. rewrite (Hra r Hr). congruence.
    + rewrite Forall_forall in Hrb. rewrite (Hrb r Hr). congruence.
Qed.

Lemma all_Some {A} (l : list (option A)) :
  Forall is_Some l → ∃ k, l = Some <$> k.
Proof.
  induction 1 as [|x l [a ->] _ [k ->]]; [by exists []|].
  by exists (a :: k).
Qed.

Lemma as_float_default (means : list Qc) r rf :
  mapM as_float r = Some rf →
  zip_with default means rf
  = zip_with (λ m c, match c with
                     | SNum q => q
                     | SStr s => default m (mjoin (np_float s))
                     | SNaN => m
                     end) means r.
Proof.
  intros H%mapM_Some_1. revert means.
  induction H as [|c cf r rf Hc _ IH]; intros [|m means]; try done.
  simpl. rewrite IH. f_equal.
  destruct c; simpl in Hc; simplify_eq; try done. by rewrite Hc.
Qed.

Lemma mean_observed_Some col q :
  Some q ∈ col → is_Some (mean_observed col).
Proof.
  intros Hq. unfold mean_observed.
  assert (Hin : q ∈ omap id col).
  { apply list_elem_of_omap. by exists (Some q). }
  destruct (omap id col); [by apply elem_of_nil in Hin|done].
Qed.

(** X8: when every column has a number in some training row, nothing is
    dropped: the imputer holds one mean per column, the mean of the numbers
    of that column in the training rows, and in the train and in the test
    matrix alike a cell with a number keeps it and a missing cell takes the
    mean of its column.  (Text that numpy reads as a float counts as that
    number, the text of [nan] as a missing cell.) *)
Theorem impute_cells X_train X_test imputer Xi_train Xi_test :
  impute X_train X_test = Ok (imputer, Xi_train, Xi_test) →
  (∀ j, j < n_features X_train →
        ∃ r q, r ∈ X_train ∧ r !! j = Some (SNum q)) →
  ∃ means,
    statistics_ imputer = Some <$> means
    ∧ length means = n_features X_train
    ∧ (∀ j m, means !! j = Some m →
         mean_observed
           ((λ r, match r !! j with
                  | Some (SNum q) => Some q
                  | Some (SStr s) => mjoin (np_float s)
                  | _ => None
                  end) <$> X_train) = Some m)
    ∧ Xi_train
      = zip_with (λ m c, match c with
                         | SNum q => q
                         | SStr s => default m (mjoin (np_float s))
                         | SNaN => m
                         end) means
          <$> X_train
    ∧ Xi_test
      = zip_with (λ m c, match c with
                         | SNum q => q
                         | SStr s => default m (mjoin (np_float s))
                         | SNaN => m
                         end) means
          <$> X_test.
Proof.
  intros (Xf_train & Xf_test & Ha & Hb & Hw & -> & -> & ->)%impute_inv_width
         Hobs.
  destruct (check_array_shape _ _ Ha) as (Hla & Hna & _ & Hra).
  pose proof (check_array_mapM _ _ Ha) as Hma.
  pose proof (check_array_mapM _ _ Hb) as Hmb.
  cbn [statistics_].
  assert (Hcol : ∀ j, j < n_features Xf_train →
            column_means Xf_train !! j
            = Some (mean_observed
                      ((λ r, match r !! j with
                             | Some (SNum q) => Some q
                             | Some (SStr s) => mjoin (np_float s)
                             | _ => None
                             end) <$> X_train))).
  { intros j Hj. rewrite column_means_lookup by done.
    by rewrite (as_float_column _ _ j Hma). }
  assert (Hlen : length (column_means Xf_train) = n_features Xf_train).
  { unfold column_means. by rewrite length_fmap, length_seq. }
  destruct (all_Some (column_means Xf_train)) as [means Hmeans].
  { apply Forall_lookup. intros j st Hj.
    assert (Hlt : j < n_features Xf_train).
    { rewrite <- Hlen. by eapply lookup_lt_Some. }
    rewrite Hcol in Hj by done. injection Hj as <-.
    destruct (Hobs j) as (r & q & Hr & Hq); [congruence|].
    apply (mean_observed_Some _ q).
    apply list_elem_of_fmap. exists r. by rewrite Hq. }
  exists means. rewrite Hmeans. split_and!.
  - done.
  - rewrite <- Hna, <- Hlen, Hmeans. by rewrite length_fmap.
  - intros j m Hm.
    assert (Hlt : j < n_features Xf_train).
    { rewrite <- Hlen, Hmeans, length_fmap. by eapply lookup_lt_Some. }
    specialize (Hcol j Hlt).
    rewrite Hmeans, list_lookup_fmap, Hm in Hcol. by injection Hcol.
  - apply mapM_Some_1 in Hma. clear -Hma.
    induction Hma as [|r rf X Xf Hr _ IH]; [done|].
    csimpl. by rewrite IH, impute_row_filled, (as_float_default _ _ _ Hr).
  - apply mapM_Some_1 in Hmb. clear -Hmb.
    induction Hmb as [|r rf X Xf Hr _ IH]; [done|].
    csimpl. by rewrite IH, impute_row_filled, (as_float_default _ _ _ Hr).
Qed.

(** *** The loader, dataset by dataset *)

Lemma map_fmap {A B} (f : A → B) (l : list A) : map f l = f <$> l.
Proof. done. Qed.

(** X9: in a table returned by [read_data] no cell is the sentinel [?],
    and no cell holds text that reads as a number: such cells have become
    missing markers and numbers. *)
Theorem read_data_no_sentinel dataset_id data row s :
  read_data dataset_id = Ok data →
  row ∈ rows data → SStr s ∈ row →
  s ≠ "?" ∧ to_numeric s = None.
Proof.
  unfold read_data. intros (raw & _ & [= <-])%bind_Ok.
  rewrite postprocess_cells. unfold frame_map. cbn [rows].
  rewrite map_fmap. intros (r & -> & _)%list_elem_of_fmap.
  rewrite map_fmap. intros (c & Hc & _)%list_elem_of_fmap.
  destruct c as [q|s'|]; simpl in Hc; [done| |done].
  destruct (to_numeric s') eqn:Hs'; simpl in Hc; [done|].
  case_decide as Hq; [done|]. injection Hc as ->.
  split; [congruence|done].
Qed.

(** X10: the cleaning that ends [read_data] (numeric coercion, the
    originals back where it failed, the sentinel made missing) changes
    nothing when applied to its own result. *)
Theorem postprocess_idempotent data :
  postprocess (postprocess data) = postprocess data.
Proof.
  rewrite !postprocess_cells. unfold frame_map. cbn [rows columns]. f_equal.
  rewrite map_map. apply map_ext. intros r.
  rewrite map_map. apply map_ext. intros c.
  destruct c as [q|s|]; simpl; [done| |done].
  destruct (to_numeric s) eqn:Hs; simpl; [done|].
  destruct (decide (SStr s = SStr "?")) as [Hq|Hq]; simpl; [done|].
  rewrite Hs. simpl. by rewrite decide_False.
Qed.

Lemma list_find_NoDup (l : list scalar) j c :
  NoDup l → l !! j = Some c → list_find (λ c', c' = c) l = Some (j, c).
Proof.
  intros Hnd Hj. destruct (list_find _ l) as [[i c']|] eqn:Hf.
  - apply list_find_Some in Hf as (Hi & -> & _).
    by rewrite (NoDup_lookup l i j c Hnd Hi Hj).
  - apply list_find_None in Hf. rewrite Forall_forall in Hf.
    exfalso. apply (Hf c); [by eapply list_elem_of_lookup_2|done].
Qed.

Lemma reindex_row_id cols row :
  NoDup cols → length row = length cols → reindex_row cols cols row = row.
Proof.
  intros Hnd Hlen. apply list_eq. intros j. unfold reindex_row.
  rewrite list_lookup_fmap.
  destruct (cols !! j) as [c|] eqn:Hj; simpl.
  - rewrite (list_find_NoDup _ _ _ Hnd Hj). unfold cell_at.
    destruct (row !! j) eqn:Hr; [done|].
    apply lookup_ge_None in Hr. apply lookup_lt_Some in Hj. lia.
  - symmetry. apply lookup_ge_None. apply lookup_ge_None in Hj. lia.
Qed.

Lemma fmap_fixed {A} (f : A → A) (l : list A) :
  Forall (λ x, f x = x) l → f <$> l = l.
Proof. induction 1 as [|x l Hx _ IH]; [done|]. csimpl. by rewrite Hx, IH. Qed.

Lemma append_same_columns a b :
  NoDup (columns a) → columns b = columns a →
  Forall (λ r, length r = n_columns a) (rows a ++ rows b) →
  append a b = mk_frame (columns a) (rows a ++ rows b).
Proof.
  intros Hnd Hcols [Ha Hb]%Forall_app. unfold append. rewrite Hcols.
  rewrite (filter_none (λ c, c ∉ columns a)) by (intros x Hx Hn; done).
  rewrite app_nil_r. f_equal. f_equal; apply fmap_fixed.
  - eapply Forall_impl; [exact Ha|]. intros r Hr. by apply reindex_row_id.
  - eapply Forall_impl; [exact Hb|]. intros r Hr. by apply reindex_row_id.
Qed.

(** X11: for ['hyperthyroidism'], when the two files load with the same
    distinct column labels, [read_data] works on the rows of the first file
    followed by those of the second, under these labels, and only the last
    column is touched before the cleaning: a text cell keeps what precedes
    its first dot, any other cell becomes missing.  A last column without
    any text is refused with [AttributeError]. *)
Theorem read_raw_hyperthyroidism a b :
  read_csv "allhyper.data" false = Ok a →
  read_csv "allhyper.test" false = Ok b →
  frame_ok a → frame_ok b →
  NoDup (columns a) → columns b = columns a →
  rows a ++ rows b ≠ [] →
  let n := n_columns a in
  let rs := rows a ++ rows b in
  read_raw "hyperthyroidism"
  = if existsb is_str (cell_at (n - 1) <$> rs)
    then Ok (mk_frame (columns a)
               ((λ r, <[n - 1 := match cell_at (n - 1) r with
                                  | SStr s => SStr (before_dot s)
                                  | _ => SNaN
                                  end]> r) <$> rs))
    else Raise AttributeError.
Proof.
  intros Ha Hb [Hna Hra] [Hnb Hrb] Hnd Hcols Hrows n rs.
  unfold read_raw.
  rewrite decide_False by done. rewrite decide_True by done.
  rewrite Ha, bind_Ok_l, Hb, bind_Ok_l.
  rewrite (append_same_columns a b Hnd Hcols).
  2:{ apply Forall_app. split; [done|].
      unfold n_columns in *. by rewrite Hcols in Hrb. }
  fold rs.
  destruct (last (columns a)) as [c|] eqn:Hlast.
  2:{ apply last_None in Hlast. unfold n_columns in Hna.
      rewrite Hlast in Hna. simpl in Hna. lia. }
  pose proof (list_find_last_NoDup _ _ Hnd Hlast) as Hpos.
  subst n. unfold n_columns. fold rs in Hrows. clearbody rs.
  set (data := mk_frame (columns a) rs).
  assert (Hl : last_label data = Ok c)
    by (unfold last_label; cbn [columns data]; by rewrite Hlast).
  assert (Hg : getitem data c = Ok (cell_at (length (columns a) - 1) <$> rs))
    by (unfold getitem, col_position; cbn [columns data]; by rewrite Hpos).
  assert (Hset : ∀ col, setitem data c col
            = mk_frame (columns a)
                (zip_with (λ r v, <[length (columns a) - 1 := v]> r) rs col))
    by (intros col; unfold setitem, col_position; cbn [columns rows data];
        by rewrite Hpos).
  rewrite Hl, bind_Ok_l, Hg, bind_Ok_l. unfold str_split_first.
  destruct rs as [|r rs].
  - done.
  - cbn [fmap list_fmap]. destruct (existsb is_str _); [|done].
    rewrite !bind_Ok_l, Hset. do 2 f_equal. cbn [zip_with]. f_equal.
    rewrite !zip_with_fmap_r. apply zip_with_diag.
Qed.

Lemma select_zip (P : scalar → Prop) `{!∀ c, Decision (P c)}
    (cols r : list scalar) :
  zip (select ((λ c, bool_decide (P c)) <$> cols) cols)
      (select ((λ c, bool_decide (P c)) <$> cols) r)
  = filter (λ cr : scalar * scalar, P cr.1) (zip cols r).
Proof.
  unfold select. revert r.
  induction cols as [|c cols IH]; intros [|x r]; try done.
  - cbn [fmap list_fmap zip_with]. rewrite filter_nil. csimpl.
    by rewrite zip_with_nil_r.
  - cbn [fmap list_fmap zip_with]. destruct (decide (P c)) as [Hc|Hc].
    + rewrite bool_decide_eq_true_2 by done.
      rewrite !filter_cons_True by done. csimpl. f_equal. apply IH.
    + rewrite bool_decide_eq_false_2 by done.
      rewrite !filter_cons_False by (simpl; congruence || done). apply IH.
Qed.

Lemma select_filter (P : scalar → Prop) `{!∀ c, Decision (P c)}
    (cols : list scalar) :
  select ((λ c, bool_decide (P c)) <$> cols) cols = filter P cols.
Proof.
  unfold select. induction cols as [|c cols IH]; [done|].
  cbn [fmap list_fmap zip_with]. destruct (decide (P c)) as [Hc|Hc].
  - rewrite bool_decide_eq_true_2 by done.
    rewrite !filter_cons_True by done. csimpl. f_equal. apply IH.
  - rewrite bool_decide_eq_false_2 by done.
    rewrite !filter_cons_False by (simpl; congruence || done). apply IH.
Qed.

(** X12: for ['cervical_cancer'] the seven named columns are removed from
    the loaded table and nothing else is: the remaining labels keep their
    order, and every row, read with its labels, is the loaded row without
    the cells under the seven labels.  When one of the seven labels is not
    in the file, [KeyError] is raised. *)
Theorem read_raw_cervical_cancer data :
  read_csv "risk_factors_cervical_cancer.csv" true = Ok data →
  let dropped := [SStr "Dx:Cancer"; SStr "Dx:CIN"; SStr "Dx:HPV"; SStr "Dx";
                  SStr "Hinselmann"; SStr "Schiller"; SStr "Citology"] in
  (dropped ⊆ columns data →
   ∃ kept, read_raw "cervical_cancer" = Ok kept
     ∧ columns kept = filter (λ c, c ∉ dropped) (columns data)
     ∧ Forall2 (λ r r', zip (columns kept) r'
                        = filter (λ cr : scalar * scalar, cr.1 ∉ dropped)
                                 (zip (columns data) r))
               (rows data) (rows kept))
  ∧ (¬ dropped ⊆ columns data → read_raw "cervical_cancer" = Raise KeyError).
Proof.
  intros Hread dropped. unfold read_raw.
  rewrite !decide_False by done. rewrite decide_True by done.
  rewrite Hread, bind_Ok_l. unfold drop_columns. fold dropped.
  split; intros Hsub.
  - rewrite bool_decide_eq_true_2 by (by apply Forall_forall).
    eexists. split; [done|]. cbn [columns rows]. split.
    + exact (select_filter (λ c, c ∉ dropped) (columns data)).
    + apply Forall2_fmap_r, Forall_Forall2_diag, Forall_forall.
      intros r _. exact (select_zip (λ c, c ∉ dropped) (columns data) r).
  - rewrite bool_decide_eq_false_2; [done|].
    intros H. apply Hsub. rewrite Forall_forall in H. exact H.
Qed.

(** *** The label summary at the edges *)

(** X13: on a table with distinct column labels [outcome_values] fails in
    two cases only: for ['breast_cancer'] when no column is labelled [1],
    with [KeyError]; for any other identifier when the table has no column
    at all, with [IndexError]. *)
Theorem outcome_values_errors dataset_id df e :
  NoDup (columns df) →
  outcome_values dataset_id df = Raise e
  ↔ (dataset_id = "breast_cancer" ∧ (SInt 1 ∉ columns df) ∧ e = KeyError)
    ∨ (dataset_id ≠ "breast_cancer" ∧ columns df = [] ∧ e = IndexError).
Proof.
  intros _. unfold outcome_values, getitem, last_label, col_position.
  case_decide as Hid.
  - destruct (list_find _ (columns df)) as [[j c]|] eqn:Hfind; cbn.
    + apply list_find_Some in Hfind as (Hj & -> & _).
      apply list_elem_of_lookup_2 in Hj. split; [done|].
      intros [(_ & Hn & _)|(Hn & _)]; done.
    + apply list_find_None in Hfind. rewrite Forall_forall in Hfind.
      split.
      * intros [= <-]. left. split_and!; try done.
        intros Hin. by apply (Hfind _ Hin).
      * intros [(_ & _ & ->)|(Hn & _)]; done.
  - destruct (last (columns df)) as [c|] eqn:Hlast; cbn.
    + pose proof (last_Some_elem_of _ _ Hlast) as Hin.
      destruct (list_find_elem_of (λ c', c' = c) _ c Hin eq_refl)
        as [[j c'] Hfind].
      rewrite Hfind. cbn. split; [done|].
      intros [(Hn & _)|(_ & Hn & _)]; [done|].
      rewrite Hn in Hlast. done.
    + apply last_None in Hlast. split.
      * intros [= <-]. by right.
      * intros [(Hn & _)|(_ & _ & ->)]; done.
Qed.

Lemma count_sum_insert (m : gmap scalar nat) v x :
  map_fold (λ _ n s, n + s) 0 (<[v := x]> m) + default 0 (m !! v)
  = map_fold (λ _ n s, n + s) 0 m + x.
Proof.
  destruct (m !! v) as [n|] eqn:Hv; simpl.
  - rewrite <- (insert_delete_id m v n Hv) at 2.
    rewrite <- (insert_delete_eq m v x).
    rewrite (map_fold_insert_L _ _ v x (delete v m));
      [|intros; simpl; lia|apply lookup_delete_eq].
    rewrite (map_fold_insert_L _ _ v n (delete v m));
      [|intros; simpl; lia|apply lookup_delete_eq].
    lia.
  - rewrite (map_fold_insert_L _ _ v x m); [|intros; simpl; lia|done]. lia.
Qed.

Lemma value_counts_sum col :
  map_fold (λ _ n s, n + s) 0 (value_counts col)
  = length (filter (λ v, is_nan v = false) col).
Proof.
  induction col as [|v col IH]; [done|].
  cbn [value_counts foldr]. fold (value_counts col). unfold count_value.
  destruct (is_nan v) eqn:Hv.
  - rewrite filter_cons_False by congruence. exact IH.
  - rewrite filter_cons_True by done. simpl.
    pose proof (count_sum_insert (value_counts col) v
                  (S (default 0 (value_counts col !! v)))) as H.
    lia.
Qed.

Lemma outcome_values_column dataset_id df :
  labelled_for dataset_id df →
  outcome_values dataset_id df
  = Ok (value_counts (column_at (label_position dataset_id df) df)).
Proof.
  unfold labelled_for, outcome_values, label_position, getitem.
  destruct (decide (dataset_id = "breast_cancer")) as [_|_].
  - intros [Hcols Hn]. by rewrite (col_position_range _ Hcols Hn).
  - intros [Hnd Hn]. unfold last_label.
    destruct (last (columns df)) as [c|] eqn:Hlast.
    + cbn. unfold col_position.
      by rewrite (list_find_last_NoDup _ _ Hnd Hlast).
    + apply last_None in Hlast. unfold n_columns in Hn.
      rewrite Hlast in Hn. simpl in Hn. lia.
Qed.

(** X14: the counts returned by [outcome_values] add up to the number of
    rows whose label is not missing: every such row is counted once, under
    its label. *)
Theorem outcome_values_total dataset_id df values :
  labelled_for dataset_id df →
  outcome_values dataset_id df = Ok values →
  map_fold (λ _ n s, n + s) 0 values
  = length (filter (λ v, is_nan v = false)
                   (column_at (label_position dataset_id df) df)).
Proof.
  intros Hlab. rewrite (outcome_values_column _ _ Hlab).
  intros [= <-]. apply value_counts_sum.
Qed.

(** *** The evaluator at the edges *)

Lemma column_or_1d_bare (g : list scalar) :
  column_or_1d (Bare <$> g) = Ok (np_asarray g).
Proof.
  unfold column_or_1d.
  assert (H : ravel_bare (Bare <$> g) = Some g).
  { induction g as [|v g IH]; [done|]. csimpl. by rewrite IH. }
  by rewrite H.
Qed.

Lemma column_or_1d_wrapped (g : list scalar) :
  column_or_1d ((λ v, Wrapped [v]) <$> g) = Ok (np_asarray g).
Proof.
  unfold column_or_1d.
  assert (H : ravel_column ((λ v, Wrapped [v]) <$> g) = Some g).
  { induction g as [|v g IH]; [done|]. csimpl. by rewrite IH. }
  rewrite H. by destruct g.
Qed.

Lemma for_each_ext {A S} (f g : A → S → result S) xs acc :
  (∀ x s, f x s = g x s) → for_each xs f acc = for_each xs g acc.
Proof.
  intros Hfg. revert acc. induction xs as [|x xs IH]; intros acc; [done|].
  simpl. rewrite Hfg. destruct (g x acc); [apply IH|done].
Qed.

Lemma evaluate_ext labels gold predictions gold' predictions' :
  check_targets gold predictions = check_targets gold' predictions' →
  evaluate labels gold predictions = evaluate labels gold' predictions'.
Proof.
  intros H. unfold evaluate, accuracy_score. rewrite H.
  destruct (check_targets gold' predictions') as [[g p]|e] eqn:H'; [|done].
  rewrite !bind_Ok_l. apply for_each_ext. intros l ev.
  unfold evaluate_label, scores_for, precision_score, recall_score, f1_score,
    prf_score.
  by rewrite H, H'.
Qed.

(** X15: [evaluate] does not tell a column of labels from a flat list of
    labels: the actual labels that [classify] returns as one-element lists
    (every identifier but ['breast_cancer']) are scored as the same labels
    given bare, results and errors alike. *)
Theorem evaluate_column_or_flat labels (g : list scalar) predictions :
  evaluate labels ((λ v, Wrapped [v]) <$> g) predictions
  = evaluate labels (Bare <$> g) predictions.
Proof.
  apply evaluate_ext. unfold check_targets.
  by rewrite column_or_1d_wrapped, column_or_1d_bare.
Qed.

(** X16: the mapping returned by [evaluate] has the key ['accuracy'] and
    one key per label, and no other.  A label that is itself called
    ['accuracy'] takes the place of the accuracy: under that key the mapping
    then holds the label's scores, and the accuracy is lost. *)
Theorem evaluate_keys labels gold predictions g p :
  check_targets gold predictions = Ok (g, p) →
  ∃ ev, evaluate labels gold predictions = Ok ev
    ∧ dom ev = dom labels ∪ {[SStr "accuracy"]}
    ∧ (is_Some (labels !! SStr "accuracy") →
       ev !! SStr "accuracy"
       = Some (EScores (label_scores g p (SStr "accuracy")))).
Proof.
  intros Hct.
  destruct (evaluate_ok labels _ _ _ _ Hct) as (ev & Hev & Hlook).
  exists ev. split; [done|]. split.
  - apply set_eq. intros k.
    rewrite elem_of_union, !elem_of_dom, elem_of_singleton, Hlook.
    destruct (labels !! k) as [n|].
    + split; [by left|by eauto].
    + case_decide; split; try (by eauto);
        first [intros [[? [=]]|?]; done | intros [? [=]]].
  - intros [n Hn]. by rewrite Hlook, Hn.
Qed.

(** X17: when the two sequences hold at most two distinct values and the
    label is one of them, the binary computation with the label as the
    positive class goes through, and what [evaluate] stores under the label
    is what it returns: the precision, the recall and the F1 of that label
    alone, each rounded to two decimals (whichever way a tie falls). *)
Theorem evaluate_binary_present labels gold predictions g p l :
  check_targets gold predictions = Ok (g, p) →
  length (unique_labels g p) ≤ 2 →
  l ∈ g ++ p →
  is_Some (labels !! l) →
  ∃ ev m, evaluate labels gold predictions = Ok ev
    ∧ ev !! l = Some (EScores m)
    ∧ scores_for gold predictions Binary l = Ok m
    ∧ nearest_hundredth (FNum (precision_of g p l)) (precision m)
    ∧ nearest_hundredth (FNum (recall_of g p l)) (recall m)
    ∧ nearest_hundredth (FNum (f1_of g p l)) (f1 m).
Proof.
  intros Hct Htwo Hl [n Hn].
  assert (Hacc : binary_accepted g p l = true).
  { unfold binary_accepted.
    rewrite (proj2 (Nat.ltb_ge _ _)) by lia.
    rewrite bool_decide_eq_false_2; [done|].
    intros Hnot. apply Hnot. unfold unique_labels.
    by apply elem_of_remove_dups. }
  destruct (evaluate_ok labels _ _ _ _ Hct) as (ev & Hev & Hlook).
  exists ev, (binary_scores g p l). split; [done|]. split.
  { rewrite Hlook, Hn. unfold label_scores. by rewrite Hacc. }
  split.
  { by rewrite (scores_for_binary _ _ _ _ _ Hct), Hacc. }
  apply binary_scores_near.
Qed.

(** X18: when the two sequences hold exactly two distinct values and the
    label is neither of them, the binary computation is refused for that
    label, and what [evaluate] stores under it is not zeros but the averages
    of the precision, of the recall and of the F1 of the two values
    present, each rounded to two decimals (whichever way a tie falls). *)
Theorem evaluate_absent_label_macro labels gold predictions g p l :
  check_targets gold predictions = Ok (g, p) →
  length (unique_labels g p) = 2 →
  l ∉ g ++ p →
  is_Some (labels !! l) →
  scores_for gold predictions Binary l = Raise ValueError
  ∧ ∃ ev m, evaluate labels gold predictions = Ok ev
      ∧ ev !! l = Some (EScores m)
      ∧ nearest_hundredth
          (np_average (precision_of g p <$> unique_labels g p)) (precision m)
      ∧ nearest_hundredth
          (np_average (recall_of g p <$> unique_labels g p)) (recall m)
      ∧ nearest_hundredth
          (np_average (f1_of g p <$> unique_labels g p)) (f1 m).
Proof.
  intros Hct Htwo Hl [n Hn].
  assert (Hacc : binary_accepted g p l = false).
  { unfold binary_accepted. rewrite Htwo.
    rewrite bool_decide_eq_true_2; [done|].
    unfold unique_labels. by rewrite elem_of_remove_dups. }
  split.
  - by rewrite (scores_for_binary _ _ _ _ _ Hct), Hacc.
  - destruct (evaluate_ok labels _ _ _ _ Hct) as (ev & Hev & Hlook).
    exists ev, (macro_scores g p). split; [done|]. split.
    + rewrite Hlook, Hn. unfold label_scores. by rewrite Hacc.
    + apply macro_scores_near.
Qed.

(** *** The driver *)

Lemma for_each_app {A S} (xs ys : list A) (body : A → S → result S) acc :
  for_each (xs ++ ys) body acc
  = for_each xs body acc ≫= for_each ys body.
Proof.
  revert acc. induction xs as [|x xs IH]; intros acc; [done|].
  simpl. destruct (body x acc) as [acc1|e]; [apply IH|done].
Qed.

(** X19: the driver handles no exception: when the datasets before some
    identifier have gone through and [read_data] raises for that
    identifier, the driver raises the same exception and stops there. *)
Theorem driver_fail_fast σ i dataset_id acc e :
  datasets !! i = Some dataset_id →
  for_each (take i datasets) run_dataset ([], σ) = Ok acc →
  read_data dataset_id = Raise e →
  driver σ = Raise e.
Proof.
  intros Hi Hpre Hread. unfold driver.
  rewrite <- (take_drop_middle datasets i dataset_id Hi).
  rewrite for_each_app, Hpre, bind_Ok_l. simpl.
  unfold run_dataset. by rewrite Hread.
Qed.

Lemma inner_loop_output σ0 dataset_id data labels items out σ out' σ' :
  est_params <$> objects σ = est_params <$> objects σ0 →
  for_each items (run_classifier dataset_id data labels) (out, σ)
  = Ok (out', σ') →
  ∃ results, out' = out ++ results
    ∧ Forall2 (result_line σ0 dataset_id data labels) items results.
Proof.
  revert out σ. induction items as [|item items IH]; intros out σ Hparams.
  - intros [= <- <-]. exists []. by rewrite app_nil_r.
  - simpl. intros ([out1 σ1] & H1 & Hk)%bind_Ok.
    pose proof (run_classifier_store _ _ _ _ _ _ H1) as (_ & _ & Hobjs).
    cbn [snd] in Hobjs.
    unfold run_classifier in H1. cbn [fst snd] in H1.
    apply bind_Ok in H1 as ([[pred actual] σ2] & Hc & H1).
    apply bind_Ok in H1 as (ev & Hev & H1). injection H1 as <- <-.
    apply IH in Hk as (results & -> & Hres); [|congruence].
    exists (PrintResult item.1 ev :: results).
    split; [by rewrite <- app_assoc|].
    constructor; [|done].
    destruct (classify_from_params _ _ _ σ σ0 _ _ _ Hc)
      as (_ & _ & σ3 & Hc0 & _).
    { by rewrite <- !list_lookup_fmap, Hparams. }
    by exists pred, actual, σ3, ev.
Qed.

Lemma outer_loop_output σ0 ids out σ out' σ' :
  classifiers σ = classifiers σ0 →
  est_params <$> objects σ = est_params <$> objects σ0 →
  for_each ids run_dataset (out, σ) = Ok (out', σ') →
  ∃ blocks, out' = out ++ mjoin blocks
    ∧ Forall2 (dataset_block σ0) ids blocks.
Proof.
  revert out σ. induction ids as [|dataset_id ids IH];
    intros out σ Hitems Hparams.
  - intros [= <- <-]. exists []. by rewrite app_nil_r.
  - simpl. intros ([out1 σ1] & H1 & Hk)%bind_Ok.
    pose proof (run_dataset_store _ _ _ H1) as (_ & Hcl & Hobjs).
    cbn [snd] in Hcl, Hobjs.
    unfold run_dataset in H1. cbn [fst snd] in H1.
    apply bind_Ok in H1 as (data & Hdata & H1).
    apply bind_Ok in H1 as (labels & Hlabels & H1).
    apply (inner_loop_output σ0) in H1 as (results & -> & Hres); [|done].
    apply IH in Hk as (blocks & -> & Hblocks); [|congruence..].
    exists (([PrintRule; PrintDataset dataset_id; PrintLabels labels]
             ++ results) :: blocks).
    split; [by rewrite <- !app_assoc|].
    constructor; [|done]. exists data, labels, results.
    by rewrite <- Hitems.
Qed.

(** X20: what the driver prints, when it goes through, is one block per
    dataset, in the order of [datasets]; a block is the rule, the
    identifier, the label summary that [outcome_values] gives for the table
    that [read_data] returns, then one result per entry of [classifiers],
    in their order and under their names: the evaluation, against these
    labels, of what [classify] returns on that table with that entry's
    object for model, the object being taken as the driver finds it at the
    start; what the runs before it have left in the store has no part in a
    line. *)
Theorem driver_output σ out σ' :
  driver σ = Ok (out, σ') →
  ∃ blocks, out = mjoin blocks
    ∧ Forall2 (dataset_block σ) datasets blocks.
Proof.
  intros Hd. unfold driver in Hd.
  by apply (outer_loop_output σ) in Hd as (blocks & -> & Hblocks);
    [exists blocks|..].
Qed.

(** *** The range of the scores *)

Lemma Q_div_unit (a b : Q) :
  (0 <= a)%Q → (a <= b)%Q → (0 < b)%Q → (0 <= a / b)%Q ∧ (a / b <= 1)%Q.
Proof.
  intros Ha Hab Hb. split.
  - apply Qle_shift_div_l; [done|]. lra.
  - apply Qle_shift_div_r; [done|]. lra.
Qed.

Lemma Q_harmonic_unit (a b : Q) :
  (0 <= a)%Q → (a <= 1)%Q → (0 <= b)%Q → (b <= 1)%Q → (0 < a + b)%Q →
  (0 <= (1 + 1) * a * b / (a + b))%Q ∧ ((1 + 1) * a * b / (a + b) <= 1)%Q.
Proof.
  intros Ha0 Ha1 Hb0 Hb1 Hab. split.
  - apply Qle_shift_div_l; [done|]. nra.
  - apply Qle_shift_div_r; [done|]. nra.
Qed.

Lemma Qc_zero_unit : (0 <= 0)%Qc ∧ (0 <= 1)%Qc.
Proof. split; unfold Qcle, Qle; simpl; lia. Qed.

Lemma prf_divide_unit num den :
  num ≤ den →
  (0 <= prf_divide num den)%Qc ∧ (prf_divide num den <= 1)%Qc.
Proof.
  intros H. unfold prf_divide. destruct (den =? 0) eqn:Hd.
  - apply Qc_zero_unit.
  - apply Nat.eqb_neq in Hd. unfold Qcle.
    rewrite Qc_div_this, !Qc_of_nat_this.
    change (this 0%Qc) with (inject_Z 0). change (this 1%Qc) with (inject_Z 1).
    destruct (Q_div_unit (inject_Z (Z.of_nat num)) (inject_Z (Z.of_nat den)))
      as [H0 H1].
    + change 0%Q with (inject_Z 0). rewrite <- Zle_Qle. lia.
    + rewrite <- Zle_Qle. lia.
    + change 0%Q with (inject_Z 0). rewrite <- Zlt_Qlt. lia.
    + done.
Qed.

Lemma true_positives_le_pred l g p :
  true_positives l g p ≤ count_occ_label l p.
Proof.
  unfold true_positives, count_occ_label. revert p.
  induction g as [|x g IH]; intros [|y p]; simpl; try lia.
  rewrite !filter_cons. specialize (IH p).
  repeat case_decide; simpl in *; try lia. by destruct H.
Qed.

Lemma true_positives_le_gold l g p :
  true_positives l g p ≤ count_occ_label l g.
Proof.
  unfold true_positives, count_occ_label. revert p.
  induction g as [|x g IH]; intros [|y p]; simpl; try lia.
  rewrite !filter_cons. specialize (IH p).
  repeat case_decide; simpl in *; try lia. by destruct H.
Qed.

Lemma precision_of_unit g p l :
  (0 <= precision_of g p l)%Qc ∧ (precision_of g p l <= 1)%Qc.
Proof. apply prf_divide_unit, true_positives_le_pred. Qed.

Lemma recall_of_unit g p l :
  (0 <= recall_of g p l)%Qc ∧ (recall_of g p l <= 1)%Qc.
Proof. apply prf_divide_unit, true_positives_le_gold. Qed.

Lemma f1_of_unit g p l :
  (0 <= f1_of g p l)%Qc ∧ (f1_of g p l <= 1)%Qc.
Proof.
  unfold f1_of. cbv zeta.
  generalize (precision_of_unit g p l) (recall_of_unit g p l).
  generalize (precision_of g p l) (recall_of g p l).
  intros a b [Ha0 Ha1] [Hb0 Hb1].
  case_decide as Hz; [apply Qc_zero_unit|].
  unfold Qcle in *.
  change (this 0%Qc) with 0%Q in *. change (this 1%Qc) with 1%Q in *.
  rewrite Qc_div_this, !Qc_mult_this, !Qc_plus_this.
  change (this 1%Qc) with 1%Q.
  apply Q_harmonic_unit; try done.
  destruct (Qlt_le_dec 0 (a + b)) as [Hpos|Hneg]; [done|].
  exfalso. apply Hz. apply Qc_is_canon. rewrite Qc_plus_this.
  change (this 0%Qc) with 0%Q. lra.
Qed.

Lemma round2_unit (x : Qc) :
  (0 <= x)%Qc ∧ (x <= 1)%Qc → (0 <= round2 x)%Qc ∧ (round2 x <= 1)%Qc.
Proof.
  intros [H0 H1]. destruct (round2_nearest x) as ([k Hk] & H2 & H3).
  rewrite Hk in *. destruct (hundredth_near _ _ H2 H3) as [H4 H5].
  unfold Qcle in *.
  change (this 0%Qc) with 0%Q in *. change (this 1%Qc) with 1%Q in *.
  assert (Hk0 : (0 <= k)%Z).
  { assert (H : (-1 # 2 <= inject_Z k)%Q) by lra.
    unfold Qle in H. simpl in H. lia. }
  assert (Hk1 : (k <= 100)%Z).
  { assert (H : (inject_Z k <= 201 # 2)%Q) by lra.
    unfold Qle in H. simpl in H. lia. }
  rewrite hundredth_this.
  rewrite Zle_Qle in Hk0, Hk1. change (inject_Z 0) with 0%Q in Hk0.
  change (inject_Z 100) with 100%Q in Hk1. split; lra.
Qed.

Lemma Qc_sum_bounds (xs : list Qc) :
  Forall (λ x, (0 <= x)%Qc ∧ (x <= 1)%Qc) xs →
  (0 <= Qc_sum xs)%Q ∧ (Qc_sum xs <= inject_Z (Z.of_nat (length xs)))%Q.
Proof.
  induction 1 as [|x xs [H0 H1] _ [IH0 IH1]].
  - simpl. split; unfold Qle; simpl; lia.
  - cbn [Qc_sum foldr length]. fold (Qc_sum xs).
    rewrite Qc_plus_this, Nat2Z.inj_succ, <- Z.add_1_r, inject_Z_plus.
    unfold Qcle in *.
    change (this 0%Qc) with 0%Q in *. change (this 1%Qc) with 1%Q in *.
    change (inject_Z 1) with 1%Q. lra.
Qed.

Lemma np_average_unit (xs : list Qc) :
  xs ≠ [] → Forall (λ x, (0 <= x)%Qc ∧ (x <= 1)%Qc) xs →
  ∃ q, np_average xs = FNum q ∧ (0 <= q)%Qc ∧ (q <= 1)%Qc.
Proof.
  intros Hne Hall. destruct (Qc_sum_bounds xs Hall) as [H0 H1].
  destruct xs as [|x xs]; [done|]. eexists. split; [done|].
  unfold Qcle. rewrite Qc_div_this, Qc_of_nat_this.
  change (this 0%Qc) with 0%Q. change (this 1%Qc) with 1%Q.
  by apply Q_div_unit.
Qed.

Lemma py_round2_unit x : unit_score x → unit_score (py_round2 x).
Proof.
  intros (q & -> & Hq). exists (round2 q). split; [done|].
  by apply round2_unit.
Qed.

Lemma accuracy_of_unit g p : g ≠ [] → unit_score (accuracy_of g p).
Proof.
  intros Hg. destruct g as [|x g]; [done|]. eexists. split; [done|].
  assert (Hle : length (filter (λ gp : scalar * scalar, gp.1 = gp.2)
                               (zip (x :: g) p)) ≤ length (x :: g)).
  { etrans; [apply length_filter|].
    generalize (x :: g). intros l. revert p.
    induction l as [|a l IH]; intros [|b p]; simpl; try lia.
    specialize (IH p). lia. }
  by apply prf_divide_unit in Hle.
Qed.

Lemma label_scores_unit g p l :
  g ≠ [] →
  unit_score (precision (label_scores g p l))
  ∧ unit_score (recall (label_scores g p l))
  ∧ unit_score (f1 (label_scores g p l)).
Proof.
  intros Hg. unfold label_scores, binary_scores, macro_scores.
  destruct (binary_accepted g p l); cbn [precision recall f1].
  - split_and!; apply py_round2_unit; eexists; (split; [done|]).
    + apply precision_of_unit.
    + apply recall_of_unit.
    + apply f1_of_unit.
  - assert (Hne : unique_labels g p ≠ []).
    { destruct g as [|x g]; [done|]. intros Hnil.
      assert (Hx : x ∈ unique_labels (x :: g) p).
      { unfold unique_labels. apply elem_of_remove_dups, elem_of_app.
        left. apply elem_of_cons. by left. }
      rewrite Hnil in Hx. by apply elem_of_nil in Hx. }
    split_and!; apply py_round2_unit, np_average_unit;
      try (by destruct (unique_labels g p));
      apply Forall_fmap, Forall_forall; intros v _; cbn [compose].
    + apply precision_of_unit.
    + apply recall_of_unit.
    + apply f1_of_unit.
Qed.

(** X21: on sequences that are not empty, every number in the mapping
    returned by [evaluate] is a number between 0 and 1: the accuracy, and
    the precision, the recall and the F1 of every label, whether they come
    from the binary computation or from the macro averages, rounding
    included. *)
Theorem evaluate_unit_scores labels gold predictions g p ev k v :
  check_targets gold predictions = Ok (g, p) →
  g ≠ [] →
  evaluate labels gold predictions = Ok ev →
  ev !! k = Some v →
  match v with
  | EFloat x => unit_score x
  | EScores m =>
      unit_score (precision m) ∧ unit_score (recall m) ∧ unit_score (f1 m)
  end.
Proof.
  intros Hct Hg Hev Hk.
  destruct (evaluate_ok labels _ _ _ _ Hct) as (ev' & Hev' & Hlook).
  rewrite Hev in Hev'. injection Hev' as <-.
  rewrite Hlook in Hk. destruct (labels !! k) as [n|].
  - injection Hk as <-. by apply label_scores_unit.
  - case_decide; [|done]. injection Hk as <-. by apply accuracy_of_unit.
Qed.

(** *** Identifiers and names that are not there *)

(** X22: an identifier that is not one of [datasets] is refused nowhere:
    [read_data] loads the liver file for it, [outcome_values] counts the
    last column, and [classify] takes the last column as the label without
    the recoding it applies to ['liver_cancer']. *)
Theorem unknown_identifier dataset_id :
  dataset_id ∉ datasets →
  read_data dataset_id = read_data "liver_cancer"
  ∧ ∀ dataset,
      outcome_values dataset_id dataset = outcome_values "liver_cancer" dataset
      ∧ features_and_labels dataset_id dataset
        = features_and_labels "cervical_cancer" dataset.
Proof.
  intros Hid. unfold datasets in Hid.
  rewrite !not_elem_of_cons in Hid.
  destruct Hid as (Hb & Hh & Hc & Hl & _).
  split; [|intros dataset; split].
  - unfold read_data, read_raw. by rewrite !decide_False by done.
  - unfold outcome_values. by rewrite !decide_False by done.
  - unfold features_and_labels. by rewrite !decide_False by done.
Qed.

(** X23: the extraction of features and labels fails in two cases only:
    for ['hyperthyroidism'] on a table of fewer than two columns, with
    [IndexError], and for ['breast_cancer'] on a table without a column
    labelled [1], with [KeyError]. *)
Theorem features_and_labels_errors dataset_id dataset e :
  features_and_labels dataset_id dataset = Raise e
  ↔ (dataset_id = "hyperthyroidism" ∧ n_columns dataset < 2
     ∧ e = IndexError)
    ∨ (dataset_id = "breast_cancer" ∧ (SInt 1 ∉ columns dataset)
       ∧ e = KeyError).
Proof.
  unfold features_and_labels.
  destruct (decide (dataset_id = "hyperthyroidism")) as [->|Hh].
  - unfold iloc_from_end.
    destruct (columns dataset !! (n_columns dataset - 2)) as [c2|] eqn:H2.
    + destruct (n_columns dataset <? 2) eqn:Hlt.
      * apply Nat.ltb_lt in Hlt. cbn. split.
        -- intros [= <-]. by left.
        -- by intros [(_ & _ & ->)|(? & _)].
      * apply Nat.ltb_ge in Hlt. rewrite bind_Ok_l.
        destruct (columns dataset !! (n_columns dataset - 1)) as [c1|] eqn:H1.
        -- rewrite (proj2 (Nat.ltb_ge _ _)) by lia. cbn. split; [done|].
           intros [(_ & ? & _)|(? & _)]; [lia|done].
        -- apply lookup_ge_None in H1. unfold n_columns in *. lia.
    + apply lookup_ge_None in H2. cbn. split.
      * intros [= <-]. left. unfold n_columns in *. split_and!; [done|lia|done].
      * by intros [(_ & _ & ->)|(? & _)].
  - destruct (decide (dataset_id = "liver_cancer")) as [->|Hl].
    { split; [done|]. by intros [(? & _)|(? & _)]. }
    destruct (decide (dataset_id = "breast_cancer")) as [->|Hb].
    2:{ split; [done|]. by intros [(? & _)|(? & _)]. }
    unfold drop_columns, getitem, col_position.
    destruct (decide (SInt 1 ∈ columns dataset)) as [Hin|Hnin].
    + rewrite bool_decide_eq_true_2 by (by repeat constructor).
      destruct (list_find_elem_of (λ c, c = SInt 1) _ _ Hin eq_refl)
        as [[j c] Hfind].
      rewrite bind_Ok_l, Hfind. cbn. split; [done|].
      by intros [(? & _)|(_ & ? & _)].
    + rewrite bool_decide_eq_false_2.
      * cbn. split.
        -- intros [= <-]. by right.
        -- by intros [(? & _)|(_ & _ & ->)].
      * intros H. by inversion H.
Qed.

(** X24: [classify] reads the global [model]: while no model is bound it
    returns no result, and when the data gets through the split and the
    imputer what it raises is [NameError]. *)
Theorem classify_needs_model dataset_id dataset σ :
  model σ = None →
  (∀ res, classify dataset_id dataset σ ≠ Ok res)
  ∧ ∀ X y X_train X_test y_train y_test imputer Xi_train Xi_test,
      features_and_labels dataset_id dataset = Ok (X, y) →
      train_test_split X y = Ok (X_train, X_test, y_train, y_test) →
      impute X_train X_test = Ok (imputer, Xi_train, Xi_test) →
      classify dataset_id dataset σ = Raise NameError.
Proof.
  intros Hm. split.
  - intros [[pred actual] σ'] Hc.
    apply classify_inv in Hc
      as (? & ? & ? & ? & ? & ? & ? & ? & ? & r & ? & _ & _ & _ & Hr & _).
    congruence.
  - intros X y X_train X_test y_train y_test imputer Xi_train Xi_test
           HXy Hsplit Himp.
    rewrite (classify_unfold _ _ _ _ _ _ _ _ _ HXy Hsplit).
    rewrite Himp, bind_Ok_l. cbn beta iota.
    unfold global_model. by rewrite Hm.
Qed.

(** *** More on what is returned *)

Lemma check_targets_length gold predictions g p :
  check_targets gold predictions = Ok (g, p) → length g = length p.
Proof.
  unfold check_targets. intros (g' & _ & Hk)%bind_Ok.
  apply bind_Ok in Hk as (p' & _ & Hk).
  destruct (length g' =? length p') eqn:Hlen; [|done].
  apply Nat.eqb_eq in Hlen. cbn [negb] in Hk.
  destruct (negb _) in Hk; [done|].
  destruct (_ || _) in Hk; [done|]. destruct (_ || _) in Hk; [done|].
  by injection Hk as <- <-.
Qed.

Lemma agree_count_le (g p : list scalar) :
  length (filter (λ gp : scalar * scalar, gp.1 = gp.2) (zip g p)) ≤ length g.
Proof.
  etrans; [apply length_filter|]. revert p.
  induction g as [|a g IH]; intros [|b p]; simpl; try lia.
  specialize (IH p). lia.
Qed.

Lemma agree_count_all (g p : list scalar) :
  length g = length p →
  length (filter (λ gp : scalar * scalar, gp.1 = gp.2) (zip g p)) = length g
  ↔ g = p.
Proof.
  revert p. induction g as [|a g IH]; intros [|b p] Hlen; try done.
  simpl in Hlen. cbn [zip_with length].
  destruct (decide (a = b)) as [->|Hne].
  - rewrite filter_cons_True by done. cbn [length].
    specialize (IH p ltac:(lia)). split.
    + intros [= H]. apply IH in H. by subst.
    + intros [= ->]. f_equal. by apply IH.
  - rewrite filter_cons_False by done.
    pose proof (agree_count_le g p). split; [lia|congruence].
Qed.

Lemma Qc_of_nat_ratio_one k n :
  n ≠ 0 → (Qc_of_nat k / Qc_of_nat n)%Qc = 1%Qc ↔ k = n.
Proof.
  intros Hn.
  assert (Hnz : ¬ (inject_Z (Z.of_nat n) == 0)%Q).
  { change 0%Q with (inject_Z 0). rewrite inject_Z_injective. lia. }
  split.
  - intros H. apply (f_equal this) in H.
    pose proof (Qc_div_this (Qc_of_nat k) (Qc_of_nat n)) as Hq.
    rewrite H, !Qc_of_nat_this in Hq. change (this 1%Qc) with 1%Q in Hq.
    symmetry in Hq.
    assert (Hk : (inject_Z (Z.of_nat k) == inject_Z (Z.of_nat n))%Q).
    { transitivity (inject_Z (Z.of_nat k) / inject_Z (Z.of_nat n)
                    * inject_Z (Z.of_nat n))%Q.
      - by field.
      - rewrite Hq. ring. }
    unfold Qeq in Hk. simpl in Hk. lia.
  - intros ->. apply Qc_is_canon. rewrite Qc_div_this, Qc_of_nat_this.
    change (this 1%Qc) with 1%Q. by field.
Qed.

(** X25: the accuracy is kept as computed, so that, no label being called
    ['accuracy'], the mapping holds exactly 1 under ['accuracy'] if and
    only if every prediction is the actual label. *)
Theorem evaluate_accuracy_perfect labels gold predictions g p ev :
  check_targets gold predictions = Ok (g, p) →
  g ≠ [] →
  labels !! SStr "accuracy" = None →
  evaluate labels gold predictions = Ok ev →
  ev !! SStr "accuracy" = Some (EFloat (FNum 1%Qc)) ↔ g = p.
Proof.
  intros Hct Hg Hacc Hev.
  destruct (evaluate_ok labels _ _ _ _ Hct) as (ev' & Hev' & Hlook).
  rewrite Hev in Hev'. injection Hev' as <-.
  rewrite Hlook, Hacc, decide_True by done.
  pose proof (check_targets_length _ _ _ _ Hct) as Hlen.
  rewrite <- (agree_count_all g p Hlen).
  destruct g as [|x g]; [done|]. unfold accuracy_of.
  set (k := length (filter _ _)). set (n := length (x :: g)).
  rewrite <- (Qc_of_nat_ratio_one k n) by done.
  split; [|by intros ->].
  intros H.
  by apply (f_equal (λ v, match v with
                          | Some (EFloat (FNum q)) => q
                          | _ => 0%Qc
                          end)) in H.
Qed.

(** X26: [evaluate] uses the keys of [labels] and nothing else of it: two
    label summaries with the same keys, whatever their counts, give the same
    evaluation, or the same exception. *)
Theorem evaluate_labels_keys_only (labels labels' : gmap scalar nat)
    gold predictions :
  dom labels = dom labels' →
  evaluate labels gold predictions = evaluate labels' gold predictions.
Proof.
  intros Hdom.
  destruct (check_targets gold predictions) as [[g p]|e] eqn:Hct.
  - destruct (evaluate_ok labels _ _ _ _ Hct) as (ev & -> & Hlook).
    destruct (evaluate_ok labels' _ _ _ _ Hct) as (ev' & -> & Hlook').
    f_equal. apply map_eq. intros k. rewrite Hlook, Hlook'.
    assert (Hk : is_Some (labels !! k) ↔ is_Some (labels' !! k))
      by (by rewrite <- !elem_of_dom, Hdom).
    destruct (labels !! k) as [n|], (labels' !! k) as [n'|]; try done.
    + destruct Hk as [Hk _]. by destruct Hk.
    + destruct Hk as [_ Hk]. by destruct Hk.
  - unfold evaluate, accuracy_score. by rewrite Hct.
Qed.

Lemma shuffle_split_inv n train test :
  shuffle_split n = Ok (train, test) →
  2 ≤ n ∧ length test = (n + 4) / 5.
Proof.
  intros H. destruct (decide (n < 2)) as [Hlt|Hge].
  - by rewrite shuffle_split_small in H.
  - assert (Hn : 2 ≤ n) by lia. split; [done|].
    destruct (shuffle_split_ok n Hn) as (train' & test' & H' & _ & Hlen & _).
    rewrite H in H'. by injection H' as <- <-.
Qed.

(** X27: [classify] returns only on a table of at least two rows, and the
    actual labels it returns are those of a fifth of the rows, rounded
    up. *)
Theorem classify_actual_count dataset_id dataset σ pred actual σ' :
  classify dataset_id dataset σ = Ok (pred, actual, σ') →
  2 ≤ length (rows dataset)
  ∧ length actual = (length (rows dataset) + 4) / 5.
Proof.
  intros Hc.
  apply classify_inv in Hc
    as (X & y & X_train & X_test & y_train & y_test & imputer
        & Xi_train & Xi_test & r & q
        & HXy & Hsplit & _ & _ & _ & _ & _ & ->).
  pose proof (features_and_labels_length _ _ _ _ HXy) as Hlen.
  pose proof (features_and_labels_label_count _ _ _ _ HXy) as Hy.
  apply train_test_split_inv in Hsplit
    as (train & test & Hidx & _ & _ & _ & _ & Hte).
  apply shuffle_split_inv in Hidx as [Hn Htest].
  apply Forall2_length in Hte. rewrite <- Hte, Htest.
  rewrite <- Hy, <- Hlen. done.
Qed.

End Notebook.

(** ** The properties on the sample world *)

Lemma round_half_even_near (y : Q) :
  (inject_Z (Sample.round_half_even y) - y <= 1 # 2)%Q
  ∧ (y - inject_Z (Sample.round_half_even y) <= 1 # 2)%Q.
Proof.
  unfold Sample.round_half_even. cbv zeta.
  pose proof (Qfloor_le y) as Hlo. pose proof (Qlt_floor y) as Hhi.
  rewrite inject_Z_plus in Hhi. change (inject_Z 1) with 1%Q in Hhi.
  destruct (y - inject_Z (Qfloor y) ?= 1 # 2)%Q eqn:Hc.
  - apply Qeq_alt in Hc.
    destruct (Z.even _); rewrite ?inject_Z_plus;
      change (inject_Z 1) with 1%Q; lra.
  - apply Qlt_alt in Hc. lra.
  - apply Qgt_alt in Hc. rewrite inject_Z_plus.
    change (inject_Z 1) with 1%Q. lra.
Qed.

Lemma sample_round2_nearest (q : Qc) :
  nearest_hundredth (FNum q) (FNum (Sample.round2 q)).
Proof.
  split; [by eexists|].
  destruct (round_half_even_near (q * inject_Z 100)) as [H1 H2].
  assert (Hr : (Sample.round2 q
                == inject_Z (Sample.round_half_even (q * inject_Z 100))
                   / inject_Z 100)%Q).
  { unfold Sample.round2, Q2Qc. cbn [this]. apply Qred_correct. }
  revert H1 H2 Hr.
  generalize (inject_Z (Sample.round_half_even (q * inject_Z 100))).
  intros r H1 H2 Hr.
  assert (Hh : (Q2Qc (1 # 200) == 1 # 200)%Q)
    by (unfold Q2Qc; cbn [this]; apply Qred_correct).
  unfold Qcle. rewrite !Qc_minus_this, Hh, Hr.
  change (inject_Z 100) with 100%Q in *.
  unfold Qdiv. change (/ 100)%Q with (1 # 100)%Q.
  split; lra.
Qed.

(** The notebook's functions on the sample world. *)
Local Abbreviation sample_check_targets := (check_targets Sample.float_repr).
Local Abbreviation sample_rounded2 := (rounded2 Sample.round2).
Local Abbreviation sample_label_scores := (label_scores Sample.round2).
Local Abbreviation sample_scores_for :=
  (scores_for Sample.float_repr Sample.round2).
Local Abbreviation sample_evaluate :=
  (evaluate Sample.float_repr Sample.round2).
Local Abbreviation sample_impute := (impute Sample.np_float).
Local Abbreviation sample_classify :=
  (classify Sample.np_float Sample.float_repr nat Sample.draw_permutation
            scalar Sample.predict_with Sample.fit_with).
Local Abbreviation sample_run_classifier :=
  (run_classifier Sample.np_float Sample.float_repr Sample.round2 nat
                  Sample.draw_permutation scalar Sample.predict_with
                  Sample.fit_with).
Local Abbreviation sample_driver :=
  (driver Sample.read_csv Sample.to_numeric Sample.np_float Sample.float_repr
          Sample.round2 nat Sample.draw_permutation scalar
          Sample.predict_with Sample.fit_with).
Local Abbreviation sample_dataset_block :=
  (dataset_block Sample.read_csv Sample.to_numeric Sample.np_float
                 Sample.float_repr Sample.round2 nat Sample.draw_permutation
                 scalar Sample.predict_with Sample.fit_with).
Local Abbreviation liverless_driver :=
  (driver Sample.read_csv_no_liver Sample.to_numeric Sample.np_float
          Sample.float_repr Sample.round2 nat Sample.draw_permutation scalar
          Sample.predict_with Sample.fit_with).
Local Abbreviation liverless_run_dataset :=
  (run_dataset Sample.read_csv_no_liver Sample.to_numeric Sample.np_float
               Sample.float_repr Sample.round2 nat Sample.draw_permutation
               scalar Sample.predict_with Sample.fit_with).

(** The store after the cell that defines [classifiers], and a store in
    which the first estimator object has been fitted before, on other data,
    and whose generator has been drawn from. *)
Local Abbreviation sample_store :=
  (cell_classifiers nat scalar (empty_store nat scalar 0)).
Local Abbreviation used_store :=
  (mk_store nat scalar
     [mk_estimator scalar (DecisionTreeClassifier 5 1) (Some (SStr "M"))]
     [] None [0] 7).

Lemma evaluate_rounds_label_scores_witness :
  sample_check_targets Sample.gold_bm Sample.pred_bb
  = Ok (Sample.flat_bm, Sample.flat_bb)
  ∧ ∃ ev,
      sample_evaluate Sample.two_labels Sample.gold_bm Sample.pred_bb = Ok ev
      ∧ (∀ l, is_Some (Sample.two_labels !! l) →
           ∃ m, ev !! l = Some (EScores m)
                ∧ sample_rounded2 (precision m)
                ∧ sample_rounded2 (recall m)
                ∧ sample_rounded2 (f1 m))
      ∧ (Sample.two_labels !! SStr "accuracy" = None →
           ev !! SStr "accuracy"
           = Some (EFloat (accuracy_of Sample.flat_bm Sample.flat_bb)))
      ∧ (is_Some (Sample.two_labels !! SStr "accuracy") →
           ∀ x, ev !! SStr "accuracy" ≠ Some (EFloat x))
      ∧ (∀ l m, ev !! l = Some (EScores m) →
           two_decimals (precision m) ∧ two_decimals (recall m)
           ∧ two_decimals (f1 m)).
Proof.
  split; [reflexivity|].
  apply (evaluate_rounds_label_scores Sample.float_repr Sample.round2
           sample_round2_nearest Sample.two_labels Sample.gold_bm
           Sample.pred_bb).
  reflexivity.
Defined.

(** C2 fails for the accuracy: with two agreeing positions out of three the
    value stored under ['accuracy'] is 2/3, which is not a float rounded to
    two decimals. *)
Lemma evaluate_accuracy_not_rounded :
  ∃ ev, sample_evaluate Sample.two_labels Sample.gold_bm Sample.pred_bb = Ok ev
    ∧ ev !! SStr "accuracy" = Some (EFloat (FNum (Q2Qc (2 # 3))))
    ∧ ¬ sample_rounded2 (FNum (Q2Qc (2 # 3)))
    ∧ ¬ two_decimals (FNum (Q2Qc (2 # 3))).
Proof.
  destruct (evaluate_ok Sample.float_repr Sample.round2 Sample.two_labels
              Sample.gold_bm Sample.pred_bb _ _ eq_refl)
    as (ev & Hev & Hlook).
  exists ev. split; [done|]. split; [|split].
  - rewrite Hlook. compute_done.
  - unfold rounded2. compute_done.
  - intros [k Hk]. apply Q2Qc_eq_iff in Hk.
    unfold Qeq in Hk. simpl in Hk. lia.
Qed.

(** A label called ['accuracy'] takes the place of the accuracy: both
    sequences agree everywhere, and what the key holds is the three scores
    of a label that does not occur. *)
Lemma evaluate_accuracy_overwritten :
  accuracy_of Sample.flat_b Sample.flat_b = FNum 1%Qc
  ∧ ∃ ev,
      sample_evaluate Sample.labels_with_accuracy Sample.gold_b Sample.pred_b
      = Ok ev
      ∧ ev !! SStr "accuracy"
        = Some (EScores (mk_prf (FNum 0%Qc) (FNum 0%Qc) (FNum 0%Qc))).
Proof.
  split; [compute_done|].
  destruct (evaluate_ok Sample.float_repr Sample.round2
              Sample.labels_with_accuracy Sample.gold_b Sample.pred_b
              _ _ eq_refl)
    as (ev & Hev & Hlook).
  exists ev. split; [done|]. rewrite Hlook. compute_done.
Qed.





Lemma outcome_values_counts_witness :
  labelled_for "liver_cancer" Sample.ilpd_missing
  ∧ ∃ values, outcome_values "liver_cancer" Sample.ilpd_missing = Ok values
      ∧ values !! SNaN = None
      ∧ ∀ v, v ≠ SNaN →
          values !! v
          = match count_occ_label v
                    (column_at (label_position "liver_cancer"
                                  Sample.ilpd_missing)
                               Sample.ilpd_missing) with
            | 0 => None
            | S n => Some (S n)
            end.
Proof.
  assert (H : labelled_for "liver_cancer" Sample.ilpd_missing)
    by (unfold labelled_for; simpl; compute_done).
  split; [exact H|].
  apply (outcome_values_counts "liver_cancer" Sample.ilpd_missing H).
Defined.

(** C4 fails on a row whose label is missing: the last column below holds
    the missing marker once, and the mapping has no entry for it; the counts
    add up to four for five rows. *)
Lemma outcome_values_drops_missing :
  count_occ_label SNaN (column_at 2 Sample.ilpd_missing) = 1
  ∧ length (rows Sample.ilpd_missing) = 5
  ∧ ∃ values, outcome_values "liver_cancer" Sample.ilpd_missing = Ok values
      ∧ values !! SNaN = None
      ∧ map_fold (λ _ n total, n + total) 0 values = 4.
Proof.
  split; [compute_done|]. split; [done|].
  eexists. split; [reflexivity|]. split; compute_done.
Qed.

Lemma read_data_cells_witness :
  Sample.to_numeric "?" = None
  ∧ read_raw Sample.read_csv "liver_cancer" = Ok Sample.ilpd
  ∧ ∃ data, read_data Sample.read_csv Sample.to_numeric "liver_cancer" = Ok data
      ∧ columns data = columns Sample.ilpd
      ∧ Forall2 (Forall2 (cell_rule Sample.to_numeric))
                (rows Sample.ilpd) (rows data).
Proof.
  split; [reflexivity|]. split; [reflexivity|].
  apply (read_data_cells Sample.read_csv Sample.to_numeric eq_refl
           "liver_cancer" Sample.ilpd).
  reflexivity.
Defined.

Lemma sample_liver_table :
  read_data Sample.read_csv Sample.to_numeric "liver_cancer"
  = Ok Sample.liver_table.
Proof. vm_compute. reflexivity. Qed.

Lemma sample_permutation_perm n : Sample.permutation n ≡ₚ seq 0 n.
Proof. unfold Sample.permutation. by rewrite <- Permutation_rev. Qed.

Lemma sample_seeded_shuffle n g :
  Sample.draw_permutation (Some 0) n g = (Sample.permutation n, g).
Proof.
  unfold Sample.draw_permutation, rotate. rewrite Nat.Div0.mod_0_l.
  by rewrite drop_0, take_0, app_nil_r.
Qed.

Lemma sample_seeded_fit params X y g :
  Sample.fit_with params X y g = Sample.learn params X y ≫= λ f, Ok (f, g).
Proof. unfold Sample.fit_with. by destruct (Sample.learn params X y). Qed.

(** The seed is what makes the split repeatable: drawn without a seed, the
    test row changes with the state of the global generator. *)
Lemma unseeded_split_varies :
  train_test_split_rs nat Sample.draw_permutation None
                      Sample.liver_X Sample.liver_y 0
  = Ok ([[SInt 72; SInt 1]; [SNaN; SInt 1]; [SInt 62; SInt 1];
         [SInt 65; SInt 0]],
        [[SInt 17; SInt 0]],
        [Wrapped [SInt 1]; Wrapped [SInt 2]; Wrapped [SInt 1];
         Wrapped [SInt 1]],
        [Wrapped [SInt 2]], 1)
  ∧ train_test_split_rs nat Sample.draw_permutation None
                        Sample.liver_X Sample.liver_y 1
    = Ok ([[SNaN; SInt 1]; [SInt 62; SInt 1]; [SInt 65; SInt 0];
           [SInt 17; SInt 0]],
          [[SInt 72; SInt 1]],
          [Wrapped [SInt 2]; Wrapped [SInt 1]; Wrapped [SInt 1];
           Wrapped [SInt 2]],
          [Wrapped [SInt 1]], 2).
Proof. split; reflexivity. Qed.

Lemma train_test_partition_witness :
  features_and_labels "liver_cancer" Sample.liver_table
  = Ok (Sample.liver_X, Sample.liver_y)
  ∧ 2 ≤ length Sample.liver_X
  ∧ ∃ train test X_train X_test y_train y_test,
      shuffle_split Sample.permutation (length Sample.liver_X)
      = Ok (train, test)
      ∧ train_test_split Sample.permutation Sample.liver_X Sample.liver_y
        = Ok (X_train, X_test, y_train, y_test)
      ∧ train ++ test ≡ₚ seq 0 (length Sample.liver_X)
      ∧ (∀ i, i ∈ train → i ∉ test)
      ∧ (∀ i, i < length Sample.liver_X ↔ i ∈ train ∨ i ∈ test)
      ∧ length X_train + length X_test = length Sample.liver_X
      ∧ length X_test = (length Sample.liver_X + 4) / 5
      ∧ Forall2 (λ i x, Sample.liver_X !! i = Some x) train X_train
      ∧ Forall2 (λ i x, Sample.liver_X !! i = Some x) test X_test
      ∧ Forall2 (λ i x, Sample.liver_y !! i = Some x) train y_train
      ∧ Forall2 (λ i x, Sample.liver_y !! i = Some x) test y_test
      ∧ ∀ σ pred actual σ',
          sample_classify "liver_cancer" Sample.liver_table σ
          = Ok (pred, actual, σ') →
          actual = y_test
          ∧ ∃ imputer Xi_train Xi_test r,
              sample_impute X_train X_test = Ok (imputer, Xi_train, Xi_test)
              ∧ model nat scalar σ = Some r
              ∧ estimator_fit Sample.float_repr nat scalar Sample.fit_with
                              r Xi_train y_train σ
                = Ok σ'.
Proof.
  split; [reflexivity|]. split; [simpl; lia|].
  apply (train_test_partition Sample.np_float Sample.float_repr
           Sample.permutation nat Sample.draw_permutation scalar
           Sample.predict_with Sample.fit_with sample_permutation_perm
           sample_seeded_shuffle "liver_cancer" Sample.liver_table
           Sample.liver_X Sample.liver_y);
    [reflexivity | simpl; lia].
Defined.

(** The imputer on the split of the sample table: the training rows are
    the first four, in the order of the shuffle, the missing cell of the
    first column takes the mean 199/3 of 72, 62 and 65, and the test row has
    no part in it. *)
Lemma sample_imputer_means :
  train_test_split Sample.permutation Sample.liver_X Sample.liver_y
  = Ok ([[SInt 72; SInt 1]; [SNaN; SInt 1]; [SInt 62; SInt 1];
         [SInt 65; SInt 0]],
        [[SInt 17; SInt 0]],
        [Wrapped [SInt 1]; Wrapped [SInt 2]; Wrapped [SInt 1];
         Wrapped [SInt 1]],
        [Wrapped [SInt 2]])
  ∧ ∃ imputer Xi_train Xi_test,
      sample_impute [[SInt 72; SInt 1]; [SNaN; SInt 1]; [SInt 62; SInt 1];
                     [SInt 65; SInt 0]]
                    [[SInt 17; SInt 0]]
      = Ok (imputer, Xi_train, Xi_test)
      ∧ statistics_ imputer = [Some (Q2Qc (199 # 3)); Some (Q2Qc (3 # 4))]
      ∧ Xi_train = [[Q2Qc 72; Q2Qc 1]; [Q2Qc (199 # 3); Q2Qc 1];
                    [Q2Qc 62; Q2Qc 1]; [Q2Qc 65; Q2Qc 0]]
      ∧ Xi_test = [[Q2Qc 17; Q2Qc 0]].
Proof.
  split; [reflexivity|].
  eexists _, _, _. split; [vm_compute; reflexivity|].
  split_and!; cbn [statistics_]; repeat f_equal; by apply Qc_is_canon.
Qed.

Lemma classify_imputes_from_train_witness :
  ∃ pred actual σ',
    sample_classify "liver_cancer" Sample.liver_table
                    (set_model nat scalar 0 sample_store)
    = Ok (pred, actual, σ')
    ∧ ∃ X y train test X_train X_test y_train y_test Xf_train Xf_test imputer,
        features_and_labels "liver_cancer" Sample.liver_table = Ok (X, y)
        ∧ shuffle_split Sample.permutation (length X) = Ok (train, test)
        ∧ train_test_split Sample.permutation X y
          = Ok (X_train, X_test, y_train, y_test)
        ∧ Forall2 (λ i x, X !! i = Some x) train X_train
        ∧ check_array Sample.np_float X_train = Ok Xf_train
        ∧ check_array Sample.np_float X_test = Ok Xf_test
        ∧ statistics_ imputer = column_means Xf_train
        ∧ (∀ j, j < n_features Xf_train →
             statistics_ imputer !! j
             = Some (mean_observed ((λ r, mjoin (r !! j)) <$> Xf_train)))
        ∧ sample_impute X_train X_test
          = Ok (imputer,
                impute_row (statistics_ imputer) <$> Xf_train,
                impute_row (statistics_ imputer) <$> Xf_test)
        ∧ (∀ X' (y' : list pyobj) X_train' X_test' y_train' y_test'
             imputer' a b,
             length X' = length X →
             (∀ i, i ∈ train → X' !! i = X !! i) →
             train_test_split Sample.permutation X' y'
             = Ok (X_train', X_test', y_train', y_test') →
             sample_impute X_train' X_test' = Ok (imputer', a, b) →
             imputer' = imputer)
        ∧ length (statistics_ imputer) = n_features X_train
        ∧ (∀ j, j < n_features X_train →
             statistics_ imputer !! j
             = Some (mean_of (column_numbers Sample.np_float j X_train)))
        ∧ ∃ r e y1 f p,
            model nat scalar (set_model nat scalar 0 sample_store) = Some r
            ∧ objects nat scalar (set_model nat scalar 0 sample_store) !! r
              = Some e
            ∧ column_or_1d Sample.float_repr y_train = Ok y1
            ∧ Sample.learn (est_params scalar e)
                (filled_row Sample.np_float (statistics_ imputer)
                 <$> X_train) y1
              = Ok f
            ∧ Sample.predict_with f
                (filled_row Sample.np_float (statistics_ imputer)
                 <$> X_test)
              = Ok p
            ∧ pred = Bare <$> p.
Proof.
  eexists _, _, _. split; [vm_compute; reflexivity|].
  eapply (classify_imputes_from_train Sample.np_float Sample.float_repr
            Sample.permutation nat Sample.draw_permutation scalar Sample.learn
            Sample.predict_with Sample.fit_with sample_seeded_shuffle
            sample_seeded_fit "liver_cancer" Sample.liver_table
            (set_model nat scalar 0 sample_store)).
  vm_compute; reflexivity.
Defined.

Lemma classify_actual_shape_witness :
  ∃ pred actual σ',
    frame_ok Sample.liver_table
    ∧ sample_classify "liver_cancer" Sample.liver_table
                      (set_model nat scalar 0 sample_store)
      = Ok (pred, actual, σ')
    ∧ ∃ X y train test,
        features_and_labels "liver_cancer" Sample.liver_table = Ok (X, y)
        ∧ shuffle_split Sample.permutation (length X) = Ok (train, test)
        ∧ Forall is_bare pred
        ∧ if decide ("liver_cancer" = "breast_cancer")
          then ∃ col, getitem Sample.liver_table (SInt 1) = Ok col
                 ∧ Forall2 (λ i a, ∃ v, col !! i = Some v ∧ a = Bare v)
                           test actual
          else Forall2
                 (λ i a, ∃ v,
                    column_at (n_columns Sample.liver_table - 1)
                              Sample.liver_table !! i = Some v
                    ∧ a = Wrapped [label_recode "liver_cancer" v])
                 test actual.
Proof.
  assert (Hok : frame_ok Sample.liver_table) by compute_done.
  eexists _, _, _. split; [exact Hok|]. split; [vm_compute; reflexivity|].
  eapply (classify_actual_shape Sample.np_float Sample.float_repr
            Sample.permutation nat Sample.draw_permutation scalar
            Sample.predict_with Sample.fit_with sample_seeded_shuffle
            "liver_cancer" Sample.liver_table
            (set_model nat scalar 0 sample_store));
    [exact Hok | vm_compute; reflexivity].
Defined.

(** C10 fails where the label is one of the strings that [classify]
    replaces: every label of the table below is ['Female'] or ['Male'], the
    test row is the last one, with the label ['Male'], and the element of
    the actual labels is a list around the number 1, not around the
    label. *)
Lemma classify_actual_recoded :
  frame_ok Sample.liver_named
  ∧ column_at 1 Sample.liver_named
    = [SStr "Female"; SStr "Male"; SStr "Male"; SStr "Female"; SStr "Male"]
  ∧ shuffle_split Sample.permutation (length (rows Sample.liver_named))
    = Ok ([3; 2; 1; 0], [4])
  ∧ ∃ pred σ',
      sample_classify "liver_cancer" Sample.liver_named
                      (set_model nat scalar 0 sample_store)
      = Ok (pred, [Wrapped [SInt 1]], σ')
      ∧ Wrapped [SInt 1] ≠ Wrapped [SStr "Male"].
Proof.
  split; [compute_done|]. split; [reflexivity|]. split; [reflexivity|].
  eexists _, _. split; [vm_compute; reflexivity|]. done.
Qed.

(** The driver runs to its end on the sample world; the receivers of
    [fit], in order, and the number of estimator objects at the end. *)
Lemma sample_driver_trace :
  match sample_driver sample_store with
  | Ok (out, σ') =>
      fit_calls nat scalar σ' = [0; 1; 2; 3; 0; 1; 2; 3; 0; 1; 2; 3; 0; 1; 2; 3]
      ∧ length (objects nat scalar σ') = 4
  | Raise _ => False
  end.
Proof. vm_compute. split; reflexivity. Qed.

Lemma driver_refits_shared_estimators_witness :
  ∃ out σ',
    sample_driver sample_store = Ok (out, σ')
    ∧ (classifiers nat scalar sample_store).*2 = [0; 0 + 1; 0 + 2; 0 + 3]
    ∧ fit_calls nat scalar σ'
      = [] ++ mjoin ((λ _, [0; 0 + 1; 0 + 2; 0 + 3]) <$> datasets)
    ∧ length (objects nat scalar σ') = 0 + 4
    ∧ est_params scalar <$> objects nat scalar σ'
      = [] ++ [DecisionTreeClassifier 5 1; KNeighborsClassifier 3; GaussianNB;
               SVC "rbf" 2 1 1]
    ∧ ∀ dataset_id data labels name r out1 σ1 out2 σ2,
        sample_run_classifier dataset_id data labels (name, r) (out1, σ1)
        = Ok (out2, σ2) →
        ∃ e X y X_train X_test y_train y_test imputer Xi_train Xi_test y1 f,
          objects nat scalar σ1 !! r = Some e
          ∧ features_and_labels dataset_id data = Ok (X, y)
          ∧ train_test_split Sample.permutation X y
            = Ok (X_train, X_test, y_train, y_test)
          ∧ sample_impute X_train X_test = Ok (imputer, Xi_train, Xi_test)
          ∧ column_or_1d Sample.float_repr y_train = Ok y1
          ∧ Sample.learn (est_params scalar e) Xi_train y1 = Ok f
          ∧ objects nat scalar σ2
            = <[r := mk_estimator scalar (est_params scalar e) (Some f)]>
                (objects nat scalar σ1).
Proof.
  pose proof sample_driver_trace as Htrace.
  destruct (sample_driver sample_store) as [[out σ']|e] eqn:Hd;
    [|destruct Htrace].
  exists out, σ'. split; [reflexivity|].
  apply (driver_refits_shared_estimators Sample.read_csv Sample.to_numeric
           Sample.np_float Sample.float_repr Sample.round2 Sample.permutation
           nat Sample.draw_permutation scalar Sample.learn Sample.predict_with
           Sample.fit_with sample_seeded_shuffle sample_seeded_fit
           (empty_store nat scalar 0) out σ' Hd).
Defined.

(** C3 fails on the sample world: the driver makes sixteen runs on the four
    objects of [classifiers]; the object fitted in the first run, on
    ['breast_cancer'], is the one fitted in the fifth, on
    ['hyperthyroidism']. *)
Lemma driver_reuses_estimators :
  ∃ out σ',
    sample_driver sample_store = Ok (out, σ')
    ∧ length (fit_calls nat scalar σ') = 16
    ∧ length (objects nat scalar σ') = 4
    ∧ fit_calls nat scalar σ' !! 0 = Some 0
    ∧ fit_calls nat scalar σ' !! 4 = Some 0
    ∧ ¬ NoDup (fit_calls nat scalar σ').
Proof.
  pose proof sample_driver_trace as Htrace.
  destruct (sample_driver sample_store) as [[out σ']|e]; [|destruct Htrace].
  destruct Htrace as [Hfits Hobjs].
  exists out, σ'. rewrite Hfits, Hobjs.
  repeat split; try reflexivity.
  intros Hnd. apply NoDup_cons_1_1 in Hnd. apply Hnd.
  repeat (apply elem_of_cons; first [by left | right]).
Qed.

Lemma pipeline_twice_witness :
  ∃ pred actual σ1 evaluation,
    sample_classify "liver_cancer" Sample.liver_table
                    (set_model nat scalar 0 sample_store)
    = Ok (pred, actual, σ1)
    ∧ sample_evaluate Sample.liver_labels actual pred = Ok evaluation
    ∧ est_params scalar <$> objects nat scalar used_store !! 0
      = est_params scalar <$> objects nat scalar sample_store !! 0
    ∧ generator nat scalar σ1 = generator nat scalar sample_store
    ∧ est_params scalar <$> objects nat scalar σ1 !! 0
      = est_params scalar <$> objects nat scalar sample_store !! 0
    ∧ ∃ σ2,
        sample_classify "liver_cancer" Sample.liver_table
                        (set_model nat scalar 0 used_store)
        = Ok (pred, actual, σ2)
        ∧ generator nat scalar σ2 = generator nat scalar used_store
        ∧ sample_run_classifier "liver_cancer" Sample.liver_table
                                Sample.liver_labels ("Decision-Tree", 0)
                                ([], sample_store)
          = Ok ([] ++ [PrintResult "Decision-Tree" evaluation], σ1)
        ∧ sample_run_classifier "liver_cancer" Sample.liver_table
                                Sample.liver_labels ("Decision-Tree", 0)
                                ([PrintRule], used_store)
          = Ok ([PrintRule] ++ [PrintResult "Decision-Tree" evaluation], σ2).
Proof.
  assert (H : ∃ pred actual σ1,
             sample_classify "liver_cancer" Sample.liver_table
                             (set_model nat scalar 0 sample_store)
             = Ok (pred, actual, σ1)
             ∧ ∃ g p, sample_check_targets actual pred = Ok (g, p)).
  { eexists _, _, _. split; [vm_compute; reflexivity|].
    eexists _, _. vm_compute; reflexivity. }
  destruct H as (pred & actual & σ1 & Hc & g & p & Hct).
  destruct (evaluate_ok Sample.float_repr Sample.round2 Sample.liver_labels
              actual pred g p Hct)
    as (evaluation & Hev & _).
  assert (Hparams : est_params scalar <$> objects nat scalar used_store !! 0
                    = est_params scalar
                      <$> objects nat scalar sample_store !! 0)
    by reflexivity.
  exists pred, actual, σ1, evaluation.
  split; [exact Hc|]. split; [exact Hev|]. split; [exact Hparams|].
  exact (pipeline_twice Sample.np_float Sample.float_repr Sample.round2
           Sample.permutation nat Sample.draw_permutation scalar Sample.learn
           Sample.predict_with Sample.fit_with sample_seeded_shuffle
           sample_seeded_fit "liver_cancer" Sample.liver_table
           Sample.liver_labels "Decision-Tree" 0 [] sample_store [PrintRule]
           used_store pred actual σ1 evaluation Hc Hev Hparams).
Defined.

Lemma features_and_labels_rows_witness :
  features_and_labels "liver_cancer" Sample.liver_table
  = Ok (Sample.liver_X, Sample.liver_y)
  ∧ length Sample.liver_X = length (rows Sample.liver_table)
  ∧ length Sample.liver_y = length (rows Sample.liver_table).
Proof.
  split; [reflexivity|].
  apply (features_and_labels_rows "liver_cancer" Sample.liver_table).
  reflexivity.
Defined.

Lemma features_and_labels_rejoin_witness :
  "liver_cancer" ≠ "hyperthyroidism"
  ∧ "liver_cancer" ≠ "breast_cancer"
  ∧ features_and_labels "liver_cancer" Sample.liver_table
    = Ok (Sample.liver_X, Sample.liver_y)
  ∧ ∃ ls, Sample.liver_y = Wrapped <$> ls
      ∧ zip_with app Sample.liver_X ls
        = map (map (label_recode "liver_cancer")) (rows Sample.liver_table).
Proof.
  assert (H1 : "liver_cancer" ≠ "hyperthyroidism") by compute_done.
  assert (H2 : "liver_cancer" ≠ "breast_cancer") by compute_done.
  split; [exact H1|]. split; [exact H2|]. split; [reflexivity|].
  apply (features_and_labels_rejoin "liver_cancer" Sample.liver_table
           Sample.liver_X Sample.liver_y H1 H2).
  reflexivity.
Defined.

Lemma features_and_labels_breast_cancer_witness :
  frame_ok Sample.wdbc
  ∧ columns Sample.wdbc = range_index (n_columns Sample.wdbc)
  ∧ 2 ≤ n_columns Sample.wdbc
  ∧ features_and_labels "breast_cancer" Sample.wdbc
    = Ok ((λ r, take 1 r ++ drop 2 r) <$> rows Sample.wdbc,
          Bare <$> column_at 1 Sample.wdbc).
Proof.
  assert (Hok : frame_ok Sample.wdbc) by compute_done.
  assert (Hn : 2 ≤ n_columns Sample.wdbc) by (vm_compute; lia).
  split; [exact Hok|]. split; [reflexivity|]. split; [exact Hn|].
  apply (features_and_labels_breast_cancer Sample.wdbc Hok);
    [reflexivity | exact Hn].
Defined.

Lemma hyperthyroidism_one_hot_witness :
  ∃ X y,
    frame_ok Sample.hyper_table
    ∧ features_and_labels "hyperthyroidism" Sample.hyper_table = Ok (X, y)
    ∧ ∃ categories,
        NoDup categories
        ∧ (∀ c, c ∈ categories
                ↔ c ∈ column_at (n_columns Sample.hyper_table - 2)
                                Sample.hyper_table ∧ c ≠ SNaN)
        ∧ Forall2
            (λ r x, ∃ ind,
               x = map (replace_cell hyperthyroidism_codes)
                       (take (n_columns Sample.hyper_table - 2) r) ++ ind
               ∧ ind = (λ c, if decide
                                  (cell_at (n_columns Sample.hyper_table - 2) r
                                   = c)
                             then SInt 1 else SInt 0) <$> categories
               ∧ count_occ_label (SInt 1) ind
                 = if is_nan (cell_at (n_columns Sample.hyper_table - 2) r)
                   then 0 else 1)
            (rows Sample.hyper_table) X.
Proof.
  assert (Hok : frame_ok Sample.hyper_table) by compute_done.
  eexists _, _. split; [exact Hok|]. split; [vm_compute; reflexivity|].
  eapply (hyperthyroidism_one_hot Sample.hyper_table); [exact Hok|].
  vm_compute; reflexivity.
Defined.

Lemma classify_too_few_rows_witness :
  length (rows Sample.single_row) < 2
  ∧ length (rows Sample.single_cell) < 2
  ∧ features_and_labels "liver_cancer" Sample.single_row
    = Ok ([[SInt 65; SInt 0]], [Wrapped [SInt 1]])
  ∧ features_and_labels "hyperthyroidism" Sample.single_cell
    = Raise IndexError
  ∧ sample_classify "liver_cancer" Sample.single_row sample_store
    = Raise ValueError
  ∧ sample_classify "hyperthyroidism" Sample.single_cell sample_store
    = Raise IndexError.
Proof.
  assert (H1 : length (rows Sample.single_row) < 2) by (simpl; lia).
  assert (H2 : length (rows Sample.single_cell) < 2) by (simpl; lia).
  split; [exact H1|]. split; [exact H2|].
  split; [reflexivity|]. split; [reflexivity|]. split.
  - exact (classify_too_few_rows Sample.np_float Sample.float_repr
             Sample.permutation nat Sample.draw_permutation scalar
             Sample.predict_with Sample.fit_with sample_seeded_shuffle
             "liver_cancer" Sample.single_row sample_store H1).
  - exact (classify_too_few_rows Sample.np_float Sample.float_repr
             Sample.permutation nat Sample.draw_permutation scalar
             Sample.predict_with Sample.fit_with sample_seeded_shuffle
             "hyperthyroidism" Sample.single_cell sample_store H2).
Defined.

Lemma classify_rejects_text_witness :
  ∃ X y,
    features_and_labels "cervical_cancer" Sample.liver_table = Ok (X, y)
    ∧ 2 ≤ length X
    ∧ [SInt 65; SStr "Female"] ∈ X
    ∧ SStr "Female" ∈ [SInt 65; SStr "Female"]
    ∧ Sample.np_float "Female" = None
    ∧ sample_classify "cervical_cancer" Sample.liver_table sample_store
      = Raise ValueError.
Proof.
  eexists _, _.
  assert (H1 : features_and_labels "cervical_cancer" Sample.liver_table
               = Ok (take 2 <$> rows Sample.liver_table,
                     Wrapped <$> (drop 2 <$> rows Sample.liver_table)))
    by reflexivity.
  assert (H2 : 2 ≤ length (take 2 <$> rows Sample.liver_table))
    by (simpl; lia).
  assert (H3 : [SInt 65; SStr "Female"]
               ∈ take 2 <$> rows Sample.liver_table)
    by (apply elem_of_cons; by left).
  assert (H4 : SStr "Female" ∈ [SInt 65; SStr "Female"])
    by (apply elem_of_cons; right; apply elem_of_cons; by left).
  assert (H5 : Sample.np_float "Female" = None) by reflexivity.
  split; [exact H1|]. split; [exact H2|]. split; [exact H3|].
  split; [exact H4|]. split; [exact H5|].
  exact (classify_rejects_text Sample.np_float Sample.float_repr
           Sample.permutation nat Sample.draw_permutation scalar
           Sample.predict_with Sample.fit_with sample_permutation_perm
           sample_seeded_shuffle "cervical_cancer" Sample.liver_table _ _
           sample_store _ "Female" H1 H2 H3 H4 H5).
Defined.

Lemma impute_shape_witness :
  ∃ imputer Xi_train Xi_test,
    sample_impute (take 4 Sample.liver_X) (drop 4 Sample.liver_X)
    = Ok (imputer, Xi_train, Xi_test)
    ∧ n_features (drop 4 Sample.liver_X) = n_features (take 4 Sample.liver_X)
    ∧ length (statistics_ imputer) = n_features (take 4 Sample.liver_X)
    ∧ length Xi_train = length (take 4 Sample.liver_X)
    ∧ length Xi_test = length (drop 4 Sample.liver_X)
    ∧ Forall (λ r, length r = length (omap id (statistics_ imputer)))
             (Xi_train ++ Xi_test).
Proof.
  eexists _, _, _. split; [vm_compute; reflexivity|].
  eapply (impute_shape Sample.np_float). vm_compute; reflexivity.
Defined.

Lemma impute_cells_witness :
  ∃ imputer Xi_train Xi_test,
    sample_impute (take 4 Sample.liver_X) (drop 4 Sample.liver_X)
    = Ok (imputer, Xi_train, Xi_test)
    ∧ (∀ j, j < n_features (take 4 Sample.liver_X) →
            ∃ r q, r ∈ take 4 Sample.liver_X ∧ r !! j = Some (SNum q))
    ∧ ∃ means,
        statistics_ imputer = Some <$> means
        ∧ length means = n_features (take 4 Sample.liver_X)
        ∧ (∀ j m, means !! j = Some m →
             mean_observed
               ((λ r, match r !! j with
                      | Some (SNum q) => Some q
                      | Some (SStr s) => mjoin (Sample.np_float s)
                      | _ => None
                      end) <$> take 4 Sample.liver_X) = Some m)
        ∧ Xi_train
          = zip_with (λ m c, match c with
                             | SNum q => q
                             | SStr s => default m (mjoin (Sample.np_float s))
                             | SNaN => m
                             end) means
              <$> take 4 Sample.liver_X
        ∧ Xi_test
          = zip_with (λ m c, match c with
                             | SNum q => q
                             | SStr s => default m (mjoin (Sample.np_float s))
                             | SNaN => m
                             end) means
              <$> drop 4 Sample.liver_X.
Proof.
  assert (Hobs : ∀ j, j < n_features (take 4 Sample.liver_X) →
            ∃ r q, r ∈ take 4 Sample.liver_X ∧ r !! j = Some (SNum q)).
  { intros j Hj. exists [SInt 65; SInt 0].
    destruct j as [|[|j]]; [| |simpl in Hj; lia];
      eexists; (split; [apply elem_of_cons; by left|reflexivity]). }
  eexists _, _, _. split; [vm_compute; reflexivity|]. split; [exact Hobs|].
  eapply (impute_cells Sample.np_float);
    [vm_compute; reflexivity|exact Hobs].
Defined.

Lemma read_data_no_sentinel_witness :
  ∃ data,
    read_data Sample.read_csv Sample.to_numeric "liver_cancer" = Ok data
    ∧ [SInt 65; SStr "Female"; SInt 1] ∈ rows data
    ∧ SStr "Female" ∈ [SInt 65; SStr "Female"; SInt 1]
    ∧ "Female" ≠ "?" ∧ Sample.to_numeric "Female" = None.
Proof.
  assert (H1 : read_data Sample.read_csv Sample.to_numeric "liver_cancer"
               = Ok Sample.liver_table) by (vm_compute; reflexivity).
  assert (H2 : [SInt 65; SStr "Female"; SInt 1] ∈ rows Sample.liver_table)
    by (apply elem_of_cons; by left).
  assert (H3 : SStr "Female" ∈ [SInt 65; SStr "Female"; SInt 1])
    by (apply elem_of_cons; right; apply elem_of_cons; by left).
  exists Sample.liver_table.
  split; [exact H1|]. split; [exact H2|]. split; [exact H3|].
  exact (read_data_no_sentinel Sample.read_csv Sample.to_numeric
           "liver_cancer" Sample.liver_table _ "Female" H1 H2 H3).
Defined.

Lemma read_raw_hyperthyroidism_witness :
  Sample.read_csv "allhyper.data" false = Ok Sample.allhyper_data
  ∧ Sample.read_csv "allhyper.test" false = Ok Sample.allhyper_test
  ∧ frame_ok Sample.allhyper_data ∧ frame_ok Sample.allhyper_test
  ∧ NoDup (columns Sample.allhyper_data)
  ∧ columns Sample.allhyper_test = columns Sample.allhyper_data
  ∧ rows Sample.allhyper_data ++ rows Sample.allhyper_test ≠ []
  ∧ read_raw Sample.read_csv "hyperthyroidism"
    = Ok (mk_frame (range_index 3)
            [ [SStr "41"; SStr "F"; SStr "negative"];
              [SStr "?"; SStr "M"; SStr "hyperthyroid"];
              [SStr "46"; SStr "?"; SStr "negative"];
              [SStr "70"; SStr "F"; SStr "goitre"];
              [SStr "35"; SStr "M"; SStr "negative"] ]).
Proof.
  assert (H3 : frame_ok Sample.allhyper_data) by compute_done.
  assert (H4 : frame_ok Sample.allhyper_test) by compute_done.
  assert (H5 : NoDup (columns Sample.allhyper_data)) by compute_done.
  split; [reflexivity|]. split; [reflexivity|]. split; [exact H3|].
  assert (H6 : rows Sample.allhyper_data ++ rows Sample.allhyper_test ≠ [])
    by done.
  split; [exact H4|]. split; [exact H5|]. split; [reflexivity|].
  split; [exact H6|].
  exact (read_raw_hyperthyroidism Sample.read_csv Sample.allhyper_data
           Sample.allhyper_test eq_refl eq_refl H3 H4 H5 eq_refl H6).
Defined.

Lemma read_raw_cervical_cancer_witness :
  let dropped := [SStr "Dx:Cancer"; SStr "Dx:CIN"; SStr "Dx:HPV"; SStr "Dx";
                  SStr "Hinselmann"; SStr "Schiller"; SStr "Citology"] in
  Sample.read_csv "risk_factors_cervical_cancer.csv" true = Ok Sample.cervical
  ∧ dropped ⊆ columns Sample.cervical
  ∧ ∃ kept, read_raw Sample.read_csv "cervical_cancer" = Ok kept
      ∧ columns kept = filter (λ c, c ∉ dropped) (columns Sample.cervical)
      ∧ Forall2 (λ r r', zip (columns kept) r'
                         = filter (λ cr : scalar * scalar, cr.1 ∉ dropped)
                                  (zip (columns Sample.cervical) r))
                (rows Sample.cervical) (rows kept).
Proof.
  intros dropped.
  assert (Hsub : dropped ⊆ columns Sample.cervical) by compute_done.
  split; [reflexivity|]. split; [exact Hsub|].
  exact (proj1 (read_raw_cervical_cancer Sample.read_csv Sample.cervical
                  eq_refl) Hsub).
Defined.

Lemma outcome_values_errors_witness :
  NoDup (columns Sample.cervical)
  ∧ (outcome_values "breast_cancer" Sample.cervical = Raise KeyError
     ↔ ("breast_cancer" = "breast_cancer"
        ∧ (SInt 1 ∉ columns Sample.cervical) ∧ KeyError = KeyError)
       ∨ ("breast_cancer" ≠ "breast_cancer"
          ∧ columns Sample.cervical = [] ∧ KeyError = IndexError)).
Proof.
  assert (H : NoDup (columns Sample.cervical)) by compute_done.
  split; [exact H|].
  exact (outcome_values_errors "breast_cancer" Sample.cervical KeyError H).
Defined.

Lemma outcome_values_total_witness :
  ∃ values,
    labelled_for "liver_cancer" Sample.ilpd_missing
    ∧ outcome_values "liver_cancer" Sample.ilpd_missing = Ok values
    ∧ map_fold (λ _ n s, n + s) 0 values
      = length (filter (λ v, is_nan v = false)
                  (column_at (label_position "liver_cancer"
                                Sample.ilpd_missing)
                             Sample.ilpd_missing)).
Proof.
  assert (H : labelled_for "liver_cancer" Sample.ilpd_missing)
    by (unfold labelled_for; simpl; compute_done).
  exists (value_counts (column_at 2 Sample.ilpd_missing)).
  split; [exact H|]. split; [reflexivity|].
  apply (outcome_values_total "liver_cancer" Sample.ilpd_missing _ H).
  reflexivity.
Defined.

Lemma evaluate_keys_witness :
  sample_check_targets Sample.gold_bm Sample.pred_bb
  = Ok (Sample.flat_bm, Sample.flat_bb)
  ∧ ∃ ev,
      sample_evaluate Sample.two_labels Sample.gold_bm Sample.pred_bb = Ok ev
      ∧ dom ev = dom Sample.two_labels ∪ {[SStr "accuracy"]}
      ∧ (is_Some (Sample.two_labels !! SStr "accuracy") →
         ev !! SStr "accuracy"
         = Some (EScores (sample_label_scores Sample.flat_bm Sample.flat_bb
                                              (SStr "accuracy")))).
Proof.
  split; [reflexivity|].
  apply (evaluate_keys Sample.float_repr Sample.round2 Sample.two_labels
           Sample.gold_bm Sample.pred_bb).
  reflexivity.
Defined.

Lemma evaluate_binary_present_witness :
  sample_check_targets Sample.gold_bm Sample.pred_bb
  = Ok (Sample.flat_bm, Sample.flat_bb)
  ∧ length (unique_labels Sample.flat_bm Sample.flat_bb) ≤ 2
  ∧ SStr "M" ∈ Sample.flat_bm ++ Sample.flat_bb
  ∧ is_Some (Sample.two_labels !! SStr "M")
  ∧ ∃ ev m,
      sample_evaluate Sample.two_labels Sample.gold_bm Sample.pred_bb = Ok ev
      ∧ ev !! SStr "M" = Some (EScores m)
      ∧ sample_scores_for Sample.gold_bm Sample.pred_bb Binary (SStr "M")
        = Ok m
      ∧ nearest_hundredth
          (FNum (precision_of Sample.flat_bm Sample.flat_bb (SStr "M")))
          (precision m)
      ∧ nearest_hundredth
          (FNum (recall_of Sample.flat_bm Sample.flat_bb (SStr "M")))
          (recall m)
      ∧ nearest_hundredth
          (FNum (f1_of Sample.flat_bm Sample.flat_bb (SStr "M")))
          (f1 m).
Proof.
  assert (H1 : length (unique_labels Sample.flat_bm Sample.flat_bb) ≤ 2)
    by compute_done.
  assert (H2 : SStr "M" ∈ Sample.flat_bm ++ Sample.flat_bb)
    by compute_done.
  assert (H3 : is_Some (Sample.two_labels !! SStr "M")) by compute_done.
  split; [reflexivity|]. split; [exact H1|]. split; [exact H2|].
  split; [exact H3|].
  exact (evaluate_binary_present Sample.float_repr Sample.round2
           sample_round2_nearest Sample.two_labels Sample.gold_bm
           Sample.pred_bb Sample.flat_bm Sample.flat_bb (SStr "M") eq_refl H1
           H2 H3).
Defined.

Lemma evaluate_absent_label_macro_witness :
  sample_check_targets Sample.gold_two_of_three Sample.pred_two_of_three
  = Ok (Sample.flat_nnh, Sample.flat_nhh)
  ∧ length (unique_labels Sample.flat_nnh Sample.flat_nhh) = 2
  ∧ (SStr "goitre" ∉ Sample.flat_nnh ++ Sample.flat_nhh)
  ∧ is_Some (Sample.three_labels !! SStr "goitre")
  ∧ sample_scores_for Sample.gold_two_of_three Sample.pred_two_of_three
                      Binary (SStr "goitre")
    = Raise ValueError
  ∧ ∃ ev m,
      sample_evaluate Sample.three_labels Sample.gold_two_of_three
                      Sample.pred_two_of_three
      = Ok ev
      ∧ ev !! SStr "goitre" = Some (EScores m)
      ∧ nearest_hundredth
          (np_average (precision_of Sample.flat_nnh Sample.flat_nhh
                       <$> unique_labels Sample.flat_nnh Sample.flat_nhh))
          (precision m)
      ∧ nearest_hundredth
          (np_average (recall_of Sample.flat_nnh Sample.flat_nhh
                       <$> unique_labels Sample.flat_nnh Sample.flat_nhh))
          (recall m)
      ∧ nearest_hundredth
          (np_average (f1_of Sample.flat_nnh Sample.flat_nhh
                       <$> unique_labels Sample.flat_nnh Sample.flat_nhh))
          (f1 m).
Proof.
  assert (H1 : length (unique_labels Sample.flat_nnh Sample.flat_nhh) = 2)
    by compute_done.
  assert (H2 : SStr "goitre" ∉ Sample.flat_nnh ++ Sample.flat_nhh)
    by compute_done.
  assert (H3 : is_Some (Sample.three_labels !! SStr "goitre"))
    by compute_done.
  split; [reflexivity|]. split; [exact H1|]. split; [exact H2|].
  split; [exact H3|].
  exact (evaluate_absent_label_macro Sample.float_repr Sample.round2
           sample_round2_nearest Sample.three_labels Sample.gold_two_of_three
           Sample.pred_two_of_three Sample.flat_nnh Sample.flat_nhh
           (SStr "goitre") eq_refl H1 H2 H3).
Defined.

Lemma liverless_prefix :
  match for_each (take 3 datasets) liverless_run_dataset ([], sample_store)
  with
  | Ok _ => True
  | Raise _ => False
  end.
Proof. vm_compute. exact I. Qed.

Lemma driver_fail_fast_witness :
  ∃ acc,
    datasets !! 3 = Some "liver_cancer"
    ∧ for_each (take 3 datasets) liverless_run_dataset ([], sample_store)
      = Ok acc
    ∧ read_data Sample.read_csv_no_liver Sample.to_numeric "liver_cancer"
      = Raise FileNotFoundError
    ∧ liverless_driver sample_store = Raise FileNotFoundError.
Proof.
  pose proof liverless_prefix as Hpre.
  destruct (for_each (take 3 datasets) liverless_run_dataset
              ([], sample_store)) as [acc|e] eqn:Hacc; [|destruct Hpre].
  exists acc. split; [reflexivity|]. split; [reflexivity|].
  split; [reflexivity|].
  exact (driver_fail_fast Sample.read_csv_no_liver Sample.to_numeric
           Sample.np_float Sample.float_repr Sample.round2 nat
           Sample.draw_permutation scalar Sample.predict_with Sample.fit_with
           sample_store 3 "liver_cancer" acc FileNotFoundError eq_refl Hacc
           eq_refl).
Defined.

Lemma driver_output_witness :
  ∃ out σ',
    sample_driver sample_store = Ok (out, σ')
    ∧ ∃ blocks, out = mjoin blocks
        ∧ Forall2 (sample_dataset_block sample_store) datasets blocks.
Proof.
  pose proof sample_driver_trace as Htrace.
  destruct (sample_driver sample_store) as [[out σ']|e] eqn:Hd;
    [|destruct Htrace].
  exists out, σ'. split; [reflexivity|].
  exact (driver_output Sample.read_csv Sample.to_numeric Sample.np_float
           Sample.float_repr Sample.round2 Sample.permutation nat
           Sample.draw_permutation scalar Sample.learn Sample.predict_with
           Sample.fit_with sample_seeded_shuffle sample_seeded_fit
           sample_store out σ' Hd).
Defined.

Lemma evaluate_unit_scores_witness :
  ∃ ev,
    sample_check_targets Sample.gold_bm Sample.pred_bb
    = Ok (Sample.flat_bm, Sample.flat_bb)
    ∧ Sample.flat_bm ≠ []
    ∧ sample_evaluate Sample.two_labels Sample.gold_bm Sample.pred_bb = Ok ev
    ∧ ev !! SStr "B"
      = Some (EScores (sample_label_scores Sample.flat_bm Sample.flat_bb
                                           (SStr "B")))
    ∧ unit_score (precision (sample_label_scores Sample.flat_bm
                                                 Sample.flat_bb (SStr "B")))
    ∧ unit_score (recall (sample_label_scores Sample.flat_bm
                                              Sample.flat_bb (SStr "B")))
    ∧ unit_score (f1 (sample_label_scores Sample.flat_bm
                                          Sample.flat_bb (SStr "B"))).
Proof.
  destruct (evaluate_ok Sample.float_repr Sample.round2 Sample.two_labels
              Sample.gold_bm Sample.pred_bb _ _ eq_refl) as (ev & Hev & Hlook).
  assert (Hg : Sample.flat_bm ≠ []) by done.
  assert (Hk : ev !! SStr "B"
               = Some (EScores (sample_label_scores
                                  Sample.flat_bm Sample.flat_bb (SStr "B")))).
  { rewrite Hlook. reflexivity. }
  exists ev. split; [reflexivity|]. split; [exact Hg|]. split; [exact Hev|].
  split; [exact Hk|].
  exact (evaluate_unit_scores Sample.float_repr Sample.round2
           sample_round2_nearest Sample.two_labels Sample.gold_bm
           Sample.pred_bb _ _ ev (SStr "B") _ eq_refl Hg Hev Hk).
Defined.

Lemma unknown_identifier_witness :
  ("lung_cancer" ∉ datasets)
  ∧ read_data Sample.read_csv Sample.to_numeric "lung_cancer"
    = read_data Sample.read_csv Sample.to_numeric "liver_cancer"
  ∧ ∀ dataset,
      outcome_values "lung_cancer" dataset
      = outcome_values "liver_cancer" dataset
      ∧ features_and_labels "lung_cancer" dataset
        = features_and_labels "cervical_cancer" dataset.
Proof.
  assert (H : "lung_cancer" ∉ datasets) by compute_done.
  split; [exact H|].
  exact (unknown_identifier Sample.read_csv Sample.to_numeric "lung_cancer" H).
Defined.

Lemma classify_needs_model_witness :
  model nat scalar sample_store = None
  ∧ (∀ res, sample_classify "liver_cancer" Sample.liver_table sample_store
            ≠ Ok res)
  ∧ ∀ X y X_train X_test y_train y_test imputer Xi_train Xi_test,
      features_and_labels "liver_cancer" Sample.liver_table = Ok (X, y) →
      train_test_split Sample.permutation X y
      = Ok (X_train, X_test, y_train, y_test) →
      sample_impute X_train X_test = Ok (imputer, Xi_train, Xi_test) →
      sample_classify "liver_cancer" Sample.liver_table sample_store
      = Raise NameError.
Proof.
  split; [reflexivity|].
  exact (classify_needs_model Sample.np_float Sample.float_repr
           Sample.permutation nat Sample.draw_permutation scalar
           Sample.predict_with Sample.fit_with sample_seeded_shuffle
           "liver_cancer" Sample.liver_table sample_store eq_refl).
Defined.

Lemma evaluate_accuracy_perfect_witness :
  ∃ ev,
    sample_check_targets Sample.gold_b Sample.pred_b
    = Ok (Sample.flat_b, Sample.flat_b)
    ∧ Sample.flat_b ≠ []
    ∧ Sample.two_labels !! SStr "accuracy" = None
    ∧ sample_evaluate Sample.two_labels Sample.gold_b Sample.pred_b = Ok ev
    ∧ (ev !! SStr "accuracy" = Some (EFloat (FNum 1%Qc))
       ↔ Sample.flat_b = Sample.flat_b).
Proof.
  destruct (evaluate_ok Sample.float_repr Sample.round2 Sample.two_labels
              Sample.gold_b Sample.pred_b _ _ eq_refl) as (ev & Hev & _).
  assert (Hg : Sample.flat_b ≠ []) by done.
  assert (Hacc : Sample.two_labels !! SStr "accuracy" = None)
    by compute_done.
  exists ev. split; [reflexivity|]. split; [exact Hg|].
  split; [exact Hacc|]. split; [exact Hev|].
  exact (evaluate_accuracy_perfect Sample.float_repr Sample.round2
           Sample.two_labels Sample.gold_b Sample.pred_b _ _ ev eq_refl Hg
           Hacc Hev).
Defined.

Lemma evaluate_labels_keys_only_witness :
  dom Sample.two_labels = dom Sample.two_labels_recount
  ∧ Sample.two_labels ≠ Sample.two_labels_recount
  ∧ sample_evaluate Sample.two_labels Sample.gold_bm Sample.pred_bb
    = sample_evaluate Sample.two_labels_recount Sample.gold_bm Sample.pred_bb.
Proof.
  assert (Hdom : dom Sample.two_labels = dom Sample.two_labels_recount)
    by compute_done.
  split; [exact Hdom|]. split; [compute_done|].
  exact (evaluate_labels_keys_only Sample.float_repr Sample.round2
           Sample.two_labels Sample.two_labels_recount Sample.gold_bm
           Sample.pred_bb Hdom).
Defined.

Lemma classify_actual_count_witness :
  ∃ pred actual σ',
    sample_classify "liver_cancer" Sample.liver_table
                    (set_model nat scalar 0 sample_store)
    = Ok (pred, actual, σ')
    ∧ 2 ≤ length (rows Sample.liver_table)
    ∧ length actual = (length (rows Sample.liver_table) + 4) / 5.
Proof.
  eexists _, _, _. split; [vm_compute; reflexivity|].
  eapply (classify_actual_count Sample.np_float Sample.float_repr
            Sample.permutation nat Sample.draw_permutation scalar
            Sample.predict_with Sample.fit_with sample_permutation_perm
            sample_seeded_shuffle "liver_cancer" Sample.liver_table
            (set_model nat scalar 0 sample_store)).
  vm_compute; reflexivity.
Defined.
